(** * web-term backend: the agent conversation loop of [backend/main.py]

    A shallow embedding of the Python module and the properties of its
    session loop, streaming aggregator, mode policy and file tools.

    Conventions of the embedding.
    - A Python [str] is a Rocq [string]; one character stands for one code
      point, so the alphabet is cut to the first 256 code points.
    - A value that comes out of [json.loads] is a [json] term; Python's
      dynamic checks on such values (truthiness, [.get], slicing, [len],
      iteration) are written out, with the exception they raise.
    - Everything outside the module (the completion service, the shell, the
      search service, the random source, the directory walk, [json.loads]
      and [str()] of the interpreter) is a field of the class [Host]; the
      theorems hold for every host.
    - The file tree seen by [read_file] and [write_file] is a finite map
      from resolved paths to nodes; [os.path.dirname], [os.path.split] and
      [os.makedirs] follow the CPython library text.
    - [websocket.send_json] appends to the outbound log and does not fail;
      a completion stream is a finite list of well-formed chunks that
      arrives whole. A client that goes away, a stream that breaks off and
      a chunk without [choices] or [function] are outside the embedding.
    - [get_project_structure] is also embedded on its own, over the
      listings that [os.walk] reads (module [Structure]). *)

From Stdlib Require Import ZArith Ascii String List Lia DecimalString.
From stdpp Require Import base gmap strings list sorting.

#[local] Open Scope Z_scope.
#[local] Set Warnings "-register-all".

(* ===================================================================== *)
(** ** Python strings *)

Module PyStr.

Definition sep : ascii := "/"%char.
Definition LF : ascii := "010"%char.
Definition CR : ascii := "013"%char.

Definition is_empty (s : string) : bool :=
  match s with EmptyString => true | String _ _ => false end.

(** [s[:n]] for [n >= 0]. *)
Fixpoint take (n : nat) (s : string) : string :=
  match n, s with
  | O, _ => ""
  | S _, EmptyString => ""
  | S n', String c s' => String c (take n' s')
  end.

(** [s.startswith(p)]. *)
Fixpoint startswith (p s : string) : bool :=
  match p, s with
  | EmptyString, _ => true
  | String _ _, EmptyString => false
  | String a p', String b s' => if decide (a = b) then startswith p' s' else false
  end.

(** [sep.join(l)]. *)
Fixpoint join (sp : string) (l : list string) : string :=
  match l with
  | [] => ""
  | [x] => x
  | x :: l' => x +:+ sp +:+ join sp l'
  end.

(** [(p[:i], p[i:])] for [i = p.rfind('/') + 1]. *)
Fixpoint cut_last_sep (p : string) : string * string :=
  match p with
  | EmptyString => ("", "")
  | String c p' =>
      let '(h, t) := cut_last_sep p' in
      if is_empty h then
        if decide (c = sep) then (String c "", t) else ("", String c t)
      else (String c h, t)
  end.

(** [s == '/' * len(s)]. *)
Fixpoint all_sep (s : string) : bool :=
  match s with
  | EmptyString => true
  | String c s' => if decide (c = sep) then all_sep s' else false
  end.

(** [s.rstrip('/')]. *)
Fixpoint rstrip_sep (s : string) : string :=
  match s with
  | EmptyString => ""
  | String c s' =>
      let r := rstrip_sep s' in
      if is_empty r then (if decide (c = sep) then "" else String c "")
      else String c r
  end.

(** [s.split('/')]. *)
Fixpoint split_sep (s : string) : list string :=
  match s with
  | EmptyString => [""]
  | String c s' =>
      if decide (c = sep) then "" :: split_sep s'
      else match split_sep s' with
           | x :: xs => String c x :: xs
           | [] => [String c ""]
           end
  end.

(** Universal newlines of text-mode reading: CR LF and CR become LF. *)
Fixpoint universal_newlines (s : string) : string :=
  match s with
  | EmptyString => ""
  | String c s' =>
      if decide (c = CR) then
        match s' with
        | String d s'' =>
            if decide (d = LF) then String LF (universal_newlines s'')
            else String LF (universal_newlines s')
        | EmptyString => String LF ""
        end
      else String c (universal_newlines s')
  end.

(** The white space [str.strip()] removes, within the alphabet. *)
Definition is_space (c : ascii) : bool :=
  let n := nat_of_ascii c in
  ((9 <=? n)%nat && (n <=? 13)%nat) || ((28 <=? n)%nat && (n <=? 32)%nat)
  || (n =? 133)%nat || (n =? 160)%nat.

Fixpoint lstrip (s : string) : string :=
  match s with
  | EmptyString => ""
  | String c s' => if is_space c then lstrip s' else s
  end.

Fixpoint rstrip (s : string) : string :=
  match s with
  | EmptyString => ""
  | String c s' =>
      let r := rstrip s' in
      if is_empty r && is_space c then "" else String c r
  end.

Definition strip (s : string) : string := rstrip (lstrip s).

(** Line boundaries of [str.splitlines()], within the alphabet. *)
Definition is_linebreak (c : ascii) : bool :=
  let n := nat_of_ascii c in
  ((10 <=? n)%nat && (n <=? 13)%nat) || ((28 <=? n)%nat && (n <=? 30)%nat)
  || (n =? 133)%nat.

(** [len(s.splitlines())]: a line ends at a line boundary (CR LF counts
    once) or at the end of a non-empty remainder. *)
Fixpoint count_lines_go (open_line : bool) (s : string) : nat :=
  match s with
  | EmptyString => if open_line then 1%nat else 0%nat
  | String c s' =>
      if decide (c = CR) then
        match s' with
        | String d s'' =>
            if decide (d = LF) then S (count_lines_go false s'')
            else S (count_lines_go false s')
        | EmptyString => 1%nat
        end
      else if is_linebreak c then S (count_lines_go false s')
      else count_lines_go true s'
  end.

Definition count_lines (s : string) : nat := count_lines_go false s.

End PyStr.

(* ===================================================================== *)
(** ** Values produced by [json.loads] *)

Inductive json : Type :=
| JNull
| JBool (b : bool)
| JInt (n : Z)
| JFloat (nonzero : bool) (repr : string)
| JStr (s : string)
| JArr (items : list json)
| JObj (fields : list (string * json)).

(** A [float] is kept as what the program can observe of it: whether it is
    zero and how it prints. A [dict] keeps its items in insertion order,
    one per key. *)

Module Py.

(** Truth value of a Python object. *)
Definition truthy (v : json) : bool :=
  match v with
  | JNull => false
  | JBool b => b
  | JInt n => negb (n =? 0)
  | JFloat nz _ => nz
  | JStr s => negb (PyStr.is_empty s)
  | JArr l => match l with [] => false | _ => true end
  | JObj kv => match kv with [] => false | _ => true end
  end.

(** [v == s] for a [str] literal [s]. *)
Definition eq_str (v : json) (s : string) : bool :=
  match v with
  | JStr t => bool_decide (t = s)
  | _ => false
  end.

Fixpoint assoc (k : string) (kv : list (string * json)) : option json :=
  match kv with
  | [] => None
  | (k', v) :: kv' => if decide (k' = k) then Some v else assoc k kv'
  end.

(** [type(v).__name__]. *)
Definition type_name (v : json) : string :=
  match v with
  | JNull => "NoneType"
  | JBool _ => "bool"
  | JInt _ => "int"
  | JFloat _ _ => "float"
  | JStr _ => "str"
  | JArr _ => "list"
  | JObj _ => "dict"
  end.

End Py.

(* ===================================================================== *)
(** ** [repr] and [str] of values *)

Module Repr.

Definition dquote : ascii := "034"%char.
Definition squote : ascii := "039"%char.
Definition backslash : ascii := "092"%char.

Fixpoint contains (c : ascii) (s : string) : bool :=
  match s with
  | EmptyString => false
  | String d s' => if decide (d = c) then true else contains c s'
  end.

Definition hex_digit (n : nat) : ascii :=
  default "0"%char (list_ascii_of_string "0123456789abcdef" !! n).

(** [str.isprintable] on one character of the alphabet. *)
Definition printable (c : ascii) : bool :=
  let n := nat_of_ascii c in
  ((32 <=? n)%nat && (n <? 127)%nat) || ((161 <=? n)%nat && negb (n =? 173)%nat).

(** One character inside the quotes [q]. *)
Definition escape (q c : ascii) : string :=
  if bool_decide (c = q ∨ c = backslash) then String backslash (String c "")
  else if decide (c = "009"%char) then String backslash "t"
  else if decide (c = "010"%char) then String backslash "n"
  else if decide (c = "013"%char) then String backslash "r"
  else if printable c then String c ""
  else String backslash
         (String "x" (String (hex_digit (nat_of_ascii c / 16))
                             (String (hex_digit (nat_of_ascii c mod 16)) ""))).

Fixpoint escape_all (q : ascii) (s : string) : string :=
  match s with
  | EmptyString => ""
  | String c s' => escape q c +:+ escape_all q s'
  end.

(** [repr(s)] for a [str]: single quotes, unless [s] holds a single quote
    and no double quote. *)
Definition of_str (s : string) : string :=
  let q := if contains squote s && negb (contains dquote s) then dquote else squote in
  String q (escape_all q s) +:+ String q "".

Fixpoint join (sp : string) (l : list string) : string :=
  match l with
  | [] => ""
  | [x] => x
  | x :: l' => x +:+ sp +:+ join sp l'
  end.

(** [repr(v)] for a value of [json.loads]. *)
Fixpoint of_value (v : json) : string :=
  match v with
  | JNull => "None"
  | JBool b => if b then "True" else "False"
  | JInt n => NilZero.string_of_int (Z.to_int n)
  | JFloat _ r => r
  | JStr s => of_str s
  | JArr l => "[" +:+ join ", " (map of_value l) +:+ "]"
  | JObj kv =>
      "{" +:+ join ", " (map (λ p, match p with
                                   | (k, x) => of_str k +:+ ": " +:+ of_value x
                                   end) kv) +:+ "}"
  end.

(** [str(v)]. *)
Definition str (v : json) : string :=
  match v with
  | JStr s => s
  | _ => of_value v
  end.

End Repr.

(* ===================================================================== *)
(** ** Exceptions *)

Inductive errno : Type := ENOENT | EEXIST | ENOTDIR | EISDIR.

Inductive pyexn : Type :=
| OSError (e : errno) (filename : string)
| TypeError (msg : string)
| AttributeError (msg : string)
| KeyError (msg : string)
| RecursionError
| JSONDecodeError.

Definition strerror (e : errno) : string :=
  match e with
  | ENOENT => "[Errno 2] No such file or directory"
  | EEXIST => "[Errno 17] File exists"
  | ENOTDIR => "[Errno 20] Not a directory"
  | EISDIR => "[Errno 21] Is a directory"
  end.

(** [str(e)]. An [OSError] shows the [repr] of its file name. *)
Definition exn_str (e : pyexn) : string :=
  match e with
  | OSError n f => strerror n +:+ ": " +:+ Repr.of_str f
  | TypeError m => m
  | AttributeError m => m
  | KeyError m => m
  | RecursionError => "maximum recursion depth exceeded"
  | JSONDecodeError => "Expecting value"
  end.

Definition is_FileExistsError (e : pyexn) : bool :=
  match e with OSError EEXIST _ => true | _ => false end.

(** ['T' object has no attribute 'get'], raised by [args.get] and
    [message.get] on a value that is not a [dict]. *)
Definition no_get (v : json) : pyexn :=
  AttributeError ("'" +:+ Py.type_name v +:+ "' object has no attribute 'get'").

(** [d.get(k, dflt)]. *)
Definition dict_get (d : json) (k : string) (dflt : json) : pyexn + json :=
  match d with
  | JObj kv => inr (default dflt (Py.assoc k kv))
  | _ => inl (no_get d)
  end.

(* ===================================================================== *)
(** ** The file tree and the system calls of [os] *)

Inductive node : Type := File (content : string) | Dir.

#[global] Instance node_eq_dec : EqDecision node.
Proof. solve_decision. Defined.

(** Keys are resolved paths, as component lists below the working
    directory; the working directory itself is the empty list and always a
    directory. Resolution drops empty components and [.]; a leading [/],
    [..], links, and a final [/] or [/.] after the name of a regular file
    are outside the model. *)
Abbreviation tree := (gmap (list string) node).

Module OS.

Definition components (p : string) : list string :=
  filter (λ c, c ≠ "" ∧ c ≠ ".") (PyStr.split_sep p).

Definition node_at (fs : tree) (cs : list string) : option node :=
  match cs with
  | [] => Some Dir
  | _ => fs !! cs
  end.

(** Walks [cs] below the directory [cur]. *)
Fixpoint walk (fs : tree) (cur cs : list string) : errno + node :=
  match cs with
  | [] => match node_at fs cur with
          | Some n => inr n
          | None => inl ENOENT
          end
  | c :: cs' =>
      match node_at fs cur with
      | Some Dir => walk fs (cur ++ [c]) cs'
      | Some (File _) => inl ENOTDIR
      | None => inl ENOENT
      end
  end.

(** [os.stat(p)]. *)
Definition stat (fs : tree) (p : string) : pyexn + node :=
  if PyStr.is_empty p then inl (OSError ENOENT p)
  else match walk fs [] (components p) with
       | inl e => inl (OSError e p)
       | inr n => inr n
       end.

(** [os.path.exists(p)] and [os.path.isdir(p)]: a failing [stat] is
    [False]. *)
Definition exists_ (fs : tree) (p : string) : bool :=
  match stat fs p with inr _ => true | inl _ => false end.

Definition isdir (fs : tree) (p : string) : bool :=
  match stat fs p with inr Dir => true | _ => false end.

(** [os.mkdir(p)]. *)
Definition mkdir (fs : tree) (p : string) : pyexn + tree :=
  if PyStr.is_empty p then inl (OSError ENOENT p)
  else
    let cs := components p in
    match walk fs [] (removelast cs) with
    | inl e => inl (OSError e p)
    | inr (File _) => inl (OSError ENOTDIR p)
    | inr Dir =>
        match node_at fs cs with
        | Some _ => inl (OSError EEXIST p)
        | None => inr (<[cs := Dir]> fs)
        end
    end.

(** [open(p, "w").write(content)]: creates or truncates a regular file. *)
Definition write_text (fs : tree) (p content : string) : pyexn + tree :=
  if PyStr.is_empty p then inl (OSError ENOENT p)
  else
    let cs := components p in
    match walk fs [] (removelast cs) with
    | inl e => inl (OSError e p)
    | inr (File _) => inl (OSError ENOTDIR p)
    | inr Dir =>
        match node_at fs cs with
        | Some Dir => inl (OSError EISDIR p)
        | _ => inr (<[cs := File content]> fs)
        end
    end.

(** [open(p, "r").read()]. *)
Definition read_text (fs : tree) (p : string) : pyexn + string :=
  match stat fs p with
  | inl e => inl e
  | inr Dir => inl (OSError EISDIR p)
  | inr (File c) => inr (PyStr.universal_newlines c)
  end.

(** [os.path.split(p)] of [posixpath]. *)
Definition split (p : string) : string * string :=
  let '(head, tail) := PyStr.cut_last_sep p in
  (if negb (PyStr.is_empty head) && negb (PyStr.all_sep head)
   then PyStr.rstrip_sep head else head, tail).

(** [os.path.dirname(p)]. *)
Definition dirname (p : string) : string := fst (split p).

(** [os.makedirs(name, exist_ok=exist_ok)]: the exception it raises, if
    any, and the tree it leaves (directories made before a failure stay).
    The recursive call is on [head], a proper prefix of [name]; [n] bounds
    the depth. *)
Fixpoint makedirs_rec (n : nat) (fs : tree) (name : string) (exist_ok : bool)
  : option (option pyexn * tree) :=
  match n with
  | O => None
  | S n' =>
      let '(head, tail) := split name in
      let '(head, tail) :=
        if PyStr.is_empty tail then split head else (head, tail) in
      let finish (fs1 : tree) : option (option pyexn * tree) :=
        match mkdir fs1 name with
        | inr fs2 => Some (None, fs2)
        | inl e =>
            if negb exist_ok || negb (isdir fs1 name) then Some (Some e, fs1)
            else Some (None, fs1)
        end in
      if negb (PyStr.is_empty head) && negb (PyStr.is_empty tail)
         && negb (exists_ fs head)
      then
        match makedirs_rec n' fs head exist_ok with
        | None => None
        | Some (raised, fs1) =>
            let caught :=
              match raised with
              | Some e => if is_FileExistsError e then None else Some e
              | None => None
              end in
            match caught with
            | Some e => Some (Some e, fs1)
            | None =>
                if decide (tail = ".") then Some (None, fs1) else finish fs1
            end
        end
      else finish fs
  end.

(** The bound is never reached ([makedirs_rec_total] below), so the
    default is never taken. *)
Definition makedirs (fs : tree) (name : string) (exist_ok : bool)
  : option pyexn * tree :=
  default (Some RecursionError, fs)
          (makedirs_rec (S (String.length name)) fs name exist_ok).

End OS.

(* ===================================================================== *)
(** ** The file tools *)

(** [read_file(path)] for a [str] path. *)
Definition read_file (fs : tree) (path : string) : string :=
  if negb (OS.exists_ fs path) then "Error: File '" +:+ path +:+ "' not found."
  else match OS.read_text fs path with
       | inr text => text
       | inl e => "Error reading file: " +:+ exn_str e
       end.

(** [write_file(path, content)] for [str] arguments: the result text and
    the file tree it leaves. *)
Definition write_file (fs : tree) (path content : string) : string * tree :=
  match OS.makedirs fs (OS.dirname path) true with
  | (Some e, fs1) => ("Error writing file: " +:+ exn_str e, fs1)
  | (None, fs1) =>
      match OS.write_text fs1 path content with
      | inl e => ("Error writing file: " +:+ exn_str e, fs1)
      | inr fs2 => ("Successfully wrote to " +:+ path, fs2)
      end
  end.

(* ===================================================================== *)
(** ** The tool registry *)

Record param : Type := {
  p_name : string;
  p_type : string;
  p_description : option string;
}.

Record tool_def : Type := {
  t_name : string;
  t_description : string;
  t_properties : list param;
  t_required : list string;
}.

Definition TOOL_DEFINITIONS : list tool_def := [
  {| t_name := "read_file";
     t_description := "Read the contents of a file.";
     t_properties := [ {| p_name := "path"; p_type := "string"; p_description := None |} ];
     t_required := ["path"] |};
  {| t_name := "write_file";
     t_description := "Write content to a file. Overwrites existing content.";
     t_properties := [ {| p_name := "path"; p_type := "string"; p_description := None |};
                       {| p_name := "content"; p_type := "string"; p_description := None |} ];
     t_required := ["path"; "content"] |};
  {| t_name := "run_terminal_command";
     t_description := "Run a shell command.";
     t_properties := [ {| p_name := "command"; p_type := "string"; p_description := None |} ];
     t_required := ["command"] |};
  {| t_name := "web_search";
     t_description := "Search the web for documentation, solutions, or libraries.";
     t_properties := [ {| p_name := "query"; p_type := "string";
                          p_description := Some "The search query." |} ];
     t_required := ["query"] |}
].

(** The list comprehension of [handle_message] for ["chat"] mode. *)
Definition chat_tools : list tool_def :=
  filter (λ t, t_name t ∈ ["read_file"; "web_search"]) TOOL_DEFINITIONS.

(* ===================================================================== *)
(** ** Streamed chunks, transcript messages and outbound events *)

(** One element of [delta.tool_calls]: [tc.index], [tc.id],
    [tc.function.name] and [tc.function.arguments]. The loop reads
    [tc.function] without a test, so a fragment has one. *)
Record fragment : Type := {
  f_index : Z;
  f_id : option string;
  f_name : option string;
  f_arguments : option string;
}.

(** [chunk.choices[0].delta]: its [content] and its [tool_calls]. The
    loop reads [choices[0]] without a test, so a chunk has a first choice. *)
Record chunk : Type := {
  c_content : option string;
  c_tool_calls : option (list fragment);
}.

(** A value of the dictionary [tool_calls]. *)
Record call : Type := {
  id : option string;
  name : option string;
  args : string;
}.

(** An element of [tool_calls_msg]; its ["type"] is always ["function"]. *)
Record tool_call_request : Type := {
  tc_id : option string;
  tc_name : option string;
  tc_arguments : string;
}.

(** The entries of [self.messages], by role. A user message holds the
    text as it came from the client, or the text and the image references
    when there are images. *)
Inductive message : Type :=
| MSystem (content : string)
| MUser (content : json)
| MUserBlocks (text : json) (image_urls : list json)
| MAssistant (content : string)
| MAssistantCalls (content : option string) (tool_calls : list tool_call_request)
| MTool (tool_call_id : option string) (content : string).

(** The JSON objects sent to the client, by shape: a thought (with an
    [id] when it is streamed text), a command or search (start and result
    differ in [output]), and the start and result of a file read and of a
    file write; [EFileContent] answers a request of the file viewer. *)
Inductive event : Type :=
| EThought (eid : option string) (content : string)
| ECommand (eid : string) (command : json) (output : string)
| EFileRead (eid : string) (path : json)
| EFileReadResult (eid : string) (path : json) (lines : nat) (content_preview : string)
| EFileWrite (eid : string) (path : json) (content_preview : string)
| EFileWriteResult (eid : string) (path : json) (output : string)
| EFileContent (path : json) (content : string).

(** What the session does, in order: completion requests, events sent to
    the client, calls of the tool functions, and appends to the
    transcript. *)
Inductive action : Type :=
| ARequest (msgs : list message) (tools : option (list tool_def))
| ASend (ev : event)
| ACall (tool : string) (arguments : list json)
| AAppend (m : message).

Inductive proc_outcome : Type :=
| Completed (stdout stderr : string)
| TimeoutExpired
| ProcFailed (e : string).

Record search_row : Type := { title : string; href : string; body : string }.

Inductive search_outcome : Type :=
| SearchRows (rows : list search_row)
| SearchFailed (e : string).

(** The collaborators of the module. [E] is the state of the outside world
    other than the file tree. *)
Class Host (E : Type) : Type := {
  (** [json.loads(text)]; [None] when it raises. *)
  json_loads : string → option json;
  (** [str(v)] for a value that is not a [str]. *)
  py_str : json → string;
  (** [client.chat.completions.create(..., stream=True)]: the text of the
      exception it raises, or the chunks of the stream. *)
  completions_create :
    E → list message → option (list tool_def) → E * (string + list chunk);
  (** [os.urandom(4).hex()]. *)
  urandom_hex : E → E * string;
  (** [subprocess.run(command, shell=True, ..., timeout=15)]. *)
  subprocess_run : E → tree → json → E * tree * proc_outcome;
  (** [DDGS().text(keywords=query, max_results=5)]. *)
  ddgs_text : E → json → E * search_outcome;
  (** [read_file(path)] for a path that is not a [str] (a descriptor
      number, or a value [os.stat] rejects): always some text. *)
  read_file_other : E → tree → json → E * string;
  (** [get_project_structure()]. *)
  get_project_structure : E → tree → string;
}.

(** [allowed_tools if allowed_tools else None]. *)
Definition tools_arg (tools : list tool_def) : option (list tool_def) :=
  match tools with
  | [] => None
  | _ => Some tools
  end.

(** [f"{v}"]. *)
Definition fmt `{Host E} (v : json) : string :=
  match v with
  | JStr s => s
  | _ => py_str v
  end.

Definition fmt_opt (o : option string) : string := default "None" o.

(** Truth value of an optional [str]. *)
Definition nonempty (o : option string) : bool :=
  match o with
  | Some s => negb (PyStr.is_empty s)
  | None => false
  end.

(* ===================================================================== *)
(** ** Session state and the monad of the session code *)

Record state (E : Type) : Type := mkState {
  messages : list message;
  mode : json;
  fs : tree;
  env : E;
  trace : list action;
}.
Arguments mkState {E}.
Arguments messages {E}.
Arguments mode {E}.
Arguments fs {E}.
Arguments env {E}.
Arguments trace {E}.

Inductive result (A : Type) : Type :=
| Ok (a : A)
| Raise (e : pyexn).
Arguments Ok {A}.
Arguments Raise {A}.

Definition M (E A : Type) : Type := state E → result A * state E.

Definition ret {E A} (a : A) : M E A := λ s, (Ok a, s).

Definition bind {E A B} (m : M E A) (k : A → M E B) : M E B :=
  λ s, match m s with
       | (Ok a, s') => k a s'
       | (Raise e, s') => (Raise e, s')
       end.

Definition raise {E A} (e : pyexn) : M E A := λ s, (Raise e, s).

Declare Scope session_scope.
Delimit Scope session_scope with session.
Notation "x <- m ;; k" := (bind m (λ x, k))
  (at level 20, m at level 99, k at level 200, only parsing) : session_scope.
Notation "m ;; k" := (bind m (λ _, k))
  (at level 100, k at level 200, only parsing, right associativity) : session_scope.
#[local] Open Scope session_scope.

Definition lift {E A} (r : pyexn + A) : M E A :=
  match r with
  | inl e => raise e
  | inr a => ret a
  end.

Definition log {E} (a : action) : M E unit :=
  λ s, (Ok tt, mkState (messages s) (mode s) (fs s) (env s) (trace s ++ [a])).

(** [await self.websocket.send_json(ev)]. *)
Definition send {E} (ev : event) : M E unit := log (ASend ev).

(** [self.messages.append(m)]. *)
Definition append_message {E} (m : message) : M E unit :=
  λ s, (Ok tt, mkState (messages s ++ [m]) (mode s) (fs s) (env s)
                       (trace s ++ [AAppend m])).

Definition get_messages {E} : M E (list message) := λ s, (Ok (messages s), s).
Definition get_mode {E} : M E json := λ s, (Ok (mode s), s).

(* ===================================================================== *)
(** ** Dynamic checks on values *)

Definition nl : string := String PyStr.LF "".

(** [len(v)]. *)
Definition py_len (v : json) : pyexn + nat :=
  match v with
  | JStr s => inr (String.length s)
  | JArr l => inr (length l)
  | JObj kv => inr (length kv)
  | _ => inl (TypeError ("object of type '" +:+ Py.type_name v +:+ "' has no len()"))
  end.

Fixpoint chars (s : string) : list json :=
  match s with
  | EmptyString => []
  | String c s' => JStr (String c "") :: chars s'
  end.

(** The items of [for x in v]. *)
Definition py_iter (v : json) : pyexn + list json :=
  match v with
  | JArr l => inr l
  | JStr s => inr (chars s)
  | JObj kv => inr (map (λ p, JStr (fst p)) kv)
  | _ => inl (TypeError ("'" +:+ Py.type_name v +:+ "' object is not iterable"))
  end.

(** [content[:200] + "..."]. Only a [str] passes: a number, a truth value
    and [None] have no slice, a slice of a [list] does not take a [str]
    on its right, a [dict] rejects the slice as a key. *)
Definition preview200 (content : json) : pyexn + string :=
  match content with
  | JStr s => inr (PyStr.take 200 s +:+ "...")
  | JArr _ =>
      inl (TypeError ("can only concatenate list (not "
                      +:+ String Repr.dquote "str" +:+ String Repr.dquote ") to list"))
  | JObj _ => inl (TypeError "unhashable type: 'slice'")
  | _ => inl (TypeError ("'" +:+ Py.type_name content +:+ "' object is not subscriptable"))
  end.

(* ===================================================================== *)
(** ** The streaming aggregator (the body of [for tc in delta.tool_calls]) *)

Definition set_name (n : option string) (c : call) : call :=
  {| id := id c; name := n; args := args c |}.

Definition add_args (a : string) (c : call) : call :=
  {| id := id c; name := name c; args := args c +:+ a |}.

Definition absorb (tool_calls : gmap Z call) (tc : fragment) : gmap Z call :=
  let idx := f_index tc in
  let d1 :=
    match tool_calls !! idx with
    | None => <[idx := {| id := f_id tc; name := f_name tc; args := "" |}]> tool_calls
    | Some _ => tool_calls
    end in
  let d2 := if nonempty (f_name tc) then alter (set_name (f_name tc)) idx d1 else d1 in
  if nonempty (f_arguments tc)
  then alter (add_args (default "" (f_arguments tc))) idx d2
  else d2.

(** [sorted(tool_calls.keys())]. *)
Definition sorted_keys (tool_calls : gmap Z call) : list Z :=
  merge_sort Z.le (fst <$> map_to_list tool_calls).

Definition request_of (tc : call) : tool_call_request :=
  {| tc_id := id tc; tc_name := name tc; tc_arguments := args tc |}.

(** [tool_calls[idx]]. *)
Definition subscript {E} (tool_calls : gmap Z call) (idx : Z) : M E call :=
  match tool_calls !! idx with
  | Some tc => ret tc
  | None => raise (KeyError "idx")
  end.

Fixpoint build_tool_calls_msg {E} (tool_calls : gmap Z call) (keys : list Z)
  : M E (list tool_call_request) :=
  match keys with
  | [] => ret []
  | idx :: keys' =>
      tc <- subscript tool_calls idx ;;
      rest <- build_tool_calls_msg tool_calls keys' ;;
      ret (request_of tc :: rest)
  end.

(* ===================================================================== *)
(** ** The prompts *)

Definition PROMPT_AGENT (structure : string) : string :=
  nl +:+ "You are a Senior Software Engineer. Act autonomously. Plan first."
  +:+ nl +:+ "You can read files, write files, run terminal commands, and search the web."
  +:+ nl +:+ "If you see an image, analyze it to understand the bug or error."
  +:+ nl +:+ "Current Structure:"
  +:+ nl +:+ structure +:+ nl.

Definition PROMPT_CHAT (structure : string) : string :=
  nl +:+ "You are a Code Assistant. READ-ONLY mode."
  +:+ nl +:+ "Current Structure:"
  +:+ nl +:+ structure +:+ nl.

Inductive flow : Type := Continue | Break | Return.

(* ===================================================================== *)
(** ** [AgentSession] and the connection handler *)

Section Session.
Context {E : Type} `{Host E}.

(** [run_terminal_command(command)]. *)
Definition run_terminal_command (command : json) : M E string :=
  λ s,
    let '(e', fs', out) := subprocess_run (env s) (fs s) command in
    let text :=
      match out with
      | Completed stdout stderr =>
          let output :=
            if negb (PyStr.is_empty stderr)
            then stdout +:+ nl +:+ "STDERR:" +:+ nl +:+ stderr
            else stdout in
          let stripped := PyStr.strip output in
          if PyStr.is_empty stripped then "(No output)" else stripped
      | TimeoutExpired => "Error: Command timed out."
      | ProcFailed e => "Error executing command: " +:+ e
      end in
    (Ok text,
     mkState (messages s) (mode s) fs' e'
             (trace s ++ [ACall "run_terminal_command" [command]])).

Definition format_row (r : search_row) : string :=
  "Title: " +:+ title r +:+ nl +:+ "Link: " +:+ href r +:+ nl
  +:+ "Snippet: " +:+ body r +:+ nl.

(** [web_search(query)]. *)
Definition web_search (query : json) : M E string :=
  λ s,
    let '(e', out) := ddgs_text (env s) query in
    let text :=
      match out with
      | SearchRows [] => "No results found."
      | SearchRows rows => PyStr.join (nl +:+ "---") (map format_row rows)
      | SearchFailed e => "Error performing web search: " +:+ e
      end in
    (Ok text,
     mkState (messages s) (mode s) (fs s) e'
             (trace s ++ [ACall "web_search" [query]])).

(** [read_file(path)] on the session's file tree. *)
Definition call_read_file (path : json) : M E string :=
  λ s,
    let '(e', text) :=
      match path with
      | JStr p => (env s, read_file (fs s) p)
      | _ => read_file_other (env s) (fs s) path
      end in
    (Ok text,
     mkState (messages s) (mode s) (fs s) e'
             (trace s ++ [ACall "read_file" [path]])).

(** [write_file(path, content)] on the session's file tree. A path that
    is not a [str] is rejected by [os.path.dirname] inside the [try]. *)
Definition call_write_file (path : json) (content : string) : M E string :=
  λ s,
    let '(text, fs') :=
      match path with
      | JStr p => write_file (fs s) p content
      | _ => ("Error writing file: expected str, bytes or os.PathLike object, not "
              +:+ Py.type_name path, fs s)
      end in
    (Ok text,
     mkState (messages s) (mode s) fs' (env s)
             (trace s ++ [ACall "write_file" [path; JStr content]])).

Definition is_tool (func_name : option string) (t : string) : bool :=
  bool_decide (func_name = Some t).

(** The body of the second [for idx in sorted(tool_calls.keys())]. *)
Definition run_tool_call (tc : call) : M E unit :=
  let func_name := name tc in
  let call_id := id tc in
  let args := default (JObj []) (json_loads (args tc)) in
  let event_id := "evt-" +:+ fmt_opt call_id in
  output <-
    (if is_tool func_name "run_terminal_command" then
       cmd <- lift (dict_get args "command" (JStr "")) ;;
       send (ECommand event_id cmd "") ;;
       output <- run_terminal_command cmd ;;
       send (ECommand event_id cmd output) ;;
       ret output
     else if is_tool func_name "read_file" then
       path <- lift (dict_get args "path" (JStr "")) ;;
       send (EFileRead event_id path) ;;
       content <- call_read_file path ;;
       send (EFileReadResult event_id path (PyStr.count_lines content)
                             (PyStr.take 500 content)) ;;
       ret content
     else if is_tool func_name "write_file" then
       path <- lift (dict_get args "path" (JStr "")) ;;
       content <- lift (dict_get args "content" (JStr "")) ;;
       preview <- lift (preview200 content) ;;
       send (EFileWrite event_id path preview) ;;
       output <- call_write_file path (fmt content) ;;
       send (EFileWriteResult event_id path output) ;;
       ret output
     else if is_tool func_name "web_search" then
       query <- lift (dict_get args "query" (JStr "")) ;;
       let label := JStr ("web_search '" +:+ fmt query +:+ "'") in
       send (ECommand event_id label "Searching...") ;;
       output <- web_search query ;;
       send (ECommand event_id label output) ;;
       ret output
     else ret "Error: Tool not found.") ;;
  append_message (MTool call_id output).

Fixpoint run_tool_calls (tool_calls : gmap Z call) (keys : list Z) : M E unit :=
  match keys with
  | [] => ret tt
  | idx :: keys' =>
      tc <- subscript tool_calls idx ;;
      run_tool_call tc ;;
      run_tool_calls tool_calls keys'
  end.

(** [for chunk in stream], for a stream of well-formed chunks that arrives
    whole. *)
Fixpoint consume (thought_id : string) (stream : list chunk)
         (thought : string) (tool_calls : gmap Z call)
  : M E (string * gmap Z call) :=
  match stream with
  | [] => ret (thought, tool_calls)
  | ch :: stream' =>
      thought' <-
        (if nonempty (c_content ch) then
           let t := thought +:+ default "" (c_content ch) in
           send (EThought (Some thought_id) t) ;;
           ret t
         else ret thought) ;;
      let tool_calls' :=
        match c_tool_calls ch with
        | Some (tc :: tcs) => fold_left absorb (tc :: tcs) tool_calls
        | _ => tool_calls
        end in
      consume thought_id stream' thought' tool_calls'
  end.

Definition create (tools : list tool_def) : M E (string + list chunk) :=
  λ s,
    let arg := tools_arg tools in
    let '(e', r) := completions_create (env s) (messages s) arg in
    (Ok r, mkState (messages s) (mode s) (fs s) e'
                   (trace s ++ [ARequest (messages s) arg])).

Definition urandom : M E string :=
  λ s, let '(e', h) := urandom_hex (env s) in
       (Ok h, mkState (messages s) (mode s) (fs s) e' (trace s)).

(** One pass through the body of [for _ in range(10)]. *)
Definition round (allowed_tools : list tool_def) : M E flow :=
  r <- create allowed_tools ;;
  match r with
  | inl e => send (EThought None ("LLM Error: " +:+ e)) ;; ret Return
  | inr stream =>
      hex <- urandom ;;
      let current_thought_id := "thought-" +:+ hex in
      acc <- consume current_thought_id stream "" ∅ ;;
      let current_thought_content := fst acc in
      let tool_calls := snd acc in
      (if negb (PyStr.is_empty current_thought_content)
       then append_message (MAssistant current_thought_content)
       else ret tt) ;;
      if bool_decide (tool_calls = ∅) then ret Break
      else
        tool_calls_msg <- build_tool_calls_msg tool_calls (sorted_keys tool_calls) ;;
        append_message
          (MAssistantCalls
             (if negb (PyStr.is_empty current_thought_content)
              then Some current_thought_content else None)
             tool_calls_msg) ;;
        run_tool_calls tool_calls (sorted_keys tool_calls) ;;
        ret Continue
  end.

(** [for _ in range(n)]. *)
Fixpoint turn_loop (n : nat) (allowed_tools : list tool_def) : M E unit :=
  match n with
  | O => ret tt
  | S n' =>
      f <- round allowed_tools ;;
      match f with
      | Continue => turn_loop n' allowed_tools
      | Break | Return => ret tt
      end
  end.

Definition allowed_tools_of (mode : json) : list tool_def :=
  if Py.eq_str mode "chat" then chat_tools else TOOL_DEFINITIONS.

(** [AgentSession.handle_message(user_content, images)]. *)
Definition handle_message (user_content images : json) : M E unit :=
  multimodal <-
    (if Py.truthy images
     then n <- lift (py_len images) ;; ret (bool_decide (0 < n)%nat)
     else ret false) ;;
  (if multimodal : bool
   then imgs <- lift (py_iter images) ;;
        append_message (MUserBlocks user_content imgs)
   else append_message (MUser user_content)) ;;
  m <- get_mode ;;
  turn_loop 10 (allowed_tools_of m).

(** [AgentSession.initialize(mode)]. *)
Definition initialize (mode : json) : M E unit :=
  λ s,
    let structure := get_project_structure (env s) (fs s) in
    let prompt := if Py.eq_str mode "agent" then PROMPT_AGENT else PROMPT_CHAT in
    send (EThought None ("Session started in " +:+ fmt mode +:+ " mode. I'm ready."))
         (mkState [MSystem (prompt structure)] mode (fs s) (env s) (trace s)).

(** One pass through the body of [while True] of [websocket_endpoint],
    for the text frame [data]; returns the flag [initialized]. *)
Definition handle_frame (initialized : bool) (data : string) : M E bool :=
  message <- (match json_loads data with
              | Some v => ret v
              | None => raise JSONDecodeError
              end) ;;
  ty <- lift (dict_get message "type" JNull) ;;
  if Py.eq_str ty "get_file_content" then
    path <- lift (dict_get message "path" JNull) ;;
    content <- call_read_file path ;;
    send (EFileContent path content) ;;
    ret initialized
  else if negb initialized then
    md <- lift (dict_get message "mode" (JStr "agent")) ;;
    initialize md ;;
    c <- lift (dict_get message "content" JNull) ;;
    i <- lift (dict_get message "images" JNull) ;;
    if Py.truthy c || Py.truthy i then
      c' <- lift (dict_get message "content" (JStr "")) ;;
      i' <- lift (dict_get message "images" (JArr [])) ;;
      handle_message c' i' ;;
      ret true
    else ret true
  else
    ty' <- lift (dict_get message "type" JNull) ;;
    if Py.eq_str ty' "user_message" then
      c' <- lift (dict_get message "content" (JStr "")) ;;
      i' <- lift (dict_get message "images" (JArr [])) ;;
      handle_message c' i' ;;
      ret initialized
    else ret initialized.

(** The [while True] loop over the frames the client sends before it
    disconnects. An exception ends the loop. *)
Fixpoint serve (initialized : bool) (frames : list string) : M E bool :=
  match frames with
  | [] => ret initialized
  | data :: frames' =>
      i <- handle_frame initialized data ;;
      serve i frames'
  end.

(** A fresh [AgentSession]. *)
Definition new_session (e : E) (t : tree) : state E :=
  mkState [] (JStr "agent") t e [].

(** [websocket_endpoint]: the final state of the connection. Both
    [except] clauses only print. *)
Definition websocket_endpoint (frames : list string) (e : E) (t : tree)
  : state E :=
  snd (serve false frames (new_session e t)).

End Session.

(* ===================================================================== *)
(** ** A scripted host, to run the session on concrete inputs *)

Module Scripted.

Definition dquote : ascii := "034"%char.

Fixpoint skip_ws (s : string) : string :=
  match s with
  | String c s' =>
      if bool_decide (c = " "%char ∨ c = "009"%char ∨ c = PyStr.LF ∨ c = PyStr.CR)
      then skip_ws s' else s
  | EmptyString => ""
  end.

(** The rest of [s] after the literal [p]. *)
Fixpoint eat (p s : string) : option string :=
  match p, s with
  | EmptyString, _ => Some s
  | String a p', String b s' => if decide (a = b) then eat p' s' else None
  | String _ _, EmptyString => None
  end.

(** A string body up to the closing quote; escapes are not read and
    control characters are refused. *)
Fixpoint string_body (s : string) : option (string * string) :=
  match s with
  | EmptyString => None
  | String c s' =>
      if decide (c = dquote) then Some ("", s')
      else if decide (c = "\"%char) then None
      else if (nat_of_ascii c <? 32)%nat then None
      else match string_body s' with
           | Some (t, r) => Some (String c t, r)
           | None => None
           end
  end.

Fixpoint digits (acc : Z) (s : string) : Z * string :=
  match s with
  | String c s' =>
      match Ascii.is_nat c with
      | Some d => digits (10 * acc + Z.of_nat d) s'
      | None => (acc, s)
      end
  | EmptyString => (acc, "")
  end.

(** [d[k] = v] on an insertion-ordered dictionary. *)
Fixpoint dict_set (k : string) (v : json) (kv : list (string * json))
  : list (string * json) :=
  match kv with
  | [] => [(k, v)]
  | (k', v') :: kv' =>
      if decide (k' = k) then (k, v) :: kv' else (k', v') :: dict_set k v kv'
  end.

Definition starts_number (c : ascii) : bool :=
  bool_decide (c = "-"%char) || bool_decide (is_Some (Ascii.is_nat c)).

Definition ends_integer (s : string) : bool :=
  match s with
  | String c _ => negb (bool_decide (c = "."%char ∨ c = "e"%char ∨ c = "E"%char))
  | EmptyString => true
  end.

Definition integer (s : string) : option (json * string) :=
  match s with
  | String c s' =>
      let neg := bool_decide (c = "-"%char) in
      let body := if neg then s' else s in
      match body with
      | String d rest =>
          if bool_decide (is_Some (Ascii.is_nat d)) then
            let '(n, r) :=
              if bool_decide (d = "0"%char) then (0, rest) else digits 0 body in
            if ends_integer r
            then Some (JInt (if neg then - n else n), r)
            else None
          else None
      | EmptyString => None
      end
  | EmptyString => None
  end.

(** Values, array items after the opening bracket, and object members
    after the opening brace; [n] bounds the nesting and the lengths. *)
Fixpoint value (n : nat) (s : string) : option (json * string) :=
  match n with
  | O => None
  | S n' =>
      match skip_ws s with
      | EmptyString => None
      | String c r as s1 =>
          if decide (c = dquote) then
            match string_body r with
            | Some (t, r') => Some (JStr t, r')
            | None => None
            end
          else if decide (c = "["%char) then
            match skip_ws r with
            | String "]" r' => Some (JArr [], r')
            | _ => match items n' r with
                   | Some (l, r') => Some (JArr l, r')
                   | None => None
                   end
            end
          else if decide (c = "{"%char) then
            match skip_ws r with
            | String "}" r' => Some (JObj [], r')
            | _ => match members n' [] r with
                   | Some (kv, r') => Some (JObj kv, r')
                   | None => None
                   end
            end
          else if starts_number c then integer s1
          else match eat "null" s1, eat "true" s1, eat "false" s1 with
               | Some r', _, _ => Some (JNull, r')
               | _, Some r', _ => Some (JBool true, r')
               | _, _, Some r' => Some (JBool false, r')
               | _, _, _ => None
               end
      end
  end
with items (n : nat) (s : string) : option (list json * string) :=
  match n with
  | O => None
  | S n' =>
      match value n' s with
      | None => None
      | Some (v, r) =>
          match skip_ws r with
          | String "," r' =>
              match items n' r' with
              | Some (l, r'') => Some (v :: l, r'')
              | None => None
              end
          | String "]" r' => Some ([v], r')
          | _ => None
          end
      end
  end
with members (n : nat) (acc : list (string * json)) (s : string)
  : option (list (string * json) * string) :=
  match n with
  | O => None
  | S n' =>
      match skip_ws s with
      | String c r =>
          if decide (c = dquote) then
            match string_body r with
            | None => None
            | Some (k, r1) =>
                match skip_ws r1 with
                | String ":" r2 =>
                    match value n' r2 with
                    | None => None
                    | Some (v, r3) =>
                        let acc' := dict_set k v acc in
                        match skip_ws r3 with
                        | String "," r4 => members n' acc' r4
                        | String "}" r4 => Some (acc', r4)
                        | _ => None
                        end
                    end
                | _ => None
                end
            end
          else None
      | EmptyString => None
      end
  end.

(** A reader for JSON texts that have no escape sequence, no fraction or
    exponent and no [NaN] or [Infinity]: on such a text it gives the value
    of [json.loads], or [None] where [json.loads] raises. Texts with one
    of those are outside its domain (it answers [None]). *)
Definition loads (s : string) : option json :=
  match value (S (String.length s)) s with
  | Some (v, r) => if PyStr.is_empty (skip_ws r) then Some v else None
  | None => None
  end.

(** The outside world is the list of answers the completion service
    still has to give: an error text or a stream. *)
Definition script : Type := list (string + list chunk).

#[global] Instance host : Host script := {|
  json_loads := loads;
  py_str := Repr.str;
  completions_create := λ e _ _,
    match e with
    | r :: e' => (e', r)
    | [] => ([], inl "Connection error.")
    end;
  urandom_hex := λ e, (e, "00c0ffee");
  subprocess_run := λ e t _, (e, t, Completed "" "");
  ddgs_text := λ e _, (e, SearchRows []);
  read_file_other := λ e _ _, (e, "Error reading file: invalid path");
  get_project_structure := λ _ _, "workspace/";
|}.

(** [s] between double quotes. *)
Definition q (s : string) : string := String dquote s +:+ String dquote "".

(** The first fragment of a call, as the service sends it, and a later
    fragment that carries only a piece of the arguments. *)
Definition opening (i : Z) (cid tool arguments : string) : fragment :=
  {| f_index := i; f_id := Some cid; f_name := Some tool;
     f_arguments := Some arguments |}.

Definition more (i : Z) (arguments : string) : fragment :=
  {| f_index := i; f_id := None; f_name := None; f_arguments := Some arguments |}.

Definition text_chunk (t : string) : chunk :=
  {| c_content := Some t; c_tool_calls := None |}.

Definition calls_chunk (l : list fragment) : chunk :=
  {| c_content := None; c_tool_calls := Some l |}.

(** A session in the given mode whose completion service will give the
    answers of the script. *)
Definition session (md : string) (answers : script) : state script :=
  mkState [MSystem "system prompt"] (JStr md) ∅ answers [].

(** A stream with some text and two calls, index 1 arriving before
    index 0 and the arguments of index 0 cut in two. *)
Definition two_calls : list chunk :=
  [ text_chunk "Looking.";
    calls_chunk [opening 1 "call_b" "web_search" "{}"];
    calls_chunk [opening 0 "call_a" "read_file" "{"];
    calls_chunk [more 0 (q "path" +:+ ":" +:+ q "notes.txt" +:+ "}")] ].

(** One call in one fragment, and the same call with its id in the
    second of two fragments. *)
Definition whole_call : list chunk :=
  [ calls_chunk [opening 0 "call_a" "read_file" "{}"] ].

Definition late_id_call : list chunk :=
  [ calls_chunk [ {| f_index := 0; f_id := None; f_name := Some "read_file";
                     f_arguments := Some "{" |} ];
    calls_chunk [ {| f_index := 0; f_id := Some "call_a"; f_name := None;
                     f_arguments := Some "}" |} ] ].

(** The same call with its id first, its name in the second fragment
    and its arguments cut into single characters. *)
Definition late_name_call : list chunk :=
  [ calls_chunk [ {| f_index := 0; f_id := Some "call_a"; f_name := None;
                     f_arguments := Some "{" |} ];
    calls_chunk [ {| f_index := 0; f_id := None; f_name := Some "read_file";
                     f_arguments := Some "}" |} ] ].

(** Answers of a completion service that, in any mode, asks for
    [write_file] on [a/b/c.txt] and then answers in text. *)
Definition rogue_write : script :=
  [ inr [ calls_chunk
            [ opening 0 "call_w" "write_file"
                ("{" +:+ q "path" +:+ ":" +:+ q "a/b/c.txt" +:+ ","
                 +:+ q "content" +:+ ":" +:+ q "X" +:+ "}") ] ];
    inr [ text_chunk "Done." ] ].

(** Frames a client may send: a first message without [mode], a request
    for the content of a file, and a first message in ["chat"] mode. *)
Definition frame_hello : string :=
  "{" +:+ q "content" +:+ ":" +:+ q "hello" +:+ "}".

Definition frame_get_file : string :=
  "{" +:+ q "type" +:+ ":" +:+ q "get_file_content" +:+ ","
  +:+ q "path" +:+ ":" +:+ q "notes.txt" +:+ "}".

Definition frame_chat_hello : string :=
  "{" +:+ q "mode" +:+ ":" +:+ q "chat" +:+ ","
  +:+ q "content" +:+ ":" +:+ q "hello" +:+ "}".

(** Answers of a completion service whose call of [read_file] has the
    JSON array [[]] as its arguments, and which would then answer in text. *)
Definition list_arguments : script :=
  [ inr [ calls_chunk [ opening 0 "call_a" "read_file" "[]" ] ];
    inr [ text_chunk "Done." ] ].

(** The same with arguments that are no JSON text. *)
Definition broken_arguments : script :=
  [ inr [ calls_chunk [ opening 0 "call_a" "read_file" "{" ] ];
    inr [ text_chunk "Done." ] ].

End Scripted.


(** A host whose completion service asks for one [read_file] and then
    answers in text, whatever it is sent. [E] counts the requests. *)
Module Obedient.

Definition answer (n : nat) : list chunk :=
  match n with
  | O => [ Scripted.calls_chunk [Scripted.opening 0 "call_a" "read_file" "{}"] ]
  | S _ => [ Scripted.text_chunk "Done." ]
  end.

#[global] Instance host : Host nat := {|
  json_loads := Scripted.loads;
  py_str := Repr.str;
  completions_create := λ n _ _, (S n, inr (answer n));
  urandom_hex := λ n, (n, "00c0ffee");
  subprocess_run := λ n t _, (n, t, Completed "" "");
  ddgs_text := λ n _, (n, SearchRows []);
  read_file_other := λ n _ _, (n, "Error reading file: invalid path");
  get_project_structure := λ _ _, "workspace/";
|}.

Definition session (md : string) : state nat :=
  mkState [MSystem "system prompt"] (JStr md) ∅ 0%nat [].

End Obedient.

(* ===================================================================== *)
(** ** Vocabulary of the statements *)

(** The path [cs] is free or holds a directory. *)
Definition dir_or_absent (fs : tree) (cs : list string) : Prop :=
  fs !! cs = None ∨ fs !! cs = Some Dir.

(** The messages a stretch of the trace appends to the transcript. *)
Definition appended (tr : list action) : list message :=
  omap (λ a, match a with AAppend m => Some m | _ => None end) tr.

Definition is_request (a : action) : bool :=
  match a with ARequest _ _ => true | _ => false end.

(** The completion requests in a stretch of the trace. *)
Definition requests (tr : list action) : list action :=
  filter (λ a, is_request a = true) tr.

(** The tool-call fragments of a stream, in order of arrival. *)
Definition fragments (stream : list chunk) : list fragment :=
  flat_map (λ ch, default [] (c_tool_calls ch)) stream.

(** The dictionary [tool_calls] once the stream is consumed. *)
Definition calls_of (stream : list chunk) : gmap Z call :=
  fold_left absorb (fragments stream) ∅.

(** The values of [tool_calls] in the order of [sorted(tool_calls.keys())]. *)
Definition sorted_calls (tool_calls : gmap Z call) : list call :=
  omap (λ idx, tool_calls !! idx) (sorted_keys tool_calls).

(** The identifier an event carries. *)
Definition event_id (ev : event) : option string :=
  match ev with
  | EThought i _ => i
  | ECommand i _ _ | EFileRead i _ | EFileReadResult i _ _ _
  | EFileWrite i _ _ | EFileWriteResult i _ _ => Some i
  | EFileContent _ _ => None
  end.

Definition known_tools : list string :=
  ["run_terminal_command"; "read_file"; "write_file"; "web_search"].

(** What the execution of the call [tc] adds to the trace: a start event,
    the call of the tool, a result event and the tool message; or the tool
    message alone when the name is not one of the four tools. *)
Inductive call_segment (tc : call) : list action → Prop :=
| seg_known (start finish : event) (tool : string) (arguments : list json)
            (output : string) :
    name tc = Some tool →
    tool ∈ known_tools →
    event_id start = Some ("evt-" +:+ fmt_opt (id tc)) →
    event_id finish = Some ("evt-" +:+ fmt_opt (id tc)) →
    call_segment tc [ASend start; ACall tool arguments; ASend finish;
                     AAppend (MTool (id tc) output)]
| seg_unknown :
    (∀ tool, tool ∈ known_tools → name tc ≠ Some tool) →
    call_segment tc [AAppend (MTool (id tc) "Error: Tool not found.")].

Definition assistant_text (content : string) : list action :=
  if PyStr.is_empty content then [] else [AAppend (MAssistant content)].

Definition thought_of (tid : string) (a : action) : Prop :=
  ∃ text, a = ASend (EThought (Some tid) text).

(** [content or None]. *)
Definition content_or_none (content : string) : option string :=
  if negb (PyStr.is_empty content) then Some content else None.

(** What one pass of the turn loop adds to the trace, by the way it ends.
    [e] and [msgs] are the outside world and the transcript at its start;
    [n] is the number of tool calls that ran to their tool message. *)
Inductive round_trace `{Host E} (tools : list tool_def) (e : E) (msgs : list message)
  : result flow → list action → Prop :=
| rt_error e' text :
    completions_create e msgs (tools_arg tools) = (e', inl text) →
    round_trace tools e msgs (Ok Return)
      [ARequest msgs (tools_arg tools);
       ASend (EThought None ("LLM Error: " +:+ text))]
| rt_answer e' stream tid thoughts content :
    completions_create e msgs (tools_arg tools) = (e', inr stream) →
    calls_of stream = ∅ →
    Forall (thought_of tid) thoughts →
    round_trace tools e msgs (Ok Break)
      (ARequest msgs (tools_arg tools) :: thoughts ++ assistant_text content)
| rt_calls e' stream tid thoughts content segs r n :
    completions_create e msgs (tools_arg tools) = (e', inr stream) →
    calls_of stream ≠ ∅ →
    Forall (thought_of tid) thoughts →
    Forall2 call_segment (take n (sorted_calls (calls_of stream))) segs →
    (r = Ok Continue ∧ n = length (sorted_calls (calls_of stream)))
    ∨ (∃ x, r = Raise x ∧ (n < length (sorted_calls (calls_of stream)))%nat) →
    round_trace tools e msgs r
      (ARequest msgs (tools_arg tools) :: thoughts ++ assistant_text content
       ++ AAppend (MAssistantCalls (content_or_none content)
                     (request_of <$> sorted_calls (calls_of stream)))
       :: concat segs).

(** A stretch of the trace that is one pass of the turn loop. *)
Definition is_round `{Host E} (tools : list tool_def) (new : list action) : Prop :=
  ∃ e msgs r, round_trace tools e msgs r new.

(** What [handle_message] adds before the loop: the user message, or
    nothing when the check of [images] raises. *)
Definition user_append (user : list action) : Prop :=
  user = [] ∨ ∃ m, user = [AAppend m]
                   ∧ ((∃ c, m = MUser c) ∨ (∃ c imgs, m = MUserBlocks c imgs)).

(** What a pass of the turn loop does after its request: events that carry
    an identifier or report the failure of the request, calls of the four
    tools, and assistant and tool messages. *)
Definition session_effect (a : action) : Prop :=
  match a with
  | ARequest _ _ => False
  | ASend ev =>
      is_Some (event_id ev) ∨ ∃ text, ev = EThought None ("LLM Error: " +:+ text)
  | ACall tool _ => tool ∈ known_tools
  | AAppend m =>
      match m with
      | MAssistant _ | MAssistantCalls _ _ | MTool _ _ => True
      | _ => False
      end
  end.

(** *** Splitting a stream of tool-call fragments *)

(** The fragments of the call with index [i]. *)
Definition at_index (i : Z) (frs : list fragment) : list fragment :=
  filter (λ f, f_index f = i) frs.

Definition args_text (f : fragment) : string := default "" (f_arguments f).

Fixpoint joined_args (frs : list fragment) : string :=
  match frs with
  | [] => ""
  | f :: frs' => args_text f +:+ joined_args frs'
  end.

(** The name after the fragments [ps], starting from [n]. *)
Definition last_name (n : option string) (ps : list fragment) : option string :=
  fold_left (λ n f, if nonempty (f_name f) then f_name f else n) ps n.

(** The entry of [tool_calls] that a non-empty run of fragments of one
    index builds. *)
Definition entry_of (ps : list fragment) : option call :=
  match ps with
  | [] => None
  | p :: ps' =>
      Some {| id := f_id p;
              name := last_name (f_name p) ps;
              args := joined_args ps |}
  end.

(** The pieces carry the arguments of [u], cut anywhere. *)
Definition cut_args (u : fragment) (ps : list fragment) : Prop :=
  joined_args ps = args_text u.

(** [ps] is a way to send the fragment [u] in pieces: the pieces
    are not empty, each carries the id of [u] or none and the name of [u]
    or none, the id and the name are each carried by some piece, and the
    arguments are those of [u], cut anywhere. *)
Definition cut_of (u : fragment) (ps : list fragment) : Prop :=
  ps ≠ []
  ∧ Forall (λ p, f_id p = None ∨ f_id p = f_id u) ps
  ∧ Exists (λ p, f_id p = f_id u) ps
  ∧ Forall (λ p, nonempty (f_name p) = false ∨ f_name p = f_name u) ps
  ∧ Exists (λ p, f_name p = f_name u) ps
  ∧ cut_args u ps.

(** The same, with the id in the first piece, and the name in the first
    piece unless it is a non-empty name. *)
Definition cut_id_first (u : fragment) (ps : list fragment) : Prop :=
  ∃ p ps',
    ps = p :: ps'
    ∧ f_id p = f_id u
    ∧ Forall (λ p, nonempty (f_name p) = false ∨ f_name p = f_name u) ps
    ∧ (f_name p = f_name u
       ∨ (nonempty (f_name u) = true ∧ Exists (λ p, f_name p = f_name u) ps))
    ∧ cut_args u ps.

(** [split] sends the calls of [unsplit], one fragment per index there, in
    pieces; pieces of different calls may interleave. *)
Definition splits (cut : fragment → list fragment → Prop)
           (unsplit split : list fragment) : Prop :=
  NoDup (f_index <$> unsplit)
  ∧ (∀ f, f ∈ split → f_index f ∈ f_index <$> unsplit)
  ∧ (∀ u, u ∈ unsplit → cut u (at_index (f_index u) split)).

(** The entry of index [f_index f] after [absorb], from the entry
    before. *)
Definition absorb_entry (o : option call) (f : fragment) : call :=
  let c0 := default {| id := f_id f; name := f_name f; args := "" |} o in
  let c1 := if nonempty (f_name f) then set_name (f_name f) c0 else c0 in
  if nonempty (f_arguments f) then add_args (args_text f) c1 else c1.

(** *** The connection *)

(** The event [initialize] sends. *)
Definition session_started (a : action) : bool :=
  match a with
  | ASend (EThought None text) => PyStr.startswith "Session started in " text
  | _ => false
  end.

Definition is_system (m : message) : bool :=
  match m with MSystem _ => true | _ => false end.

Definition count_started (tr : list action) : nat :=
  length (filter (λ a, session_started a = true) tr).

Definition count_system (msgs : list message) : nat :=
  length (filter (λ m, is_system m = true) msgs).

(** What an initialized connection does: requests that advertise [tools],
    events other than the start of the session, calls of the four tools,
    and messages other than the system message. *)
Definition turn_effect (tools : list tool_def) (a : action) : Prop :=
  match a with
  | ARequest _ arg => arg = tools_arg tools
  | ASend ev =>
      is_Some (event_id ev)
      ∨ (∃ text, ev = EThought None ("LLM Error: " +:+ text))
      ∨ (∃ path content, ev = EFileContent path content)
  | ACall tool _ => tool ∈ known_tools
  | AAppend m => is_system m = false
  end.

(** A frame that asks for the content of a file. *)
Definition file_request `{Host E} (data : string) : Prop :=
  ∃ kv, json_loads data = Some (JObj kv)
        ∧ Py.eq_str (default JNull (Py.assoc "type" kv)) "get_file_content" = true.

(** The stream names only tools of the list [tools]. *)
Definition names_advertised (tools : list tool_def) (stream : list chunk) : Prop :=
  Forall (λ f, nonempty (f_name f) = true →
               ∃ t, t ∈ tools ∧ f_name f = Some (t_name t))
         (fragments stream).

(** The completion service, sent the list [tools], names only tools of
    that list. *)
Definition obeys `{Host E} (tools : list tool_def) : Prop :=
  ∀ e msgs e' stream,
    completions_create e msgs (tools_arg tools) = (e', inr stream) →
    names_advertised tools stream.

(** The action of [initialize]: the event that the session started. *)
Definition started_event `{Host E} (md : json) : action :=
  ASend (EThought None ("Session started in " +:+ fmt md +:+ " mode. I'm ready.")).

(** *** Further vocabulary *)

(** The character [c] occurs in [s]. *)
Fixpoint occurs (c : ascii) (s : string) : bool :=
  match s with
  | EmptyString => false
  | String d s' => if decide (d = c) then true else occurs c s'
  end.

(** [fs'] keeps every entry of [fs] and has no regular file that [fs] has
    not: it differs from [fs] by new directories only. *)
Definition only_new_directories (fs fs' : tree) : Prop :=
  ∀ k, (∀ n, fs !! k = Some n → fs' !! k = Some n)
       ∧ (∀ c, fs' !! k = Some (File c) → fs !! k = Some (File c)).

(** The paths that the tree resolves as the operating system does: relative
    to the working directory and without a [..] component. *)
Definition plain_path (p : string) : bool :=
  negb (PyStr.startswith "/" p) && bool_decide (".." ∉ PyStr.split_sep p).

Definition is_str (v : json) : bool :=
  match v with JStr _ => true | _ => false end.

(** The name of the call is one of the four tools. *)
Definition names_known_tool (tc : call) : bool :=
  existsb (is_tool (name tc)) known_tools.

(** The calls that cannot run: one of the four tools with arguments that
    are JSON but not a record, or [write_file] with a [content] that is
    not a string. *)
Definition aborts `{Host E} (tc : call) : bool :=
  match default (JObj []) (json_loads (args tc)) with
  | JObj kv =>
      is_tool (name tc) "write_file"
      && negb (is_str (default (JStr "") (Py.assoc "content" kv)))
  | _ => names_known_tool tc
  end.

(** *** The text of a stream *)

(** The text fragments of a stream that are not empty, in order of
    arrival. *)
Definition texts (stream : list chunk) : list string :=
  omap (λ ch, if nonempty (c_content ch) then c_content ch else None) stream.

Definition whole (txs : list string) : string := foldr String.append "" txs.

(** One thought event per text fragment, the [k]-th with the text of the
    first [k] fragments after [t]. *)
Definition snapshots_from (t tid : string) (txs : list string) : list action :=
  (λ k, ASend (EThought (Some tid) (t +:+ whole (take (S k) txs))))
    <$> seq 0 (length txs).

Definition snapshots : string → list string → list action := snapshots_from "".

(** *** A completion service that never stops calling tools *)

(** Whatever it is sent, the service answers the list [tools] with a
    stream that holds tool calls, none of which aborts. *)
Definition keeps_calling `{Host E} (tools : list tool_def) : Prop :=
  ∀ e msgs, ∃ e' stream,
    completions_create e msgs (tools_arg tools) = (e', inr stream)
    ∧ calls_of stream ≠ ∅
    ∧ Forall (λ tc, aborts tc = false) (sorted_calls (calls_of stream)).

(** A host whose completion service asks for [read_file] every time. *)
Module Insistent.

#[global] Instance host : Host unit := {|
  json_loads := Scripted.loads;
  py_str := Repr.str;
  completions_create := λ u _ _, (u, inr (Obedient.answer 0));
  urandom_hex := λ u, (u, "00c0ffee");
  subprocess_run := λ u t _, (u, t, Completed "" "");
  ddgs_text := λ u _, (u, SearchRows []);
  read_file_other := λ u _ _, (u, "Error reading file: invalid path");
  get_project_structure := λ _ _, "workspace/";
|}.

Definition session : state unit :=
  mkState [MSystem "system prompt"] (JStr "agent") ∅ tt [].

End Insistent.

(** *** The transcripts a turn sends *)

(** The message [handle_message] appends for the user, or the exception
    of the checks on [images]. *)
Definition user_message (user_content images : json) : pyexn + message :=
  if Py.truthy images then
    match py_len images with
    | inl e => inl e
    | inr n =>
        if bool_decide (0 < n)%nat then
          match py_iter images with
          | inl e => inl e
          | inr imgs => inr (MUserBlocks user_content imgs)
          end
        else inr (MUser user_content)
    end
  else inr (MUser user_content).

(** The transcripts of the completion requests in a stretch of the trace,
    in order. *)
Definition sent_transcripts (tr : list action) : list (list message) :=
  omap (λ a, match a with ARequest msgs _ => Some msgs | _ => None end) tr.

(** Each transcript of the list extends the one before it, the first one
    extends [a]. *)
Fixpoint chain_from (a : list message) (ls : list (list message)) : Prop :=
  match ls with
  | [] => True
  | b :: ls' => a `prefix_of` b ∧ chain_from b ls'
  end.

(** *** What can change the file tree *)

(** The calls of the two tools that write: [write_file] and
    [run_terminal_command]. *)
Definition mutating (a : action) : bool :=
  match a with
  | ACall tool _ =>
      bool_decide (tool = "write_file") || bool_decide (tool = "run_terminal_command")
  | _ => false
  end.

(** A computation that leaves the file tree as it is unless it logs a
    call of one of these tools. *)
Definition keeps_tree {E A : Type} (m : M E A) : Prop :=
  ∀ s r s', m s = (r, s') →
    ∃ new, trace s' = trace s ++ new
           ∧ (existsb mutating new = false → fs s' = fs s).

(** *** The previews of the file events *)

(** The preview of a file event is short: at most 500 characters of the
    text read, at most 200 characters and an ellipsis of the text to
    write. *)
Definition short_preview (a : action) : Prop :=
  match a with
  | ASend (EFileReadResult _ _ _ preview) => (String.length preview ≤ 500)%nat
  | ASend (EFileWrite _ _ preview) => (String.length preview ≤ 203)%nat
  | _ => True
  end.

(** The result event of [read_file] describes the text [content]: its
    number of lines and its first 500 characters. *)
Definition describes (content : string) (a : action) : Prop :=
  match a with
  | ASend (EFileReadResult _ _ lines preview) =>
      lines = PyStr.count_lines content ∧ preview = PyStr.take 500 content
  | _ => True
  end.

(** *** The run of one tool call, event by event *)



(** *** Requests and the transcript *)

(** Replaying a stretch of the trace from the transcript [cur]: every
    completion request in it carries the transcript as it stands when the
    request is made. *)
Fixpoint requests_current (cur : list message) (tr : list action) : Prop :=
  match tr with
  | [] => True
  | ARequest msgs _ :: tr' => msgs = cur ∧ requests_current cur tr'
  | AAppend m :: tr' => requests_current (cur ++ [m]) tr'
  | _ :: tr' => requests_current cur tr'
  end.

(** *** Paths that name an entry *)

(** A plain path whose last component is a name: not empty and not [.],
    so the path does not end in [/] or [/.]. On these paths the tree
    resolves a regular file as the operating system does. *)
Definition names_an_entry (p : string) : bool :=
  plain_path p
  && match last (PyStr.split_sep p) with
     | Some c => negb (bool_decide (c = "" ∨ c = "."))
     | None => false
     end.

(* ===================================================================== *)
(** ** The project structure *)

(** [get_project_structure()] as [initialize] calls it, with the default
    path ["."], over what [os.walk] sees of the working directory. *)
Module Structure.

(** An entry of a directory, as [os.scandir] lists it: a name, and for a
    directory its own listing, in the order of the operating system.
    [None] is a directory that [os.walk] does not enter: one that cannot be
    listed, or a link. The names of a listing are those of one directory:
    distinct, not empty, without [/]. *)
Inductive entry : Type :=
| FileEntry (name : string)
| DirEntry (name : string) (listing : option (list entry)).

Definition ignore_dirs : list string :=
  [".git"; "__pycache__"; "node_modules"; "venv"; ".venv"; ".env"; "dist"; "build"].

(** [s.replace(old, new)] for a non-empty [old]; [skip] characters of [s]
    belong to the occurrence just replaced. *)
Fixpoint replace_from (skip : nat) (old new s : string) : string :=
  match s with
  | EmptyString => ""
  | String c s' =>
      match skip with
      | S k => replace_from k old new s'
      | O =>
          if PyStr.startswith old s
          then new +:+ replace_from (String.length old - 1) old new s'
          else String c (replace_from 0 old new s')
      end
  end.

Definition replace (old new s : string) : string := replace_from 0 old new s.

(** [s.count(sub)] for a non-empty [sub]. *)
Fixpoint count_from (skip : nat) (sub s : string) : nat :=
  match s with
  | EmptyString => 0
  | String c s' =>
      match skip with
      | S k => count_from k sub s'
      | O =>
          if PyStr.startswith sub s
          then S (count_from (String.length sub - 1) sub s')
          else count_from 0 sub s'
      end
  end.

Definition count (sub s : string) : nat := count_from 0 sub s.

(** [s * n]. *)
Fixpoint times (s : string) (n : nat) : string :=
  match n with
  | O => ""
  | S n' => s +:+ times s n'
  end.

Fixpoint endswith_sep (s : string) : bool :=
  match s with
  | EmptyString => false
  | String c EmptyString => bool_decide (c = PyStr.sep)
  | String _ s' => endswith_sep s'
  end.

(** [os.path.basename(p)] and [os.path.join(a, b)] of [posixpath]. *)
Definition basename (p : string) : string := snd (PyStr.cut_last_sep p).

Definition join (a b : string) : string :=
  if PyStr.startswith "/" b then b
  else if PyStr.is_empty a || endswith_sep a then a +:+ b
  else a +:+ "/" +:+ b.

Definition dirs (entries : list entry) : list string :=
  omap (λ e, match e with DirEntry d _ => Some d | FileEntry _ => None end) entries.

Definition files (entries : list entry) : list string :=
  omap (λ e, match e with FileEntry f => Some f | DirEntry _ _ => None end) entries.

(** [os.walk(top)], top down, for a caller that keeps in [dirs] the names
    that pass [keep]: the triples [(root, dirs, files)] in the order in
    which they are yielded, [dirs] as the caller leaves it. The
    directories kept are entered in the order of the listing, each after
    the triple of its parent. [walk_entry] is what the entry [e] of the
    directory [top] adds. *)
Fixpoint walk_entry (keep : string → bool) (top : string) (e : entry)
  : list (string * list string * list string) :=
  match e with
  | DirEntry d (Some listing) =>
      if keep d then
        let root := join top d in
        (root, List.filter keep (dirs listing), files listing)
        :: flat_map (walk_entry keep root) listing
      else []
  | _ => []
  end.

Definition walk (keep : string → bool) (top : string) (entries : list entry)
  : list (string * list string * list string) :=
  (top, List.filter keep (dirs entries), files entries)
  :: flat_map (walk_entry keep top) entries.

Definition kept (d : string) : bool := bool_decide (d ∉ ignore_dirs).

(** The lines added for one triple of the walk. *)
Definition lines_of (here path : string) (triple : string * list string * list string)
  : list string :=
  let '(root, _, fls) := triple in
  let level := count "/" (replace path "" root) in
  let indent := times "  " level in
  let subindent := times "  " (level + 1) in
  (if decide (root = path) then basename here +:+ "/"
   else indent +:+ basename root +:+ "/")
  :: map (λ f, subindent +:+ f) fls.

(** [get_project_structure()]. [here] is [os.path.abspath(".")]; [top] is
    the listing of the working directory, [None] when it cannot be listed
    (then [os.walk] yields nothing). [os.walk] passes over the errors of
    the listings, so nothing raises inside the [try]. *)
Definition get_project_structure (here : string) (top : option (list entry))
  : string :=
  let path := "." in
  let structure :=
    flat_map (lines_of here path)
             (match top with
              | Some entries => walk kept path entries
              | None => []
              end) in
  PyStr.join nl structure.

(** *** Vocabulary *)

(** The listing without the ignored directories, at every depth. *)
Fixpoint prune_entry (e : entry) : list entry :=
  match e with
  | FileEntry f => [FileEntry f]
  | DirEntry d listing =>
      if kept d
      then [DirEntry d match listing with
                       | Some l => Some (flat_map prune_entry l)
                       | None => None
                       end]
      else []
  end.

Definition prune (entries : list entry) : list entry :=
  flat_map prune_entry entries.

(** The tree drawn by depth: the line of a directory, its files one step
    deeper, then its directories that are kept and entered, each drawn the
    same way one step deeper. [draw_entry] draws the entry [e] of a
    directory of depth [level]. *)
Fixpoint draw_entry (level : nat) (e : entry) : list string :=
  match e with
  | DirEntry d (Some listing) =>
      if kept d then
        (times "  " (S level) +:+ d +:+ "/")
        :: map (λ f, times "  " (S (S level)) +:+ f) (files listing)
        ++ flat_map (draw_entry (S level)) listing
      else []
  | _ => []
  end.

Definition draw (line : string) (entries : list entry) : list string :=
  line
  :: map (λ f, times "  " 1 +:+ f) (files entries)
  ++ flat_map (draw_entry 0) entries.

(** Directory names as a file system has them: not empty, without [/]. *)
Definition plain_name (d : string) : bool :=
  negb (PyStr.is_empty d) && negb (occurs PyStr.sep d).

Fixpoint plain_entry (e : entry) : bool :=
  match e with
  | FileEntry _ => true
  | DirEntry d listing =>
      plain_name d
      && match listing with
         | Some l => forallb plain_entry l
         | None => true
         end
  end.

Definition plain_names (entries : list entry) : bool := forallb plain_entry entries.

(** The level the code computes for a root. *)
Definition level_of (root : string) : nat := count "/" (replace "." "" root).

(** A root below which [os.path.join] adds a separator. *)
Definition open_root (top : string) : Prop :=
  PyStr.is_empty top = false ∧ endswith_sep top = false.

(** Induction on entries. *)
Section Induction.
Variable P : entry → Prop.
Hypothesis P_file : ∀ f, P (FileEntry f).
Hypothesis P_closed : ∀ d, P (DirEntry d None).
Hypothesis P_dir : ∀ d l, Forall P l → P (DirEntry d (Some l)).

Fixpoint entry_induction (e : entry) : P e :=
  match e with
  | FileEntry f => P_file f
  | DirEntry d None => P_closed d
  | DirEntry d (Some l) =>
      P_dir d l
        ((fix all (l : list entry) : Forall P l :=
            match l with
            | [] => List.Forall_nil P
            | x :: l' => List.Forall_cons P x l' (entry_induction x) (all l')
            end) l)
  end.

End Induction.

End Structure.

(* ===================================================================== *)
(** ** Properties of the path functions and of [os.makedirs] *)

Section PathFacts.

Lemma cut_last_sep_length p h t :
  PyStr.cut_last_sep p = (h, t) →
  (String.length h + String.length t = String.length p)%nat.
Proof.
  revert h t. induction p as [|c p IH]; intros h t; simpl.
  - intros [= <- <-]. reflexivity.
  - destruct (PyStr.cut_last_sep p) as [h0 t0] eqn:Hcut.
    specialize (IH _ _ eq_refl).
    destruct h0 as [|c0 h0]; simpl in *.
    + destruct (decide (c = PyStr.sep)); intros [= <- <-]; simpl; lia.
    + intros [= <- <-]. simpl. lia.
Qed.

Lemma rstrip_sep_length s :
  (String.length (PyStr.rstrip_sep s) ≤ String.length s)%nat.
Proof.
  induction s as [|c s IH]; simpl; [lia|].
  destruct (PyStr.rstrip_sep s); simpl in *.
  - destruct (decide (c = PyStr.sep)); simpl; lia.
  - lia.
Qed.

Lemma split_length p h t :
  OS.split p = (h, t) →
  (String.length h + String.length t ≤ String.length p)%nat.
Proof.
  unfold OS.split. destruct (PyStr.cut_last_sep p) as [h0 t0] eqn:Hcut.
  apply cut_last_sep_length in Hcut.
  pose proof (rstrip_sep_length h0).
  destruct (_ && _); intros [= <- <-]; lia.
Qed.

Lemma nonempty_length s : PyStr.is_empty s = false → (0 < String.length s)%nat.
Proof. destruct s; simpl; [discriminate | lia]. Qed.

(** [os.makedirs] returns: the bound on the depth is never reached. *)
Lemma makedirs_rec_total n fs name exist_ok :
  (String.length name < n)%nat →
  is_Some (OS.makedirs_rec n fs name exist_ok).
Proof.
  revert fs name. induction n as [|n IH]; intros fs name Hn; [lia|].
  simpl.
  destruct (OS.split name) as [h1 t1] eqn:Hs1.
  apply split_length in Hs1.
  destruct (PyStr.is_empty t1) eqn:Ht1.
  - destruct (OS.split h1) as [h2 t2] eqn:Hs2.
    apply split_length in Hs2.
    destruct (negb (PyStr.is_empty h2) && negb (PyStr.is_empty t2)
              && negb (OS.exists_ fs h2)) eqn:Hc.
    + apply andb_true_iff in Hc as [Hc _].
      apply andb_true_iff in Hc as [_ Ht2].
      apply negb_true_iff, nonempty_length in Ht2.
      destruct (IH fs h2 ltac:(lia)) as [r ->].
      repeat case_match; eauto.
    + repeat case_match; eauto.
  - destruct (negb (PyStr.is_empty h1) && negb (PyStr.is_empty t1)
              && negb (OS.exists_ fs h1)) eqn:Hc.
    + apply nonempty_length in Ht1.
      destruct (IH fs h1 ltac:(lia)) as [r ->].
      repeat case_match; eauto.
    + repeat case_match; eauto.
Qed.

Lemma makedirs_total fs name exist_ok :
  OS.makedirs_rec (S (String.length name)) fs name exist_ok
  = Some (OS.makedirs fs name exist_ok).
Proof.
  unfold OS.makedirs.
  destruct (makedirs_rec_total (S (String.length name)) fs name exist_ok) as [r Hr];
    [lia|].
  rewrite Hr. reflexivity.
Qed.

End PathFacts.

(* ===================================================================== *)
(** ** The file tools *)

(** The system calls on the three paths of the round trip, as lookups in a
    symbolic tree. *)
Section RoundTripPaths.
Variable fs : tree.

Ltac walk_path p cs :=
  unfold OS.exists_, OS.isdir, OS.read_text, OS.stat, OS.mkdir, OS.write_text;
  change (PyStr.is_empty p) with false;
  change (OS.components p) with cs;
  cbn [OS.walk OS.node_at app removelast];
  repeat case_match; try reflexivity; try congruence.

Lemma stat_a :
  OS.stat fs "a" = match fs !! ["a"] with
                   | Some n => inr n
                   | None => inl (OSError ENOENT "a")
                   end.
Proof. walk_path "a" ["a"]. Qed.

Lemma mkdir_a :
  OS.mkdir fs "a" = match fs !! ["a"] with
                    | Some _ => inl (OSError EEXIST "a")
                    | None => inr (<[["a"] := Dir]> fs)
                    end.
Proof. walk_path "a" ["a"]. Qed.

Lemma stat_ab :
  OS.stat fs "a/b" = match fs !! ["a"] with
                     | Some Dir => match fs !! ["a"; "b"] with
                                   | Some n => inr n
                                   | None => inl (OSError ENOENT "a/b")
                                   end
                     | Some (File _) => inl (OSError ENOTDIR "a/b")
                     | None => inl (OSError ENOENT "a/b")
                     end.
Proof. walk_path "a/b" ["a"; "b"]. Qed.

Lemma mkdir_ab :
  OS.mkdir fs "a/b" = match fs !! ["a"] with
                      | Some Dir => match fs !! ["a"; "b"] with
                                    | Some _ => inl (OSError EEXIST "a/b")
                                    | None => inr (<[["a"; "b"] := Dir]> fs)
                                    end
                      | Some (File _) => inl (OSError ENOTDIR "a/b")
                      | None => inl (OSError ENOENT "a/b")
                      end.
Proof. walk_path "a/b" ["a"; "b"]. Qed.

Lemma stat_abc :
  OS.stat fs "a/b/c.txt"
  = match fs !! ["a"] with
    | Some Dir => match fs !! ["a"; "b"] with
                  | Some Dir => match fs !! ["a"; "b"; "c.txt"] with
                                | Some n => inr n
                                | None => inl (OSError ENOENT "a/b/c.txt")
                                end
                  | Some (File _) => inl (OSError ENOTDIR "a/b/c.txt")
                  | None => inl (OSError ENOENT "a/b/c.txt")
                  end
    | Some (File _) => inl (OSError ENOTDIR "a/b/c.txt")
    | None => inl (OSError ENOENT "a/b/c.txt")
    end.
Proof. walk_path "a/b/c.txt" ["a"; "b"; "c.txt"]. Qed.

Lemma write_text_abc (content : string) :
  OS.write_text fs "a/b/c.txt" content
  = match fs !! ["a"] with
    | Some Dir => match fs !! ["a"; "b"] with
                  | Some Dir => match fs !! ["a"; "b"; "c.txt"] with
                                | Some Dir => inl (OSError EISDIR "a/b/c.txt")
                                | _ => inr (<[["a"; "b"; "c.txt"] := File content]> fs)
                                end
                  | Some (File _) => inl (OSError ENOTDIR "a/b/c.txt")
                  | None => inl (OSError ENOENT "a/b/c.txt")
                  end
    | Some (File _) => inl (OSError ENOTDIR "a/b/c.txt")
    | None => inl (OSError ENOENT "a/b/c.txt")
    end.
Proof. walk_path "a/b/c.txt" ["a"; "b"; "c.txt"]. Qed.

End RoundTripPaths.

Ltac tree_eval :=
  repeat (progress (
    unfold OS.exists_, OS.isdir, OS.read_text;
    rewrite ?stat_a, ?stat_ab, ?stat_abc, ?mkdir_a, ?mkdir_ab, ?write_text_abc;
    repeat match goal with
           | H : ?m !! ?k = _ |- context [?m !! ?k] => rewrite H
           end;
    rewrite ?lookup_insert_eq;
    rewrite ?lookup_insert_ne by (intros [=]);
    repeat case_decide; try discriminate;
    cbn [negb andb orb default from_option Datatypes.id is_FileExistsError fst snd])).

(** C8. Round trip of the file tools: on a tree where [a] and [a/b] are
    free or directories and [a/b/c.txt] is not a directory,
    [write_file("a/b/c.txt", "X")] reports success, a following
    [read_file("a/b/c.txt")] returns exactly ["X"], and [a] and [a/b] are
    directories afterwards, created by the call where they were absent. *)
Theorem write_then_read_round_trip (fs : tree) :
  dir_or_absent fs ["a"] →
  dir_or_absent fs ["a"; "b"] →
  fs !! ["a"; "b"; "c.txt"] ≠ Some Dir →
  let r := write_file fs "a/b/c.txt" "X" in
  fst r = "Successfully wrote to a/b/c.txt"
  ∧ read_file (snd r) "a/b/c.txt" = "X"
  ∧ OS.isdir (snd r) "a" = true
  ∧ OS.isdir (snd r) "a/b" = true
  ∧ snd r !! ["a"; "b"; "c.txt"] = Some (File "X").
Proof.
  intros Ha Hb Hc. cbv zeta.
  assert (Hw : ∃ fs', write_file fs "a/b/c.txt" "X"
                      = ("Successfully wrote to a/b/c.txt", fs')
                      ∧ fs' !! ["a"] = Some Dir
                      ∧ fs' !! ["a"; "b"] = Some Dir
                      ∧ fs' !! ["a"; "b"; "c.txt"] = Some (File "X")).
  { unfold write_file.
    change (OS.dirname "a/b/c.txt") with "a/b".
    unfold OS.makedirs. change (String.length "a/b") with 3%nat.
    cbn [OS.makedirs_rec].
    repeat match goal with
           | |- context [OS.split ?p] =>
               let v := eval vm_compute in (OS.split p) in
               change (OS.split p) with v; cbn [PyStr.is_empty negb andb]
           end.
    destruct (fs !! ["a"; "b"; "c.txt"]) as [[x|]|] eqn:Hf; [| congruence |];
      destruct Ha as [Ha|Ha], Hb as [Hb|Hb];
      tree_eval; eexists; (split; [reflexivity|]); tree_eval; auto. }
  destruct Hw as (fs' & -> & Ha' & Hb' & Hc').
  cbn [fst snd]. unfold read_file. tree_eval. auto.
Qed.

Lemma write_then_read_round_trip_witness :
  (dir_or_absent (∅ : tree) ["a"]
   ∧ dir_or_absent (∅ : tree) ["a"; "b"]
   ∧ (∅ : tree) !! ["a"; "b"; "c.txt"] ≠ Some Dir)
  ∧ let r := write_file ∅ "a/b/c.txt" "X" in
    fst r = "Successfully wrote to a/b/c.txt"
    ∧ read_file (snd r) "a/b/c.txt" = "X"
    ∧ OS.isdir (snd r) "a" = true
    ∧ OS.isdir (snd r) "a/b" = true
    ∧ snd r !! ["a"; "b"; "c.txt"] = Some (File "X").
Proof.
  assert (H1 : dir_or_absent (∅ : tree) ["a"]) by (left; reflexivity).
  assert (H2 : dir_or_absent (∅ : tree) ["a"; "b"]) by (left; reflexivity).
  assert (H3 : (∅ : tree) !! ["a"; "b"; "c.txt"] ≠ Some Dir) by (vm_compute; discriminate).
  split; [auto | exact (write_then_read_round_trip ∅ H1 H2 H3)].
Defined.

(** C10. For a path whose [os.path.dirname] is the empty string and any
    content, [os.makedirs] fails on the empty name, [write_file] returns a
    text that begins with ["Error writing file:"], and the file tree is
    left as it was. *)
Theorem write_file_bare_name_fails (fs : tree) (path content : string) :
  OS.dirname path = "" →
  OS.makedirs fs (OS.dirname path) true = (Some (OSError ENOENT ""), fs)
  ∧ PyStr.startswith "Error writing file:" (fst (write_file fs path content)) = true
  ∧ snd (write_file fs path content) = fs.
Proof.
  intros Hd. unfold write_file. rewrite Hd. repeat split; reflexivity.
Qed.

Lemma write_file_bare_name_fails_witness :
  OS.dirname "c.txt" = ""
  ∧ OS.makedirs ∅ (OS.dirname "c.txt") true = (Some (OSError ENOENT ""), ∅)
  ∧ PyStr.startswith "Error writing file:" (fst (write_file ∅ "c.txt" "X")) = true
  ∧ snd (write_file ∅ "c.txt" "X") = ∅.
Proof.
  split; [reflexivity | apply (write_file_bare_name_fails ∅ "c.txt" "X"); reflexivity].
Defined.

(* ===================================================================== *)
(** ** One tool call *)

Section ToolCallFacts.
Context {E : Type} `{Host E}.

Ltac run_session :=
  unfold bind, lift, dict_get, preview200, ret, raise, send, log,
    append_message, run_terminal_command, web_search, call_read_file,
    call_write_file; simpl.

Ltac close_segment :=
  do 2 eexists; split; [reflexivity|]; simpl;
  rewrite <- !app_assoc; simpl;
  split; [reflexivity|]; split; [reflexivity|]; split; [reflexivity|];
  eapply seg_known;
  [eassumption | unfold known_tools; set_solver | reflexivity | reflexivity].

(** A tool call either runs to its tool message, adding one segment to
    the trace, or raises before it has done anything. *)
Lemma run_tool_call_spec (tc : call) (s : state E) :
  (∃ seg s', run_tool_call tc s = (Ok tt, s')
             ∧ trace s' = trace s ++ seg
             ∧ messages s' = messages s ++ appended seg
             ∧ mode s' = mode s
             ∧ call_segment tc seg)
  ∨ (∃ e, run_tool_call tc s = (Raise e, s)).
Proof.
  unfold run_tool_call.
  set (a := default (JObj []) (json_loads (args tc))).
  set (eid := "evt-" +:+ fmt_opt (id tc)).
  unfold is_tool.
  destruct (bool_decide (name tc = Some "run_terminal_command")) eqn:H1.
  { apply bool_decide_eq_true in H1.
    destruct a; try (right; eexists; reflexivity).
    left. run_session.
    destruct (subprocess_run _ _ _) as [[e' fs'] out]; simpl.
    close_segment. }
  destruct (bool_decide (name tc = Some "read_file")) eqn:H2.
  { apply bool_decide_eq_true in H2.
    destruct a; try (right; eexists; reflexivity).
    left. run_session.
    destruct (match default (JStr "") (Py.assoc "path" fields) with
              | JStr p => _ | _ => _ end) as [e' text]; simpl.
    close_segment. }
  destruct (bool_decide (name tc = Some "write_file")) eqn:H3.
  { apply bool_decide_eq_true in H3.
    destruct a; try (right; eexists; reflexivity).
    run_session.
    destruct (default (JStr "") (Py.assoc "content" fields)) eqn:Hc;
      try (right; eexists; reflexivity).
    left. simpl.
    destruct (match default (JStr "") (Py.assoc "path" fields) with
              | JStr p => _ | _ => _ end) as [text fs']; simpl.
    close_segment. }
  destruct (bool_decide (name tc = Some "web_search")) eqn:H4.
  { apply bool_decide_eq_true in H4.
    destruct a; try (right; eexists; reflexivity).
    left. run_session.
    destruct (ddgs_text _ _) as [e' out]; simpl.
    close_segment. }
  apply bool_decide_eq_false in H1, H2, H3, H4.
  left. run_session. do 2 eexists. split; [reflexivity|]. simpl.
  split; [reflexivity|]. split; [reflexivity|]. split; [reflexivity|].
  apply seg_unknown. intros tool Ht.
  unfold known_tools in Ht.
  repeat (apply elem_of_cons in Ht as [->|Ht]; [assumption|]).
  by apply elem_of_nil in Ht.
Qed.

End ToolCallFacts.

(* ===================================================================== *)
(** ** The sorted keys of [tool_calls] *)

Section KeyFacts.

Lemma sorted_keys_elem (d : gmap Z call) (k : Z) :
  k ∈ sorted_keys d ↔ is_Some (d !! k).
Proof.
  unfold sorted_keys. rewrite merge_sort_Permutation.
  rewrite list_elem_of_fmap. split.
  - intros [[k' tc] [-> Hin]]. apply elem_of_map_to_list in Hin. eauto.
  - intros [tc Htc]. exists (k, tc). split; [reflexivity|].
    by apply elem_of_map_to_list.
Qed.




Lemma omap_lookup_Forall2 (d : gmap Z call) (keys : list Z) :
  Forall (λ k, is_Some (d !! k)) keys →
  Forall2 (λ k tc, d !! k = Some tc) keys (omap (λ k, d !! k) keys).
Proof.
  induction 1 as [|k keys [tc Hk] _ IH]; simpl; [constructor|].
  rewrite Hk. by constructor.
Qed.

Lemma sorted_calls_lookup (d : gmap Z call) :
  Forall2 (λ k tc, d !! k = Some tc) (sorted_keys d) (sorted_calls d).
Proof.
  apply omap_lookup_Forall2, Forall_forall.
  intros k. apply sorted_keys_elem.
Qed.

Lemma sorted_keys_empty (d : gmap Z call) : sorted_keys d = [] ↔ d = ∅.
Proof.
  split.
  - intros Hk. apply map_eq. intros k. rewrite lookup_empty.
    destruct (d !! k) eqn:Hd; [|reflexivity].
    assert (k ∈ sorted_keys d) by (apply sorted_keys_elem; eauto).
    rewrite Hk in *. set_solver.
  - intros ->. reflexivity.
Qed.

End KeyFacts.

(* ===================================================================== *)
(** ** The loops of [handle_message] *)

Section LoopFacts.
Context {E : Type} `{Host E}.

Lemma build_tool_calls_msg_spec (d : gmap Z call) (keys : list Z) (s : state E) :
  Forall (λ k, is_Some (d !! k)) keys →
  build_tool_calls_msg d keys s
  = (Ok (request_of <$> omap (λ k, d !! k) keys), s).
Proof.
  induction 1 as [|k keys [tc Hk] _ IH]; simpl; [reflexivity|].
  unfold bind, subscript. rewrite Hk. simpl.
  unfold bind in IH. rewrite IH. reflexivity.
Qed.

(** The second loop runs the calls in the order of the keys; it stops at
    the first call that raises, which has added nothing. *)
Lemma run_tool_calls_spec (d : gmap Z call) (keys : list Z) (s : state E) :
  Forall (λ k, is_Some (d !! k)) keys →
  ∃ n segs r s',
    run_tool_calls d keys s = (r, s')
    ∧ Forall2 call_segment (take n (omap (λ k, d !! k) keys)) segs
    ∧ trace s' = trace s ++ concat segs
    ∧ messages s' = messages s ++ appended (concat segs)
    ∧ mode s' = mode s
    ∧ ((r = Ok tt ∧ n = length (omap (λ k, d !! k) keys))
       ∨ (∃ x, r = Raise x ∧ (n < length (omap (λ k, d !! k) keys))%nat)).
Proof.
  intros Hk. revert s.
  induction Hk as [|k keys [tc Hk] _ IH]; intros s; simpl.
  - exists 0%nat, [], (Ok tt), s. simpl. rewrite !app_nil_r.
    repeat split; auto.
  - rewrite Hk. unfold bind at 1. unfold subscript. rewrite Hk. simpl.
    unfold bind at 1.
    destruct (run_tool_call_spec tc s) as [(seg & s1 & Hrun & Ht & Hm & Hmode & Hseg)|[x Hrun]];
      rewrite Hrun.
    + destruct (IH s1) as (n & segs & r & s' & Hrest & Hsegs & Ht' & Hm' & Hmode' & Hr).
      exists (S n), (seg :: segs), r, s'. simpl.
      split; [exact Hrest|].
      split; [by constructor|].
      split; [rewrite Ht', Ht, <- app_assoc; reflexivity|].
      split; [unfold appended in *; rewrite Hm', Hm, omap_app, <- app_assoc; reflexivity|].
      split; [congruence|].
      destruct Hr as [[-> ->]|(x & -> & Hlt)];
        [left; auto
        | right; exists x; split;
          [reflexivity | apply (proj1 (Nat.succ_lt_mono _ _)); exact Hlt]].
    + exists 0%nat, [], (Raise x), s. simpl. rewrite !app_nil_r.
      split; [reflexivity|]. split; [constructor|].
      split; [reflexivity|]. split; [reflexivity|]. split; [reflexivity|].
      right. exists x. split; [reflexivity|apply Nat.lt_0_succ].
Qed.

Lemma fragments_cons (ch : chunk) (stream : list chunk) :
  fragments (ch :: stream) = default [] (c_tool_calls ch) ++ fragments stream.
Proof. reflexivity. Qed.

(** The first loop never raises; it sends one thought event per text
    fragment and folds [absorb] over the tool-call fragments. *)
Lemma consume_spec (tid : string) (stream : list chunk) (t : string)
      (d : gmap Z call) (s : state E) :
  ∃ thoughts t',
    consume tid stream t d s
    = (Ok (t', fold_left absorb (fragments stream) d),
       mkState (messages s) (mode s) (fs s) (env s) (trace s ++ thoughts))
    ∧ Forall (thought_of tid) thoughts
    ∧ appended thoughts = [].
Proof.
  revert t d s. induction stream as [|ch stream IH]; intros t d s.
  - exists [], t. simpl. rewrite app_nil_r. destruct s; simpl.
    repeat split; constructor.
  - rewrite fragments_cons, fold_left_app. cbn [consume].
    assert (Hd : match c_tool_calls ch with
                 | Some (tc :: tcs) => fold_left absorb (tc :: tcs) d
                 | _ => d
                 end = fold_left absorb (default [] (c_tool_calls ch)) d).
    { destruct (c_tool_calls ch) as [[|]|]; reflexivity. }
    rewrite Hd. clear Hd.
    unfold bind at 1.
    destruct (nonempty (c_content ch)).
    + unfold bind at 1. unfold send, log, ret. simpl.
      edestruct IH as (thoughts & t' & -> & Hth & Happ). simpl.
      eexists (_ :: thoughts), t'. rewrite <- app_assoc. simpl.
      split; [reflexivity|]. split; [|exact Happ].
      constructor; [|exact Hth]. eexists; reflexivity.
    + unfold ret. simpl.
      destruct (IH t (fold_left absorb (default [] (c_tool_calls ch)) d) s)
        as (thoughts & t' & -> & Hth & Happ).
      exists thoughts, t'. auto.
Qed.

End LoopFacts.

Section RoundFacts.
Context {E : Type} `{Host E}.

Lemma appended_app (l1 l2 : list action) :
  appended (l1 ++ l2) = appended l1 ++ appended l2.
Proof. apply omap_app. Qed.

Lemma appended_assistant_text (content : string) :
  appended (assistant_text content)
  = if PyStr.is_empty content then [] else [MAssistant content].
Proof. unfold assistant_text. destruct (PyStr.is_empty content); reflexivity. Qed.

Lemma text_message_run (content : string) (s : state E) :
  (if negb (PyStr.is_empty content)
   then append_message (MAssistant content) else ret tt) s
  = (Ok tt, mkState (messages s ++ appended (assistant_text content))
                    (mode s) (fs s) (env s)
                    (trace s ++ assistant_text content)).
Proof.
  unfold assistant_text. destruct (PyStr.is_empty content); simpl.
  - unfold ret. rewrite !app_nil_r. by destruct s.
  - reflexivity.
Qed.

(** One pass of the turn loop, whatever its outcome. *)
Lemma round_spec (tools : list tool_def) (s : state E) (r : result flow)
      (s' : state E) :
  round tools s = (r, s') →
  ∃ new,
    round_trace tools (env s) (messages s) r new
    ∧ trace s' = trace s ++ new
    ∧ messages s' = messages s ++ appended new
    ∧ mode s' = mode s.
Proof.
  unfold round. unfold bind at 1. unfold create.
  destruct (completions_create (env s) (messages s) (tools_arg tools))
    as [e1 [text|stream]] eqn:Hcreate.
  - (* the request failed *)
    intros [= <- <-]. eexists. simpl. rewrite <- app_assoc. simpl.
    split; [eapply rt_error; eauto|].
    rewrite app_nil_r. auto.
  - unfold bind at 1. unfold urandom at 1. cbn [env messages mode fs trace].
    destruct (urandom_hex e1) as [e2 hex].
    unfold bind at 1.
    match goal with
    | |- context [consume ?tid stream "" ∅ ?s0] =>
        destruct (consume_spec tid stream "" ∅ s0)
          as (thoughts & content & Hcons & Hth & Hnone);
        rewrite Hcons; clear Hcons
    end.
    cbn [fst snd env messages mode fs trace].
    fold (calls_of stream). set (d := calls_of stream).
    unfold bind at 1. rewrite text_message_run.
    cbn [env messages mode fs trace].
    destruct (bool_decide (d = ∅)) eqn:Hd.
    + apply bool_decide_eq_true in Hd.
      intros [= <- <-]. cbn [trace messages mode].
      exists (ARequest (messages s) (tools_arg tools)
              :: thoughts ++ assistant_text content).
      split; [eapply rt_answer; eauto|].
      split; [rewrite <- !app_assoc; reflexivity|].
      split; [|reflexivity].
      simpl. rewrite appended_app, Hnone. reflexivity.
    + apply bool_decide_eq_false in Hd.
      assert (Hkeys : Forall (λ k, is_Some (d !! k)) (sorted_keys d)).
      { apply Forall_forall. intros k. apply sorted_keys_elem. }
      unfold bind at 1. rewrite (build_tool_calls_msg_spec _ _ _ Hkeys).
      fold (sorted_calls d).
      unfold bind at 1. unfold append_message at 1.
      cbn [trace messages mode fs env].
      unfold bind at 1.
      match goal with
      | |- context [run_tool_calls d (sorted_keys d) ?s0] =>
          destruct (run_tool_calls_spec d (sorted_keys d) s0 Hkeys)
            as (n & segs & r0 & s0' & Hrun & Hsegs & Ht & Hm & Hmode & Hr);
          rewrite Hrun; clear Hrun
      end.
      fold (sorted_calls d) in Hsegs, Hr.
      cbn [trace messages mode] in Ht, Hm, Hmode.
      intros Hres.
      exists (ARequest (messages s) (tools_arg tools) :: thoughts
              ++ assistant_text content
              ++ AAppend (MAssistantCalls (content_or_none content)
                            (request_of <$> sorted_calls d)) :: concat segs).
      assert (Hs' : s' = s0' ∧ ((r0 = Ok tt ∧ r = Ok Continue)
                                ∨ ∃ x, r0 = Raise x ∧ r = Raise x)).
      { destruct r0 as [[]|x]; unfold ret in Hres;
          injection Hres as <- <-; eauto. }
      destruct Hs' as [-> Hres'].
      split.
      { eapply rt_calls; eauto.
        destruct Hr as [[-> ->]|(x & -> & Hlt)];
          destruct Hres' as [[? ->]|(x' & ? & ->)]; try discriminate.
        - left; auto.
        - right. exists x'. auto. }
      split; [rewrite Ht, <- !app_assoc; reflexivity|].
      split; [|exact Hmode].
      rewrite Hm. simpl. rewrite !appended_app, Hnone. simpl.
      rewrite <- !app_assoc. reflexivity.
Qed.

End RoundFacts.

Section TurnFacts.
Context {E : Type} `{Host E}.

(** The turn loop is a sequence of at most [n] passes. *)
Lemma turn_loop_spec (n : nat) (tools : list tool_def) (s : state E)
      (r : result unit) (s' : state E) :
  turn_loop n tools s = (r, s') →
  ∃ rounds,
    (length rounds ≤ n)%nat
    ∧ Forall (is_round tools) rounds
    ∧ trace s' = trace s ++ concat rounds
    ∧ messages s' = messages s ++ appended (concat rounds)
    ∧ mode s' = mode s.
Proof.
  revert s. induction n as [|n IH]; intros s; cbn [turn_loop].
  - intros [= <- <-]. exists []. simpl. rewrite !app_nil_r. repeat split; auto.
  - unfold bind.
    destruct (round tools s) as [f s1] eqn:Hround.
    destruct (round_spec tools s f s1 Hround) as (new & Hshape & Ht & Hm & Hmode).
    assert (Hone : s' = s1 →
              ∃ rounds, (length rounds ≤ S n)%nat ∧ Forall (is_round tools) rounds
                ∧ trace s' = trace s ++ concat rounds
                ∧ messages s' = messages s ++ appended (concat rounds)
                ∧ mode s' = mode s).
    { intros ->. exists [new]. simpl. rewrite !app_nil_r.
      split; [lia|].
      split; [constructor; [|constructor]; do 3 eexists; eauto|].
      auto. }
    destruct f as [[| |]|x]; unfold ret;
      try (intros [= <- <-]; apply Hone; reflexivity).
    intros Hloop.
    destruct (IH s1 Hloop) as (rounds & Hlen & Hall & Ht' & Hm' & Hmode').
    exists (new :: rounds). simpl.
    split; [lia|].
    split; [constructor; [do 3 eexists; eauto | auto]|].
    split; [rewrite Ht', Ht, <- app_assoc; reflexivity|].
    split; [rewrite Hm', Hm, appended_app, <- app_assoc; reflexivity|].
    congruence.
Qed.

Lemma turn_after_append (m : message) (s : state E) (r : result unit)
      (s' : state E) :
  (append_message m ;; md <- get_mode ;; turn_loop 10 (allowed_tools_of md)) s
  = (r, s') →
  ∃ rounds,
    (length rounds ≤ 10)%nat
    ∧ Forall (is_round (allowed_tools_of (mode s))) rounds
    ∧ trace s' = trace s ++ [AAppend m] ++ concat rounds
    ∧ messages s' = messages s ++ appended ([AAppend m] ++ concat rounds)
    ∧ mode s' = mode s.
Proof.
  unfold bind, append_message, get_mode. cbn [mode]. intros Hloop.
  destruct (turn_loop_spec _ _ _ _ _ Hloop) as (rounds & Hlen & Hall & Ht & Hms & Hmode).
  cbn [trace messages mode] in *.
  exists rounds.
  split; [auto|]. split; [auto|].
  split; [rewrite Ht, <- app_assoc; reflexivity|].
  split; [rewrite Hms; simpl; rewrite <- app_assoc; reflexivity|].
  auto.
Qed.

(** A turn: the user message, then at most ten passes of the loop with
    the tools of the session's mode. *)
Lemma handle_message_spec (user_content images : json) (s : state E)
      (r : result unit) (s' : state E) :
  handle_message user_content images s = (r, s') →
  ∃ user rounds,
    user_append user
    ∧ (length rounds ≤ 10)%nat
    ∧ Forall (is_round (allowed_tools_of (mode s))) rounds
    ∧ trace s' = trace s ++ user ++ concat rounds
    ∧ messages s' = messages s ++ appended (user ++ concat rounds)
    ∧ mode s' = mode s.
Proof.
  assert (Hraise : ∀ x, (Raise x : result unit, s) = (r, s') →
             ∃ user rounds,
               user_append user ∧ (length rounds ≤ 10)%nat
               ∧ Forall (is_round (allowed_tools_of (mode s))) rounds
               ∧ trace s' = trace s ++ user ++ concat rounds
               ∧ messages s' = messages s ++ appended (user ++ concat rounds)
               ∧ mode s' = mode s).
  { intros x [= <- <-]. exists [], []. simpl. rewrite !app_nil_r.
    repeat split; auto; [by left | lia]. }
  assert (Hloop : ∀ m, ((∃ c, m = MUser c) ∨ (∃ c imgs, m = MUserBlocks c imgs)) →
             (append_message m ;; md <- get_mode ;;
              turn_loop 10 (allowed_tools_of md)) s = (r, s') →
             ∃ user rounds,
               user_append user ∧ (length rounds ≤ 10)%nat
               ∧ Forall (is_round (allowed_tools_of (mode s))) rounds
               ∧ trace s' = trace s ++ user ++ concat rounds
               ∧ messages s' = messages s ++ appended (user ++ concat rounds)
               ∧ mode s' = mode s).
  { intros m Hm Hrun.
    destruct (turn_after_append m s r s' Hrun) as (rounds & ? & ? & ? & ? & ?).
    exists [AAppend m], rounds. split; [right; eauto|]. auto. }
  unfold handle_message.
  destruct (Py.truthy images).
  - destruct images; cbn [py_len lift]; try (unfold bind at 1; unfold bind at 1; apply Hraise).
    + unfold bind at 1. unfold bind at 1. unfold ret at 1.
      destruct (bool_decide (0 < String.length s0)%nat).
      * unfold bind at 1. unfold bind at 1. cbn [py_iter lift]. unfold ret at 1.
        apply Hloop. eauto.
      * unfold bind at 1. apply Hloop. eauto.
    + unfold bind at 1. unfold bind at 1. unfold ret at 1.
      destruct (bool_decide (0 < length items)%nat).
      * unfold bind at 1. unfold bind at 1. cbn [py_iter lift]. unfold ret at 1.
        apply Hloop. eauto.
      * unfold bind at 1. apply Hloop. eauto.
    + unfold bind at 1. unfold bind at 1. unfold ret at 1.
      destruct (bool_decide (0 < length fields)%nat).
      * unfold bind at 1. unfold bind at 1. cbn [py_iter lift]. unfold ret at 1.
        apply Hloop. eauto.
      * unfold bind at 1. apply Hloop. eauto.
  - unfold bind at 1. unfold ret at 1.
    unfold bind at 1. apply Hloop. eauto.
Qed.

End TurnFacts.

(* ===================================================================== *)
(** ** What a pass of the loop can do *)

Section EffectFacts.
Context {E : Type} `{Host E}.

Lemma call_segment_effect (tc : call) (seg : list action) :
  call_segment tc seg → Forall session_effect seg.
Proof.
  destruct 1 as [start finish tool arguments output Hname Htool Hs Hf|Hunk].
  - constructor; [left; rewrite Hs; by eexists|].
    constructor; [exact Htool|].
    constructor; [left; rewrite Hf; by eexists|].
    constructor; [exact I | constructor].
  - constructor; [exact I | constructor].
Qed.

Lemma segments_effect (tcs : list call) (segs : list (list action)) :
  Forall2 call_segment tcs segs → Forall session_effect (concat segs).
Proof.
  induction 1 as [|tc seg tcs segs Hseg _ IH]; simpl; [constructor|].
  apply Forall_app. split; [by eapply call_segment_effect | exact IH].
Qed.

Lemma thoughts_effect (tid : string) (thoughts : list action) :
  Forall (thought_of tid) thoughts → Forall session_effect thoughts.
Proof.
  intros Hth. eapply Forall_impl; [exact Hth|].
  intros a [text ->]. left. by eexists.
Qed.

Lemma assistant_text_effect (content : string) :
  Forall session_effect (assistant_text content).
Proof.
  unfold assistant_text.
  destruct (PyStr.is_empty content);
    [constructor | constructor; [exact I | constructor]].
Qed.

(** A pass is its request followed by effects of the session. *)
Lemma round_trace_rest (tools : list tool_def) (e : E) (msgs : list message)
      (r : result flow) (new : list action) :
  round_trace tools e msgs r new →
  ∃ rest, new = ARequest msgs (tools_arg tools) :: rest
          ∧ Forall session_effect rest.
Proof.
  destruct 1 as [e' text Hc|e' stream tid thoughts content Hc Hd Hth
                |e' stream tid thoughts content segs r n Hc Hd Hth Hsegs Hr];
    eexists; (split; [reflexivity|]).
  - constructor; [right; by eexists | constructor].
  - apply Forall_app. split;
      [by eapply thoughts_effect | apply assistant_text_effect].
  - apply Forall_app. split; [by eapply thoughts_effect|].
    apply Forall_app. split; [apply assistant_text_effect|].
    constructor; [exact I|]. by eapply segments_effect.
Qed.

Lemma requests_effect (l : list action) :
  Forall session_effect l → requests l = [].
Proof.
  unfold requests. induction 1 as [|a l Ha _ IH]; [reflexivity|].
  destruct a; try contradiction; rewrite filter_cons_False by (simpl; discriminate);
    exact IH.
Qed.

Lemma requests_round (tools : list tool_def) (new : list action) :
  is_round tools new → length (requests new) = 1%nat.
Proof.
  intros (e & msgs & r & Hr).
  destruct (round_trace_rest _ _ _ _ _ Hr) as (rest & -> & Hrest).
  unfold requests. rewrite filter_cons_True by reflexivity.
  fold (requests rest). rewrite (requests_effect _ Hrest). reflexivity.
Qed.

Lemma requests_app (l1 l2 : list action) :
  requests (l1 ++ l2) = requests l1 ++ requests l2.
Proof. apply filter_app. Qed.

Lemma requests_rounds (tools : list tool_def) (rounds : list (list action)) :
  Forall (is_round tools) rounds →
  length (requests (concat rounds)) = length rounds.
Proof.
  induction 1 as [|new rounds Hnew _ IH]; [reflexivity|].
  simpl. rewrite requests_app, length_app, IH, (requests_round _ _ Hnew).
  reflexivity.
Qed.

Lemma requests_user (user : list action) :
  user_append user → requests user = [].
Proof. intros [->|(m & -> & _)]; reflexivity. Qed.

(** C3. Whatever the completion service answers, one call of
    [handle_message] returns after at most ten completion requests. *)
Theorem handle_message_at_most_ten_requests
        (user_content images : json) (s : state E) :
  ∃ new,
    trace (handle_message user_content images s).2 = trace s ++ new
    ∧ (length (requests new) ≤ 10)%nat.
Proof.
  destruct (handle_message user_content images s) as [r s'] eqn:Hrun.
  destruct (handle_message_spec _ _ _ _ _ Hrun)
    as (user & rounds & Huser & Hlen & Hall & Ht & _).
  exists (user ++ concat rounds). split; [exact Ht|].
  rewrite requests_app, length_app, (requests_user _ Huser),
    (requests_rounds _ _ Hall).
  simpl. exact Hlen.
Qed.

End EffectFacts.

(* ===================================================================== *)
(** ** Tool messages and the order of tool calls within a pass *)

Section OrderFacts.
Context {E : Type} `{Host E}.

Lemma appended_thoughts (tid : string) (thoughts : list action) :
  Forall (thought_of tid) thoughts → appended thoughts = [].
Proof.
  induction 1 as [|a l [text ->] _ IH]; [reflexivity|]. exact IH.
Qed.

Lemma appended_assistant_text_cases (content : string) :
  appended (assistant_text content) = []
  ∨ ∃ c, appended (assistant_text content) = [MAssistant c].
Proof.
  unfold assistant_text. destruct (PyStr.is_empty content); simpl; eauto.
Qed.

Lemma appended_segment (tc : call) (seg : list action) :
  call_segment tc seg → ∃ output, appended seg = [MTool (id tc) output].
Proof. destruct 1; eexists; reflexivity. Qed.

Lemma appended_segments (tcs : list call) (segs : list (list action)) :
  Forall2 call_segment tcs segs →
  Forall2 (λ tc m, ∃ output, m = MTool (id tc) output) tcs
          (appended (concat segs)).
Proof.
  induction 1 as [|tc seg tcs segs Hseg _ IH]; simpl; [constructor|].
  rewrite appended_app.
  destruct (appended_segment _ _ Hseg) as [output ->].
  constructor; [by eexists | exact IH].
Qed.

(** C1. In every pass of the loop of [handle_message] that completes its
    tool handling, the messages appended are an optional text message,
    the assistant message with the tool calls, and then exactly one tool
    message per element of [tool_calls], in the same order, each with the
    [tool_call_id] of that element. *)
Theorem tool_messages_answer_requests (tools : list tool_def) (s s' : state E) :
  round tools s = (Ok Continue, s') →
  ∃ text content reqs tool_msgs,
    messages s' = messages s ++ text ++ MAssistantCalls content reqs :: tool_msgs
    ∧ (text = [] ∨ ∃ c, text = [MAssistant c])
    ∧ Forall2 (λ req m, ∃ output, m = MTool (tc_id req) output) reqs tool_msgs.
Proof.
  intros Hround.
  destruct (round_spec _ _ _ _ Hround) as (new & Hshape & _ & Hm & _).
  inversion Hshape
    as [| |e' stream tid thoughts content segs r n Hc Hd Hth Hsegs Hr]; subst.
  destruct Hr as [[_ ->]|(x & [=] & _)].
  rewrite firstn_all in Hsegs.
  exists (appended (assistant_text content)), (content_or_none content),
    (request_of <$> sorted_calls (calls_of stream)), (appended (concat segs)).
  split; [|split].
  - rewrite Hm. simpl. rewrite !appended_app, (appended_thoughts _ _ Hth).
    reflexivity.
  - apply appended_assistant_text_cases.
  - apply Forall2_fmap_l. exact (appended_segments _ _ Hsegs).
Qed.


End OrderFacts.

Lemma tool_messages_answer_requests_witness :
  let s := Scripted.session "agent" [inr Scripted.two_calls] in
  let s' := (round TOOL_DEFINITIONS s).2 in
  round TOOL_DEFINITIONS s = (Ok Continue, s')
  ∧ ∃ text content reqs tool_msgs,
      messages s' = messages s ++ text ++ MAssistantCalls content reqs :: tool_msgs
      ∧ (text = [] ∨ ∃ c, text = [MAssistant c])
      ∧ Forall2 (λ req m, ∃ output, m = MTool (tc_id req) output) reqs tool_msgs.
Proof.
  intros s s'.
  assert (Hrun : round TOOL_DEFINITIONS s = (Ok Continue, s'))
    by (vm_compute; reflexivity).
  split; [exact Hrun | exact (tool_messages_answer_requests _ _ _ Hrun)].
Defined.


(* ===================================================================== *)
(** ** The streaming aggregator *)

Section AggregatorFacts.

Lemma absorb_lookup_same (d : gmap Z call) (f : fragment) :
  absorb d f !! f_index f = Some (absorb_entry (d !! f_index f) f).
Proof.
  unfold absorb, absorb_entry, args_text.
  destruct (d !! f_index f) as [c|] eqn:Hd; simpl;
    destruct (nonempty (f_name f)), (nonempty (f_arguments f));
    rewrite ?lookup_alter_eq, ?lookup_insert_eq, ?Hd; reflexivity.
Qed.

Lemma absorb_lookup_other (d : gmap Z call) (f : fragment) (i : Z) :
  i ≠ f_index f → absorb d f !! i = d !! i.
Proof.
  intros Hi. unfold absorb.
  destruct (d !! f_index f) as [c|] eqn:Hd;
    destruct (nonempty (f_name f)), (nonempty (f_arguments f));
    rewrite ?lookup_alter_ne, ?lookup_insert_ne by congruence; reflexivity.
Qed.

Lemma fold_absorb_lookup (frs : list fragment) (d : gmap Z call) (i : Z) :
  fold_left absorb frs d !! i
  = fold_left (λ o f, Some (absorb_entry o f)) (at_index i frs) (d !! i).
Proof.
  revert d. induction frs as [|f frs IH]; intros d; [reflexivity|].
  simpl. rewrite IH. unfold at_index. 
  destruct (decide (f_index f = i)) as [<-|Hne].
  - rewrite filter_cons_True by reflexivity. simpl.
    rewrite absorb_lookup_same. reflexivity.
  - rewrite filter_cons_False by assumption.
    rewrite absorb_lookup_other by congruence. reflexivity.
Qed.

Lemma string_app_nil_r (s : string) : s +:+ "" = s.
Proof.
  induction s as [|c s IH]; [reflexivity|].
  change (String c (s +:+ "") = String c s). by rewrite IH.
Qed.

Lemma string_app_assoc (a b c : string) : (a +:+ b) +:+ c = a +:+ (b +:+ c).
Proof.
  induction a as [|x a IH]; [reflexivity|].
  change (String x ((a +:+ b) +:+ c) = String x (a +:+ (b +:+ c))).
  by rewrite IH.
Qed.

Lemma empty_args_text (f : fragment) :
  nonempty (f_arguments f) = false → args_text f = "".
Proof.
  unfold args_text. destruct (f_arguments f) as [[|]|]; simpl; congruence.
Qed.

Lemma absorb_entry_some (c : call) (f : fragment) :
  absorb_entry (Some c) f
  = {| id := id c;
       name := if nonempty (f_name f) then f_name f else name c;
       args := args c +:+ args_text f |}.
Proof.
  unfold absorb_entry. simpl.
  destruct (nonempty (f_name f)), (nonempty (f_arguments f)) eqn:Ha;
    unfold add_args, set_name; simpl;
    rewrite ?(empty_args_text _ Ha), ?string_app_nil_r;
    destruct c; reflexivity.
Qed.

Lemma fold_entries (ps : list fragment) (c : call) :
  fold_left (λ o f, Some (absorb_entry o f)) ps (Some c)
  = Some {| id := id c; name := last_name (name c) ps;
            args := args c +:+ joined_args ps |}.
Proof.
  revert c. induction ps as [|p ps IH]; intros c; simpl.
  - rewrite string_app_nil_r. destruct c; reflexivity.
  - rewrite absorb_entry_some, IH. simpl.
    rewrite string_app_assoc. reflexivity.
Qed.

(** Per index, the dictionary holds the id of the first fragment, the
    last non-empty name (the name of the first fragment if there is
    none), and the concatenation of the arguments. *)
Lemma fold_absorb_entry (frs : list fragment) (i : Z) :
  fold_left absorb frs ∅ !! i = entry_of (at_index i frs).
Proof.
  rewrite fold_absorb_lookup, lookup_empty.
  destruct (at_index i frs) as [|p ps]; [reflexivity|].
  cbn [fold_left entry_of].
  replace (absorb_entry None p)
    with (absorb_entry (Some {| id := f_id p; name := f_name p; args := "" |}) p)
    by reflexivity.
  rewrite absorb_entry_some, fold_entries. cbn [id name args].
  reflexivity.
Qed.

Lemma last_name_keeps (n : option string) (ps : list fragment) :
  Forall (λ p, nonempty (f_name p) = false ∨ f_name p = n) ps →
  last_name n ps = n.
Proof.
  unfold last_name. induction 1 as [|p ps [Hp|Hp] _ IH]; simpl; [reflexivity| |].
  - rewrite Hp. exact IH.
  - destruct (nonempty (f_name p)); [rewrite Hp|]; exact IH.
Qed.

Lemma last_name_finds (n0 n : option string) (ps : list fragment) :
  nonempty n = true →
  Forall (λ p, nonempty (f_name p) = false ∨ f_name p = n) ps →
  Exists (λ p, f_name p = n) ps →
  last_name n0 ps = n.
Proof.
  intros Hn Hall Hex. revert n0.
  induction Hex as [p ps Hp|p ps Hex IH]; intros n0;
    apply Forall_cons in Hall as [Hhead Htail]; unfold last_name; simpl.
  - rewrite Hp, Hn. by apply last_name_keeps.
  - destruct Hhead as [Hp|Hp].
    + rewrite Hp. by apply IH.
    + rewrite Hp, Hn. by apply last_name_keeps.
Qed.

Lemma entry_of_cut (u : fragment) (ps : list fragment) :
  cut_id_first u ps → entry_of ps = entry_of [u].
Proof.
  intros (p & ps' & -> & Hid & Hall & Hname & Hargs).
  unfold cut_args in Hargs.
  cbn [entry_of]. f_equal.
  rewrite Hid, Hargs. cbn [joined_args]. rewrite string_app_nil_r.
  f_equal.
  assert (Hl : last_name (f_name p) (p :: ps') = f_name u).
  { destruct Hname as [Hp|[Hn Hex]].
    - rewrite Hp. by apply last_name_keeps.
    - by apply last_name_finds. }
  rewrite Hl. unfold last_name. simpl.
  destruct (nonempty (f_name u)); reflexivity.
Qed.

Lemma at_index_absent (i : Z) (l : list fragment) :
  (∀ f, f ∈ l → f_index f ≠ i) → at_index i l = [].
Proof.
  unfold at_index. induction l as [|v l IH]; intros Hl; [reflexivity|].
  rewrite filter_cons_False by (apply Hl; left).
  apply IH. intros f Hf. apply Hl. by right.
Qed.

Lemma at_index_unique (unsplit : list fragment) (u : fragment) :
  NoDup (f_index <$> unsplit) → u ∈ unsplit →
  at_index (f_index u) unsplit = [u].
Proof.
  induction unsplit as [|v l IH]; intros Hnd Hu; [by apply elem_of_nil in Hu|].
  rewrite fmap_cons in Hnd. apply NoDup_cons in Hnd as [Hv Hnd].
  unfold at_index. apply elem_of_cons in Hu as [->|Hu].
  - rewrite filter_cons_True by reflexivity. f_equal.
    apply at_index_absent. intros f Hf Heq. apply Hv.
    rewrite <- Heq. apply list_elem_of_fmap. eauto.
  - rewrite filter_cons_False.
    + by apply IH.
    + intros Heq. apply Hv. rewrite Heq. apply list_elem_of_fmap. eauto.
Qed.

(** A stream sent in pieces, each call with its id in its first piece,
    builds the dictionary of the stream sent whole. *)
Lemma splits_same_dictionary (unsplit split : list fragment) :
  splits cut_id_first unsplit split →
  fold_left absorb split ∅ = fold_left absorb unsplit ∅.
Proof.
  intros (Hnd & Hidx & Hcut). apply map_eq. intros i.
  rewrite !fold_absorb_entry.
  destruct (decide (i ∈ f_index <$> unsplit)) as [Hi|Hi].
  - apply list_elem_of_fmap in Hi as (u & -> & Hu).
    rewrite (at_index_unique _ _ Hnd Hu).
    apply entry_of_cut, Hcut, Hu.
  - rewrite (at_index_absent i unsplit), (at_index_absent i split);
      [reflexivity| |].
    + intros f Hf <-. apply Hi, Hidx, Hf.
    + intros f Hf <-. apply Hi, list_elem_of_fmap. eauto.
Qed.

End AggregatorFacts.

Section AggregatorLoop.
Context {E : Type} `{Host E}.

(** C4, as it holds. For every stream and every way to send its
    tool-call fragments in pieces that keeps the id of each call in the
    first piece of its index (the arguments cut anywhere, down to single
    characters; a non-empty name in any piece; pieces of different calls
    interleaved and grouped into chunks at will), the aggregation loop
    ends with the dictionary of the stream sent whole. Per index the
    entry has the id of the first fragment, the last non-empty name (the
    name of the first fragment when there is none) and the concatenation
    of all argument texts. *)
Theorem aggregation_is_split_invariant
        (unsplit split : list chunk) (tid1 tid2 t1 t2 : string)
        (s1 s2 : state E) :
  splits cut_id_first (fragments unsplit) (fragments split) →
  ∃ text1 text2 d,
    (consume tid1 unsplit t1 ∅ s1).1 = Ok (text1, d)
    ∧ (consume tid2 split t2 ∅ s2).1 = Ok (text2, d)
    ∧ (∀ i, d !! i = entry_of (at_index i (fragments split)))
    ∧ (∀ i, d !! i = entry_of (at_index i (fragments unsplit))).
Proof.
  intros Hsplit.
  destruct (consume_spec tid1 unsplit t1 ∅ s1) as (th1 & text1 & Hc1 & _).
  destruct (consume_spec tid2 split t2 ∅ s2) as (th2 & text2 & Hc2 & _).
  exists text1, text2, (fold_left absorb (fragments split) ∅).
  rewrite Hc1, Hc2, (splits_same_dictionary _ _ Hsplit).
  repeat split; try reflexivity.
  - intros i. rewrite <- (splits_same_dictionary _ _ Hsplit).
    apply fold_absorb_entry.
  - intros i. apply fold_absorb_entry.
Qed.

End AggregatorLoop.

Lemma late_name_call_splits :
  splits cut_id_first (fragments Scripted.whole_call)
         (fragments Scripted.late_name_call).
Proof.
  split; [|split].
  - apply NoDup_singleton.
  - intros f Hf. apply list_elem_of_fmap.
    exists (Scripted.opening 0 "call_a" "read_file" "{}").
    split; [|by left].
    cbn in Hf. repeat (apply elem_of_cons in Hf as [->|Hf]; [reflexivity|]).
    by apply elem_of_nil in Hf.
  - intros u Hu. cbn in Hu. apply elem_of_cons in Hu as [->|Hu];
      [|by apply elem_of_nil in Hu].
    eexists _, _. split; [reflexivity|].
    split; [reflexivity|]. split; [|split].
    + constructor; [left; reflexivity|].
      constructor; [right; reflexivity | constructor].
    + right. split; [reflexivity|]. right. by left.
    + reflexivity.
Defined.

Lemma aggregation_is_split_invariant_witness :
  let s := Scripted.session "agent" [] in
  splits cut_id_first (fragments Scripted.whole_call)
         (fragments Scripted.late_name_call)
  ∧ ∃ text1 text2 d,
      (consume "t" Scripted.whole_call "" ∅ s).1 = Ok (text1, d)
      ∧ (consume "t" Scripted.late_name_call "" ∅ s).1 = Ok (text2, d)
      ∧ (∀ i, d !! i = entry_of (at_index i (fragments Scripted.late_name_call)))
      ∧ (∀ i, d !! i = entry_of (at_index i (fragments Scripted.whole_call))).
Proof.
  intros s. split; [exact late_name_call_splits|].
  exact (aggregation_is_split_invariant
           Scripted.whole_call Scripted.late_name_call "t" "t" "" "" s s
           late_name_call_splits).
Defined.

(** C4, as stated, fails: a call whose id comes in the second fragment of
    its index is a way to send the call in pieces, yet the loop keeps the
    absent id of the first fragment. *)
Lemma late_id_is_lost :
  splits cut_of (fragments Scripted.whole_call) (fragments Scripted.late_id_call)
  ∧ (request_of <$> sorted_calls (calls_of Scripted.whole_call)
     = [ {| tc_id := Some "call_a"; tc_name := Some "read_file";
            tc_arguments := "{}" |} ])
  ∧ (request_of <$> sorted_calls (calls_of Scripted.late_id_call)
     = [ {| tc_id := None; tc_name := Some "read_file";
            tc_arguments := "{}" |} ])
  ∧ calls_of Scripted.late_id_call ≠ calls_of Scripted.whole_call.
Proof.
  split; [|split; [|split]].
  - split; [|split].
    + apply NoDup_singleton.
    + intros f Hf. apply list_elem_of_fmap.
      exists (Scripted.opening 0 "call_a" "read_file" "{}").
      split; [|by left].
      cbn in Hf. repeat (apply elem_of_cons in Hf as [->|Hf]; [reflexivity|]).
      by apply elem_of_nil in Hf.
    + intros u Hu. cbn in Hu. apply elem_of_cons in Hu as [->|Hu];
        [|by apply elem_of_nil in Hu].
      split; [discriminate|].
      split; [constructor; [left; reflexivity|];
              constructor; [right; reflexivity | constructor]|].
      split; [right; by left|].
      split; [constructor; [right; reflexivity|];
              constructor; [left; reflexivity | constructor]|].
      split; [by left|]. reflexivity.
  - vm_compute. reflexivity.
  - vm_compute. reflexivity.
  - intros Heq. apply (f_equal (λ d, id <$> d !! 0)) in Heq.
    vm_compute in Heq. discriminate.
Qed.

(* ===================================================================== *)
(** ** Turns and the tools they advertise *)

Section TurnEffects.
Context {E : Type} `{Host E}.

Lemma session_effect_turn (tools : list tool_def) (a : action) :
  session_effect a → turn_effect tools a.
Proof.
  destruct a as [msgs arg|ev|tool arguments|m]; simpl; try tauto.
  destruct m; simpl; tauto.
Qed.

Lemma round_turn_effect (tools : list tool_def) (new : list action) :
  is_round tools new → Forall (turn_effect tools) new.
Proof.
  intros (e & msgs & r & Hr).
  destruct (round_trace_rest _ _ _ _ _ Hr) as (rest & -> & Hrest).
  constructor; [reflexivity|].
  eapply Forall_impl; [exact Hrest|]. apply session_effect_turn.
Qed.

Lemma rounds_turn_effect (tools : list tool_def) (rounds : list (list action)) :
  Forall (is_round tools) rounds → Forall (turn_effect tools) (concat rounds).
Proof.
  induction 1 as [|new rounds Hnew _ IH]; simpl; [constructor|].
  apply Forall_app. split; [by apply round_turn_effect | exact IH].
Qed.

Lemma user_turn_effect (tools : list tool_def) (user : list action) :
  user_append user → Forall (turn_effect tools) user.
Proof.
  intros [->|(m & -> & [[c ->]|(c & imgs & ->)])];
    repeat constructor.
Qed.

(** A turn of an initialized session. *)
Lemma handle_message_effects (user_content images : json) (s : state E)
      (r : result unit) (s' : state E) :
  handle_message user_content images s = (r, s') →
  ∃ new,
    trace s' = trace s ++ new
    ∧ Forall (turn_effect (allowed_tools_of (mode s))) new
    ∧ messages s' = messages s ++ appended new
    ∧ mode s' = mode s.
Proof.
  intros Hrun.
  destruct (handle_message_spec _ _ _ _ _ Hrun)
    as (user & rounds & Huser & _ & Hall & Ht & Hm & Hmode).
  exists (user ++ concat rounds).
  split; [exact Ht|]. split; [|auto].
  apply Forall_app. split;
    [by apply user_turn_effect | by apply rounds_turn_effect].
Qed.

End TurnEffects.

(* ===================================================================== *)
(** ** The mode policy *)

Section ModeFacts.
Context {E : Type} `{Host E}.

Lemma last_name_source (n : option string) (ps : list fragment) :
  last_name n ps = n ∨ ∃ f, f ∈ ps ∧ f_name f = last_name n ps.
Proof.
  unfold last_name. revert n. induction ps as [|p ps IH]; intros n; [by left|].
  simpl. destruct (nonempty (f_name p)).
  - right. destruct (IH (f_name p)) as [Hk|(f & Hf & Hn)].
    + exists p. split; [by left | by rewrite Hk].
    + exists f. split; [by right | exact Hn].
  - destruct (IH n) as [Hk|(f & Hf & Hn)]; [by left|].
    right. exists f. split; [by right | exact Hn].
Qed.

(** A name in the dictionary was sent in a fragment. *)
Lemma entry_name_source (frs : list fragment) (k : Z) (tc : call) (tool : string) :
  fold_left absorb frs ∅ !! k = Some tc →
  name tc = Some tool →
  ∃ f, f ∈ frs ∧ f_name f = Some tool.
Proof.
  rewrite fold_absorb_entry.
  destruct (at_index k frs) as [|p ps] eqn:Hat; [discriminate|].
  intros [= <-]. intros Hname.
  change (last_name (f_name p) (p :: ps) = Some tool) in Hname.
  assert (Hsub : ∀ f, f ∈ p :: ps → f ∈ frs).
  { intros f Hf. rewrite <- Hat in Hf. unfold at_index in Hf.
    by apply list_elem_of_filter in Hf as [_ Hf]. }
  destruct (last_name_source (f_name p) (p :: ps)) as [Hk|(f & Hf & Hn)].
  - exists p. split; [apply Hsub; by left | congruence].
  - exists f. split; [by apply Hsub | congruence].
Qed.

Lemma segment_call (tc : call) (seg : list action) (tool : string)
      (arguments : list json) :
  call_segment tc seg → ACall tool arguments ∈ seg → name tc = Some tool.
Proof.
  destruct 1 as [start finish tool' arguments' output Hname _ _ _|Hunk]; intros Hin.
  - repeat (apply elem_of_cons in Hin as [Heq|Hin]; [try discriminate|]).
    + injection Heq as -> _. exact Hname.
    + by apply elem_of_nil in Hin.
  - apply elem_of_cons in Hin as [Heq|Hin]; [discriminate|].
    by apply elem_of_nil in Hin.
Qed.

Lemma segments_call (tcs : list call) (segs : list (list action)) (tool : string)
      (arguments : list json) :
  Forall2 call_segment tcs segs → ACall tool arguments ∈ concat segs →
  ∃ tc, tc ∈ tcs ∧ name tc = Some tool.
Proof.
  induction 1 as [|tc seg tcs segs Hseg _ IH]; simpl; intros Hin;
    [by apply elem_of_nil in Hin|].
  apply elem_of_app in Hin as [Hin|Hin].
  - exists tc. split; [by left | by eapply segment_call].
  - destruct (IH Hin) as (tc' & Htc & Hn). exists tc'. split; [by right | exact Hn].
Qed.

(** A tool is called only if a fragment of the stream named it. *)
Lemma round_call_named (tools : list tool_def) (e : E) (msgs : list message)
      (r : result flow) (new : list action) (tool : string) (arguments : list json) :
  round_trace tools e msgs r new →
  ACall tool arguments ∈ new →
  ∃ e' stream f,
    completions_create e msgs (tools_arg tools) = (e', inr stream)
    ∧ f ∈ fragments stream ∧ f_name f = Some tool.
Proof.
  assert (Hth : ∀ tid thoughts, Forall (thought_of tid) thoughts →
                 ACall tool arguments ∈ thoughts → False).
  { intros tid thoughts Hall Hin.
    rewrite Forall_forall in Hall. destruct (Hall _ Hin) as [text [=]]. }
  assert (Htext : ∀ content, ACall tool arguments ∈ assistant_text content → False).
  { intros content. unfold assistant_text.
    destruct (PyStr.is_empty content); intros Hin.
    - by apply elem_of_nil in Hin.
    - apply elem_of_cons in Hin as [[=]|Hin]. by apply elem_of_nil in Hin. }
  destruct 1 as [e' text Hc|e' stream tid thoughts content Hc Hd Hall
                |e' stream tid thoughts content segs r n Hc Hd Hall Hsegs Hr];
    intros Hin.
  - repeat (apply elem_of_cons in Hin as [[=]|Hin]). by apply elem_of_nil in Hin.
  - apply elem_of_cons in Hin as [[=]|Hin].
    apply elem_of_app in Hin as [Hin|Hin]; exfalso; eauto.
  - apply elem_of_cons in Hin as [[=]|Hin].
    apply elem_of_app in Hin as [Hin|Hin]; [exfalso; eauto|].
    apply elem_of_app in Hin as [Hin|Hin]; [exfalso; eauto|].
    apply elem_of_cons in Hin as [[=]|Hin].
    destruct (segments_call _ _ _ _ Hsegs Hin) as (tc & Htc & Hname).
    assert (Htc' : tc ∈ sorted_calls (calls_of stream)).
    { exact (subseteq_take _ _ _ Htc). }
    unfold sorted_calls in Htc'. apply list_elem_of_omap in Htc' as (k & _ & Hk).
    destruct (entry_name_source _ _ _ _ Hk Hname) as (f & Hf & Hn).
    eauto 6.
Qed.

Lemma chat_tools_names : t_name <$> chat_tools = ["read_file"; "web_search"].
Proof. vm_compute. reflexivity. Qed.

Lemma chat_tools_arg : tools_arg chat_tools = Some chat_tools.
Proof. vm_compute. reflexivity. Qed.

Lemma known_tool_nonempty (tool : string) :
  tool ∈ known_tools → nonempty (Some tool) = true.
Proof.
  intros Hin. unfold known_tools in Hin.
  repeat (apply elem_of_cons in Hin as [->|Hin]; [reflexivity|]).
  by apply elem_of_nil in Hin.
Qed.

Lemma rounds_elem {A : Type} (P : list A → Prop) (ls : list (list A)) (x : A) :
  Forall P ls → x ∈ concat ls → ∃ l, P l ∧ x ∈ l.
Proof.
  induction 1 as [|l ls Hl _ IH]; simpl; intros Hin; [by apply elem_of_nil in Hin|].
  apply elem_of_app in Hin as [Hin|Hin]; [eauto|]. by apply IH.
Qed.

(** C2, as it holds. In a session whose mode is ["chat"], every completion
    request of a turn advertises exactly [read_file] and [web_search]. The
    dispatcher itself does not look at the mode: that [write_file] and
    [run_terminal_command] are never called rests on the completion service
    naming only tools it was sent. *)
Theorem chat_mode_advertises_read_only_tools
        (user_content images : json) (s : state E) :
  Py.eq_str (mode s) "chat" = true →
  ∃ new,
    trace (handle_message user_content images s).2 = trace s ++ new
    ∧ t_name <$> chat_tools = ["read_file"; "web_search"]
    ∧ Forall (λ a, ∀ msgs arg, a = ARequest msgs arg → arg = Some chat_tools) new
    ∧ (obeys chat_tools →
       Forall (λ a, ∀ tool arguments, a = ACall tool arguments →
                    tool = "read_file" ∨ tool = "web_search") new).
Proof.
  intros Hmode.
  destruct (handle_message user_content images s) as [r s'] eqn:Hrun.
  destruct (handle_message_spec _ _ _ _ _ Hrun)
    as (user & rounds & Huser & _ & Hall & Ht & _).
  unfold allowed_tools_of in Hall. rewrite Hmode in Hall.
  exists (user ++ concat rounds). cbn [snd].
  split; [exact Ht|]. split; [exact chat_tools_names|].
  assert (Heff : Forall (turn_effect chat_tools) (user ++ concat rounds)).
  { apply Forall_app. split;
      [by apply user_turn_effect | by apply rounds_turn_effect]. }
  split.
  - eapply Forall_impl; [exact Heff|].
    intros a Ha msgs arg ->.
    change (arg = tools_arg chat_tools) in Ha. by rewrite Ha, chat_tools_arg.
  - intros Hobeys. apply Forall_forall. intros a Hin tool arguments ->.
    assert (Hknown : tool ∈ known_tools).
    { rewrite Forall_forall in Heff. exact (Heff _ Hin). }
    apply elem_of_app in Hin as [Hin|Hin].
    { destruct Huser as [->|(m & -> & _)].
      - by apply elem_of_nil in Hin.
      - apply elem_of_cons in Hin as [[=]|Hin]. by apply elem_of_nil in Hin. }
    destruct (rounds_elem _ _ _ Hall Hin) as (new & (e & msgs & r0 & Hround) & Hnew).
    destruct (round_call_named _ _ _ _ _ _ _ Hround Hnew)
      as (e' & stream & f & Hcreate & Hf & Hname).
    specialize (Hobeys _ _ _ _ Hcreate). unfold names_advertised in Hobeys.
    rewrite Forall_forall in Hobeys.
    destruct (Hobeys f Hf) as (t & Ht' & Hn).
    { rewrite Hname. by apply known_tool_nonempty. }
    assert (Htool : tool ∈ t_name <$> chat_tools).
    { apply list_elem_of_fmap. exists t. split; [congruence | exact Ht']. }
    rewrite chat_tools_names in Htool.
    apply elem_of_cons in Htool as [->|Htool]; [by left|].
    apply elem_of_cons in Htool as [->|Htool]; [by right|].
    by apply elem_of_nil in Htool.
Qed.

End ModeFacts.

Lemma obedient_host_obeys : @obeys nat Obedient.host chat_tools.
Proof.
  intros e msgs e' stream Hcreate. injection Hcreate as _ <-.
  unfold names_advertised. destruct e as [|e].
  - constructor; [|constructor]. intros _.
    exists {| t_name := "read_file";
              t_description := "Read the contents of a file.";
              t_properties := [ {| p_name := "path"; p_type := "string";
                                   p_description := None |} ];
              t_required := ["path"] |}.
    split; [|reflexivity]. vm_compute. by left.
  - constructor.
Defined.

Lemma chat_mode_advertises_read_only_tools_witness :
  let s := Obedient.session "chat" in
  (Py.eq_str (mode s) "chat" = true ∧ @obeys nat Obedient.host chat_tools)
  ∧ ∃ new,
      trace (handle_message (JStr "list files") (JArr []) s).2 = trace s ++ new
      ∧ t_name <$> chat_tools = ["read_file"; "web_search"]
      ∧ Forall (λ a, ∀ msgs arg, a = ARequest msgs arg → arg = Some chat_tools) new
      ∧ Forall (λ a, ∀ tool arguments, a = ACall tool arguments →
                     tool = "read_file" ∨ tool = "web_search") new.
Proof.
  intros s.
  assert (Hmode : Py.eq_str (mode s) "chat" = true) by reflexivity.
  split; [split; [exact Hmode | exact obedient_host_obeys]|].
  destruct (chat_mode_advertises_read_only_tools
              (JStr "list files") (JArr []) s Hmode)
    as (new & Ht & Hnames & Hreq & Hcalls).
  exists new. repeat split; auto. exact (Hcalls obedient_host_obeys).
Defined.

(** C2, as stated, fails: in ["chat"] mode only [read_file] and
    [web_search] are advertised, yet a stream that names [write_file] has it
    called, and the file is written. *)
Lemma chat_mode_runs_write_file :
  let s := Scripted.session "chat" Scripted.rogue_write in
  let s' := (handle_message (JStr "hello") (JArr []) s).2 in
  Py.eq_str (mode s) "chat" = true
  ∧ Forall (λ a, ∀ msgs arg, a = ARequest msgs arg → arg = Some chat_tools)
           (trace s')
  ∧ ACall "write_file" [JStr "a/b/c.txt"; JStr "X"] ∈ trace s'
  ∧ fs s' !! ["a"; "b"; "c.txt"] = Some (File "X").
Proof.
  intros s s'.
  split; [reflexivity|]. split; [|split].
  - vm_compute.
    repeat (constructor;
            [intros msgs arg Heq;
             first [discriminate Heq | by injection Heq as <- <-]|]).
    constructor.
  - apply list_elem_of_In. vm_compute.
    repeat (first [left; reflexivity | right]).
  - vm_compute. reflexivity.
Qed.

(* ===================================================================== *)
(** ** The connection handler *)

Section ConnectionFacts.
Context {E : Type} `{Host E}.

Lemma file_reply_effect (tools : list tool_def) (path : json) (content : string) :
  Forall (turn_effect tools)
         [ACall "read_file" [path]; ASend (EFileContent path content)].
Proof.
  constructor; [unfold turn_effect, known_tools; set_solver|].
  constructor; [|constructor]. right. right. eauto.
Qed.

(** A request for the content of a file, in any state of the connection. *)
Lemma file_request_run (initialized : bool) (data : string)
      (kv : list (string * json)) (s : state E) :
  json_loads data = Some (JObj kv) →
  Py.eq_str (default JNull (Py.assoc "type" kv)) "get_file_content" = true →
  ∃ new s',
    handle_frame initialized data s = (Ok initialized, s')
    ∧ trace s' = trace s ++ new
    ∧ (∀ tools, Forall (turn_effect tools) new)
    ∧ appended new = []
    ∧ messages s' = messages s
    ∧ mode s' = mode s.
Proof.
  intros Hload Hty. unfold handle_frame. rewrite Hload.
  unfold bind at 1. unfold ret at 1.
  unfold bind at 1. cbn [lift dict_get]. unfold ret at 1. rewrite Hty.
  unfold bind at 1. unfold ret at 1.
  unfold bind at 1. unfold call_read_file.
  destruct (match default JNull (Py.assoc "path" kv) with
            | JStr p => _ | _ => _ end) as [e' text].
  unfold bind, send, log, ret. cbn [trace messages mode fs env].
  eexists _, _. split; [reflexivity|]. cbn [trace messages mode].
  rewrite <- app_assoc. split; [reflexivity|].
  split; [intros tools; apply file_reply_effect|]. auto.
Qed.

(** A frame on an initialized connection is a request for a file, a turn,
    or nothing. *)
Lemma handle_frame_active (data : string) (s : state E) (r : result bool)
      (s' : state E) :
  handle_frame true data s = (r, s') →
  ∃ new,
    trace s' = trace s ++ new
    ∧ Forall (turn_effect (allowed_tools_of (mode s))) new
    ∧ messages s' = messages s ++ appended new
    ∧ mode s' = mode s
    ∧ (∀ b, r = Ok b → b = true).
Proof.
  assert (Hnone : ∀ r0 : result bool, (r0, s) = (r, s') → (∀ b, r0 = Ok b → b = true) →
            ∃ new, trace s' = trace s ++ new
              ∧ Forall (turn_effect (allowed_tools_of (mode s))) new
              ∧ messages s' = messages s ++ appended new
              ∧ mode s' = mode s ∧ (∀ b, r = Ok b → b = true)).
  { intros r0 [= <- <-] Hb. exists []. rewrite !app_nil_r. repeat split; auto. }
  destruct (json_loads data) as [message|] eqn:Hload;
    [|unfold handle_frame; rewrite Hload; intros Hrun;
      apply (Hnone _ Hrun); intros ? [=]].
  destruct message as [| | | | | |kv];
    try (unfold handle_frame; rewrite Hload; intros Hrun;
         apply (Hnone _ Hrun); intros ? [=]).
  destruct (Py.eq_str (default JNull (Py.assoc "type" kv)) "get_file_content")
    eqn:Hty.
  - destruct (file_request_run true data kv s Hload Hty)
      as (new & s1 & -> & Ht & Heff & Happ & Hm & Hmode).
    intros [= <- <-]. exists new. rewrite Happ, app_nil_r.
    repeat split; auto. intros b [= <-]. reflexivity.
  - unfold handle_frame. rewrite Hload.
    unfold bind at 1. unfold ret at 1.
    unfold bind at 1. cbn [lift dict_get]. unfold ret at 1. rewrite Hty.
    cbn [negb]. unfold bind at 1. unfold ret at 1.
    destruct (Py.eq_str (default JNull (Py.assoc "type" kv)) "user_message").
    + unfold bind at 1. unfold ret at 1. unfold bind at 1. unfold ret at 1.
      unfold bind at 1.
      destruct (handle_message _ _ s) as [r1 s1] eqn:Hrun.
      destruct (handle_message_effects _ _ _ _ _ Hrun) as (new & Ht & Heff & Hm & Hmode).
      intros Hres. exists new.
      destruct r1 as [[]|x]; unfold ret in Hres; injection Hres as <- <-;
        repeat split; auto; intros b [= <-]; reflexivity.
    + intros Hrun. apply (Hnone _ Hrun). intros b [= <-]. reflexivity.
Qed.

(** A frame on a connection that is not initialized is a request for a
    file, or initializes the session, with a first turn if it has content
    or images. *)
Lemma handle_frame_idle (data : string) (s : state E) (r : result bool)
      (s' : state E) :
  handle_frame false data s = (r, s') →
  (∃ new,
      trace s' = trace s ++ new
      ∧ (∀ tools, Forall (turn_effect tools) new)
      ∧ messages s' = messages s
      ∧ mode s' = mode s
      ∧ r ≠ Ok true
      ∧ (r = Ok false → file_request data)
      ∧ (∀ kv, json_loads data = Some (JObj kv) →
               Py.eq_str (default JNull (Py.assoc "type" kv)) "get_file_content"
               = true))
  ∨ (∃ kv prompt new,
        json_loads data = Some (JObj kv)
        ∧ Py.eq_str (default JNull (Py.assoc "type" kv)) "get_file_content" = false
        ∧ trace s' = trace s
                     ++ started_event (default (JStr "agent") (Py.assoc "mode" kv)) :: new
        ∧ Forall (turn_effect (allowed_tools_of
                                 (default (JStr "agent") (Py.assoc "mode" kv)))) new
        ∧ messages s' = MSystem prompt :: appended new
        ∧ mode s' = default (JStr "agent") (Py.assoc "mode" kv)
        ∧ r ≠ Ok false).
Proof.
  assert (Hnone : ∀ x, (Raise x : result bool, s) = (r, s') →
            ∃ new, trace s' = trace s ++ new
              ∧ (∀ tools, Forall (turn_effect tools) new)
              ∧ messages s' = messages s
              ∧ mode s' = mode s ∧ r ≠ Ok true
              ∧ (r = Ok false → file_request data)).
  { intros x [= <- <-]. exists []. rewrite !app_nil_r.
    repeat split; auto; try discriminate. }
  destruct (json_loads data) as [message|] eqn:Hload;
    [|unfold handle_frame; rewrite Hload; intros Hrun; left;
      destruct (Hnone _ Hrun) as (new & ? & ? & ? & ? & ? & ?);
      exists new; repeat split; auto; intros ? [=]].
  destruct message as [| | | | | |kv];
    try (unfold handle_frame; rewrite Hload; intros Hrun; left;
         destruct (Hnone _ Hrun) as (new & ? & ? & ? & ? & ? & ?);
         exists new; repeat split; auto; intros ? [=]).
  destruct (Py.eq_str (default JNull (Py.assoc "type" kv)) "get_file_content")
    eqn:Hty.
  - destruct (file_request_run false data kv s Hload Hty)
      as (new & s1 & -> & Ht & Heff & Happ & Hm & Hmode).
    intros [= <- <-]. left. exists new.
    repeat split; auto; try discriminate.
    + intros _. exists kv. auto.
    + intros kv' [= <-]. exact Hty.
  - unfold handle_frame. rewrite Hload.
    unfold bind at 1. unfold ret at 1.
    unfold bind at 1. cbn [lift dict_get]. unfold ret at 1. rewrite Hty.
    cbn [negb]. unfold bind at 1. unfold ret at 1.
    unfold bind at 1. unfold initialize, send, log.
    cbn [trace messages mode fs env].
    set (md := default (JStr "agent") (Py.assoc "mode" kv)).
    set (prompt := (if Py.eq_str md "agent" then PROMPT_AGENT else PROMPT_CHAT)
                     (get_project_structure (env s) (fs s))).
    unfold bind at 1. unfold ret at 1. unfold bind at 1. unfold ret at 1.
    intros Hrun. right. exists kv, prompt.
    fold (started_event md) in Hrun.
    destruct (Py.truthy (default JNull (Py.assoc "content" kv))
              || Py.truthy (default JNull (Py.assoc "images" kv))).
    + unfold bind at 1 in Hrun. unfold ret at 1 in Hrun.
      unfold bind at 1 in Hrun. unfold ret at 1 in Hrun.
      unfold bind at 1 in Hrun.
      match type of Hrun with
      | context [handle_message ?c ?i ?s0] =>
          destruct (handle_message c i s0) as [r1 s1] eqn:Hturn;
          destruct (handle_message_effects _ _ _ _ _ Hturn)
            as (new & Ht & Heff & Hm & Hmode)
      end.
      cbn [trace messages mode] in Ht, Heff, Hm, Hmode.
      exists new.
      destruct r1 as [[]|x]; unfold ret in Hrun; injection Hrun as <- <-;
        (split; [reflexivity|]); (split; [exact Hty|]);
        (split; [rewrite Ht, <- app_assoc; reflexivity|]);
        repeat split; auto; discriminate.
    + unfold ret in Hrun. injection Hrun as <- <-. exists [].
      cbn [trace messages mode].
      split; [reflexivity|]. split; [exact Hty|].
      repeat split; auto; try discriminate.
Qed.

(** Once initialized, a connection only has turns and requests for
    files; the mode stays. *)
Lemma serve_active (frames : list string) (s : state E) (r : result bool)
      (s' : state E) :
  serve true frames s = (r, s') →
  ∃ new,
    trace s' = trace s ++ new
    ∧ Forall (turn_effect (allowed_tools_of (mode s))) new
    ∧ messages s' = messages s ++ appended new
    ∧ mode s' = mode s.
Proof.
  revert s. induction frames as [|data frames IH]; intros s; cbn [serve].
  - intros [= <- <-]. exists []. rewrite !app_nil_r. repeat split; auto.
  - unfold bind.
    destruct (handle_frame true data s) as [r1 s1] eqn:Hframe.
    destruct (handle_frame_active _ _ _ _ Hframe)
      as (new1 & Ht1 & Heff1 & Hm1 & Hmode1 & Hb).
    destruct r1 as [b|x].
    + rewrite (Hb b eq_refl). intros Hrest.
      destruct (IH _ Hrest) as (new2 & Ht2 & Heff2 & Hm2 & Hmode2).
      exists (new1 ++ new2).
      split; [rewrite Ht2, Ht1, <- app_assoc; reflexivity|].
      split; [apply Forall_app; split; [exact Heff1 | by rewrite <- Hmode1]|].
      split; [rewrite Hm2, Hm1, appended_app, <- app_assoc; reflexivity|].
      congruence.
    + intros [= <- <-]. exists new1. auto.
Qed.

(** Before it is initialized, a connection answers requests for files; the
    first frame that is not one initializes the session, once. *)
Lemma serve_idle (frames : list string) (s : state E) (r : result bool)
      (s' : state E) :
  serve false frames s = (r, s') →
  (∃ new,
      trace s' = trace s ++ new
      ∧ (∀ tools, Forall (turn_effect tools) new)
      ∧ messages s' = messages s
      ∧ mode s' = mode s)
  ∨ (∃ pre data post kv prompt before new,
        frames = pre ++ data :: post
        ∧ Forall file_request pre
        ∧ json_loads data = Some (JObj kv)
        ∧ Py.eq_str (default JNull (Py.assoc "type" kv)) "get_file_content" = false
        ∧ trace s' = trace s ++ before
                     ++ started_event (default (JStr "agent") (Py.assoc "mode" kv))
                     :: new
        ∧ (∀ tools, Forall (turn_effect tools) before)
        ∧ Forall (turn_effect (allowed_tools_of
                                 (default (JStr "agent") (Py.assoc "mode" kv)))) new
        ∧ messages s' = MSystem prompt :: appended new
        ∧ mode s' = default (JStr "agent") (Py.assoc "mode" kv)).
Proof.
  revert s. induction frames as [|data frames IH]; intros s; cbn [serve].
  - intros [= <- <-]. left. exists []. rewrite !app_nil_r.
    repeat split; auto.
  - unfold bind.
    destruct (handle_frame false data s) as [r1 s1] eqn:Hframe.
    destruct (handle_frame_idle _ _ _ _ Hframe)
      as [(new1 & Ht1 & Heff1 & Hm1 & Hmode1 & Hr1 & Hfile & _)
         |(kv & prompt & new1 & Hload & Hty & Ht1 & Heff1 & Hm1 & Hmode1 & Hr1)].
    + destruct r1 as [[|]|x]; [congruence| |].
      * intros Hrest.
        destruct (IH _ Hrest)
          as [(new2 & Ht2 & Heff2 & Hm2 & Hmode2)
             |(pre & data' & post & kv & prompt & before & new2 & -> & Hpre
               & Hload & Hty & Ht2 & Hbefore & Heff2 & Hm2 & Hmode2)].
        -- left. exists (new1 ++ new2).
           split; [rewrite Ht2, Ht1, <- app_assoc; reflexivity|].
           split; [intros tools; apply Forall_app; split; auto|].
           split; congruence.
        -- right. exists (data :: pre), data', post, kv, prompt, (new1 ++ before), new2.
           split; [reflexivity|].
           split; [constructor; auto|].
           split; [exact Hload|]. split; [exact Hty|].
           split; [rewrite Ht2, Ht1, <- !app_assoc; reflexivity|].
           split; [intros tools; apply Forall_app; split; auto|].
           auto.
      * intros [= <- <-]. left. exists new1. auto.
    + assert (Hact : ∀ s2 : state E, (∃ new2, trace s2 = trace s1 ++ new2
                 ∧ Forall (turn_effect (allowed_tools_of (mode s1))) new2
                 ∧ messages s2 = messages s1 ++ appended new2
                 ∧ mode s2 = mode s1) →
               ∃ pre data0 post kv0 prompt0 before new,
                 data :: frames = pre ++ data0 :: post
                 ∧ Forall file_request pre
                 ∧ json_loads data0 = Some (JObj kv0)
                 ∧ Py.eq_str (default JNull (Py.assoc "type" kv0)) "get_file_content"
                   = false
                 ∧ trace s2 = trace s ++ before
                     ++ started_event (default (JStr "agent") (Py.assoc "mode" kv0))
                     :: new
                 ∧ (∀ tools, Forall (turn_effect tools) before)
                 ∧ Forall (turn_effect (allowed_tools_of
                              (default (JStr "agent") (Py.assoc "mode" kv0)))) new
                 ∧ messages s2 = MSystem prompt0 :: appended new
                 ∧ mode s2 = default (JStr "agent") (Py.assoc "mode" kv0)).
      { intros s2 (new2 & Ht2 & Heff2 & Hm2 & Hmode2).
        exists [], data, frames, kv, prompt, [], (new1 ++ new2).
        split; [reflexivity|]. split; [constructor|].
        split; [exact Hload|]. split; [exact Hty|].
        split; [rewrite Ht2, Ht1; cbn [app]; rewrite <- !app_assoc; reflexivity|].
        split; [intros tools; constructor|].
        split; [apply Forall_app; split; [exact Heff1 | by rewrite <- Hmode1]|].
        split; [rewrite Hm2, Hm1, appended_app; reflexivity|].
        congruence. }
      destruct r1 as [[|]|x]; [|congruence|].
      * intros Hrest. right. apply Hact. by apply serve_active in Hrest.
      * intros [= <- <-]. right. apply Hact.
        exists []. rewrite !app_nil_r. repeat split; auto.
Qed.

End ConnectionFacts.

(* ===================================================================== *)
(** ** Initialization *)

Section InitializationFacts.
Context {E : Type} `{Host E}.

Lemma turn_effect_not_started (tools : list tool_def) (a : action) :
  turn_effect tools a → session_started a = false.
Proof.
  destruct a as [msgs arg|ev|tool arguments|m]; try reflexivity.
  destruct ev as [[i|] text| | | | | |]; try reflexivity.
  intros [[x [=]]|[[text' [= ->]]|(path & content & [=])]]. reflexivity.
Qed.

Lemma count_started_app (l1 l2 : list action) :
  count_started (l1 ++ l2) = (count_started l1 + count_started l2)%nat.
Proof. unfold count_started. by rewrite filter_app, length_app. Qed.

Lemma count_system_app (l1 l2 : list message) :
  count_system (l1 ++ l2) = (count_system l1 + count_system l2)%nat.
Proof. unfold count_system. by rewrite filter_app, length_app. Qed.

Lemma count_started_turn (tools : list tool_def) (l : list action) :
  Forall (turn_effect tools) l → count_started l = 0%nat.
Proof.
  unfold count_started. induction 1 as [|a l Ha _ IH]; [reflexivity|].
  rewrite filter_cons_False; [exact IH|].
  rewrite (turn_effect_not_started _ _ Ha). discriminate.
Qed.

Lemma count_system_turn (tools : list tool_def) (l : list action) :
  Forall (turn_effect tools) l → count_system (appended l) = 0%nat.
Proof.
  unfold count_system. induction 1 as [|a l Ha _ IH]; [reflexivity|].
  destruct a as [msgs arg|ev|tool arguments|m]; try exact IH.
  change (appended (AAppend m :: l)) with (m :: appended l).
  rewrite filter_cons_False; [exact IH|].
  simpl in Ha. rewrite Ha. discriminate.
Qed.

Lemma count_started_event (md : json) : count_started [started_event md] = 1%nat.
Proof. reflexivity. Qed.

(** C6. A connection initializes its session at most once: whatever frames
    arrive, the outbound log holds at most one session-started event and
    the transcript at most one system message. On a session that is
    already active, further frames add no session-started event and no
    system message and leave the mode as it is; a frame that is neither a
    user message nor a request for a file (so a second first-message) is
    dropped without any effect. *)
Theorem session_is_initialized_once :
  (∀ (frames : list string) (e : E) (t : tree),
      (count_started (trace (websocket_endpoint frames e t)) ≤ 1)%nat
      ∧ (count_system (messages (websocket_endpoint frames e t)) ≤ 1)%nat)
  ∧ (∀ (frames : list string) (s : state E),
        count_started (trace (serve true frames s).2) = count_started (trace s)
        ∧ count_system (messages (serve true frames s).2)
          = count_system (messages s)
        ∧ mode (serve true frames s).2 = mode s)
  ∧ (∀ (data : string) (kv : list (string * json)) (s : state E),
        json_loads data = Some (JObj kv) →
        Py.eq_str (default JNull (Py.assoc "type" kv)) "get_file_content" = false →
        Py.eq_str (default JNull (Py.assoc "type" kv)) "user_message" = false →
        handle_frame true data s = (Ok true, s)).
Proof.
  split; [|split].
  - intros frames e t. unfold websocket_endpoint.
    destruct (serve false frames (new_session e t)) as [r s'] eqn:Hrun.
    cbn [snd].
    destruct (serve_idle _ _ _ _ Hrun)
      as [(new & Ht & Heff & Hm & _)
         |(pre & data & post & kv & prompt & before & new & _ & _ & _ & _ & Ht
           & Hbefore & Heff & Hm & _)].
    + rewrite Ht, Hm. cbn [new_session trace messages app].
      rewrite (count_started_turn [] _ (Heff [])). split; [lia|].
      unfold count_system. simpl. lia.
    + rewrite Ht, Hm. cbn [new_session trace app].
      rewrite count_started_app, (count_started_turn [] _ (Hbefore [])).
      change (started_event ?md :: new) with ([started_event md] ++ new).
      rewrite count_started_app, count_started_event,
        (count_started_turn _ _ Heff).
      split; [lia|].
      change (MSystem prompt :: appended new) with ([MSystem prompt] ++ appended new).
      rewrite count_system_app, (count_system_turn _ _ Heff).
      unfold count_system. simpl. lia.
  - intros frames s.
    destruct (serve true frames s) as [r s'] eqn:Hrun. cbn [snd].
    destruct (serve_active _ _ _ _ Hrun) as (new & Ht & Heff & Hm & Hmode).
    rewrite Ht, Hm, count_started_app, count_system_app,
      (count_started_turn _ _ Heff), (count_system_turn _ _ Heff).
    split; [lia|]. split; [lia | exact Hmode].
  - intros data kv s Hload Hfile Huser.
    unfold handle_frame. rewrite Hload.
    unfold bind at 1. unfold ret at 1.
    unfold bind at 1. cbn [lift dict_get]. unfold ret at 1. rewrite Hfile.
    cbn [negb]. unfold bind at 1. unfold ret at 1. rewrite Huser.
    reflexivity.
Qed.

End InitializationFacts.

Lemma session_is_initialized_once_witness :
  let data := "{" +:+ Scripted.q "mode" +:+ ":" +:+ Scripted.q "chat" +:+ "}" in
  let kv := [("mode", JStr "chat")] in
  let s := Scripted.session "agent" [] in
  (json_loads data = Some (JObj kv)
   ∧ Py.eq_str (default JNull (Py.assoc "type" kv)) "get_file_content" = false
   ∧ Py.eq_str (default JNull (Py.assoc "type" kv)) "user_message" = false)
  ∧ handle_frame true data s = (Ok true, s).
Proof.
  intros data kv s.
  assert (H1 : json_loads data = Some (JObj kv)) by (vm_compute; reflexivity).
  assert (H2 : Py.eq_str (default JNull (Py.assoc "type" kv)) "get_file_content"
               = false) by reflexivity.
  assert (H3 : Py.eq_str (default JNull (Py.assoc "type" kv)) "user_message"
               = false) by reflexivity.
  split; [auto|].
  exact (proj2 (proj2 (@session_is_initialized_once Scripted.script Scripted.host))
               data kv s H1 H2 H3).
Defined.

(* ===================================================================== *)
(** ** The default mode *)

Section DefaultModeFacts.
Context {E : Type} `{Host E}.

Lemma tool_definitions_names :
  t_name <$> TOOL_DEFINITIONS
  = ["read_file"; "write_file"; "run_terminal_command"; "web_search"].
Proof. reflexivity. Qed.

(** The first frame that is not a request for a file initializes the
    session, in the mode it names or in ["agent"]. *)
Lemma serve_idle_initializes (pre post : list string) (data : string)
      (kv : list (string * json)) (s : state E) (r : result bool) (s' : state E) :
  Forall file_request pre →
  json_loads data = Some (JObj kv) →
  Py.eq_str (default JNull (Py.assoc "type" kv)) "get_file_content" = false →
  serve false (pre ++ data :: post) s = (r, s') →
  ∃ prompt before new,
    trace s' = trace s ++ before
               ++ started_event (default (JStr "agent") (Py.assoc "mode" kv)) :: new
    ∧ (∀ tools, Forall (turn_effect tools) before)
    ∧ Forall (turn_effect (allowed_tools_of
                             (default (JStr "agent") (Py.assoc "mode" kv)))) new
    ∧ messages s' = MSystem prompt :: appended new
    ∧ mode s' = default (JStr "agent") (Py.assoc "mode" kv).
Proof.
  intros Hpre Hload Hty. revert s.
  induction Hpre as [|f pre (kvf & Hf & Htf) _ IH]; intros s; cbn [app serve].
  - unfold bind.
    destruct (handle_frame false data s) as [r1 s1] eqn:Hframe.
    destruct (handle_frame_idle _ _ _ _ Hframe)
      as [(new1 & _ & _ & _ & _ & _ & _ & Hno)
         |(kv' & prompt & new1 & Hload' & _ & Ht1 & Heff1 & Hm1 & Hmode1 & Hr1)].
    { rewrite (Hno kv Hload) in Hty. discriminate. }
    assert (kv' = kv) by congruence. subst kv'.
    destruct r1 as [[|]|x]; [|congruence|].
    + intros Hrest.
      destruct (serve_active _ _ _ _ Hrest) as (new2 & Ht2 & Heff2 & Hm2 & Hmode2).
      exists prompt, [], (new1 ++ new2).
      split; [rewrite Ht2, Ht1; cbn [app]; rewrite <- !app_assoc; reflexivity|].
      split; [intros tools; constructor|].
      split; [apply Forall_app; split; [exact Heff1 | by rewrite <- Hmode1]|].
      split; [rewrite Hm2, Hm1, appended_app; reflexivity|].
      congruence.
    + intros [= <- <-]. exists prompt, [], new1.
      split; [exact Ht1|]. split; [intros tools; constructor|]. auto.
  - unfold bind.
    destruct (file_request_run false f kvf s Hf Htf)
      as (new1 & s1 & -> & Ht1 & Heff1 & Happ1 & Hm1 & Hmode1).
    intros Hrest.
    destruct (IH _ Hrest) as (prompt & before & new & Ht & Hbefore & Heff & Hm & Hmode).
    exists prompt, (new1 ++ before), new.
    split; [rewrite Ht, Ht1, <- !app_assoc; reflexivity|].
    split; [intros tools; apply Forall_app; split; auto|].
    auto.
Qed.

(** C9, as it holds. If the first frame of a connection that is not a
    request for the content of a file has no [mode] field, the session is
    initialized in ["agent"] mode, and every completion request of the
    connection advertises the four tools. *)
Theorem default_mode_advertises_all_tools
        (pre post : list string) (data : string) (kv : list (string * json))
        (e : E) (t : tree) :
  Forall file_request pre →
  json_loads data = Some (JObj kv) →
  Py.eq_str (default JNull (Py.assoc "type" kv)) "get_file_content" = false →
  Py.assoc "mode" kv = None →
  mode (websocket_endpoint (pre ++ data :: post) e t) = JStr "agent"
  ∧ started_event (JStr "agent") ∈ trace (websocket_endpoint (pre ++ data :: post) e t)
  ∧ Forall (λ a, ∀ msgs arg, a = ARequest msgs arg → arg = Some TOOL_DEFINITIONS)
           (trace (websocket_endpoint (pre ++ data :: post) e t))
  ∧ t_name <$> TOOL_DEFINITIONS
    = ["read_file"; "write_file"; "run_terminal_command"; "web_search"].
Proof.
  intros Hpre Hload Hty Hmode. unfold websocket_endpoint.
  destruct (serve false (pre ++ data :: post) (new_session e t)) as [r s'] eqn:Hrun.
  cbn [snd].
  destruct (serve_idle_initializes _ _ _ _ _ _ _ Hpre Hload Hty Hrun)
    as (prompt & before & new & Ht & Hbefore & Heff & _ & Hm).
  rewrite Hmode in Ht, Heff, Hm. cbn [default from_option Datatypes.id] in Ht, Heff, Hm.
  split; [exact Hm|].
  rewrite Ht. cbn [new_session trace app].
  split; [apply elem_of_app; right; by left|].
  split; [|exact tool_definitions_names].
  apply Forall_app. split.
  - eapply Forall_impl; [exact (Hbefore TOOL_DEFINITIONS)|].
    intros a Ha msgs arg ->. exact Ha.
  - constructor; [intros msgs arg [=]|].
    eapply Forall_impl; [exact Heff|].
    intros a Ha msgs arg ->. exact Ha.
Qed.

End DefaultModeFacts.

Lemma default_mode_advertises_all_tools_witness :
  let data := Scripted.frame_hello in
  let kv := [("content", JStr "hello")] in
  let answers : Scripted.script := [inr [Scripted.text_chunk "Hello."]] in
  (Forall (@file_request Scripted.script Scripted.host) []
   ∧ json_loads data = Some (JObj kv)
   ∧ Py.eq_str (default JNull (Py.assoc "type" kv)) "get_file_content" = false
   ∧ Py.assoc "mode" kv = None)
  ∧ mode (websocket_endpoint ([] ++ data :: []) answers ∅) = JStr "agent"
  ∧ started_event (JStr "agent")
      ∈ trace (websocket_endpoint ([] ++ data :: []) answers ∅)
  ∧ Forall (λ a, ∀ msgs arg, a = ARequest msgs arg → arg = Some TOOL_DEFINITIONS)
           (trace (websocket_endpoint ([] ++ data :: []) answers ∅))
  ∧ t_name <$> TOOL_DEFINITIONS
    = ["read_file"; "write_file"; "run_terminal_command"; "web_search"].
Proof.
  intros data kv answers.
  assert (H0 : Forall (@file_request Scripted.script Scripted.host) [])
    by constructor.
  assert (H1 : json_loads data = Some (JObj kv)) by (vm_compute; reflexivity).
  assert (H2 : Py.eq_str (default JNull (Py.assoc "type" kv)) "get_file_content"
               = false) by reflexivity.
  assert (H3 : Py.assoc "mode" kv = None) by reflexivity.
  split; [auto|].
  exact (default_mode_advertises_all_tools [] [] data kv answers ∅ H0 H1 H2 H3).
Defined.

(** C9, as stated, fails: the first frame of the connection is a request
    for the content of a file and has no [mode] field; it does not
    initialize the session. The second frame does, in ["chat"] mode, and
    the completion request advertises two tools. *)
Lemma first_frame_without_mode_then_chat :
  let frames := [Scripted.frame_get_file; Scripted.frame_chat_hello] in
  let answers : Scripted.script := [inr [Scripted.text_chunk "Hello."]] in
  let s := websocket_endpoint frames answers ∅ in
  (∃ kv, json_loads Scripted.frame_get_file = Some (JObj kv)
         ∧ Py.assoc "mode" kv = None)
  ∧ mode s = JStr "chat"
  ∧ requests (trace s)
    = [ARequest [MSystem (PROMPT_CHAT "workspace/"); MUser (JStr "hello")]
                (Some chat_tools)]
  ∧ t_name <$> chat_tools = ["read_file"; "web_search"].
Proof.
  intros frames answers s.
  split; [|split; [|split]].
  - eexists. split; [vm_compute; reflexivity | reflexivity].
  - vm_compute. reflexivity.
  - vm_compute. reflexivity.
  - vm_compute. reflexivity.
Qed.

(* ===================================================================== *)
(** ** Arguments that are not a record *)

Section ArgumentFacts.
Context {E : Type} `{Host E}.

Ltac run_session :=
  unfold bind, lift, dict_get, preview200, ret, raise, send, log,
    append_message, run_terminal_command, web_search, call_read_file,
    call_write_file; simpl.

(** Arguments that [json.loads] rejects become the empty record: the call
    does not raise, a known tool runs on the default [""] of each field,
    and the tool message is appended. *)
Lemma rejected_arguments_degrade (tc : call) (s : state E) :
  json_loads (args tc) = None →
  ∃ seg s',
    run_tool_call tc s = (Ok tt, s')
    ∧ trace s' = trace s ++ seg
    ∧ call_segment tc seg
    ∧ (∀ tool arguments, ACall tool arguments ∈ seg →
                         Forall (λ v, v = JStr "") arguments)
    ∧ ∃ output, messages s' = messages s ++ [MTool (id tc) output].
Proof.
  intros Hload.
  destruct (run_tool_call_spec tc s)
    as [(seg & s' & Hrun & Ht & Hm & _ & Hseg)|[x Hrun]].
  - exists seg, s'. split; [exact Hrun|]. split; [exact Ht|]. split; [exact Hseg|].
    split.
    + revert Hrun Ht. unfold run_tool_call. rewrite Hload.
      cbn [default from_option Datatypes.id]. unfold is_tool.
      repeat case_bool_decide; run_session;
        repeat match goal with
               | |- context [subprocess_run ?a ?b ?c] =>
                   destruct (subprocess_run a b c) as [[? ?] ?]
               | |- context [ddgs_text ?a ?b] => destruct (ddgs_text a b) as [? ?]
               end; simpl;
        intros [= <-]; simpl; rewrite <- ?app_assoc; simpl;
        intros Happ; apply app_inv_head in Happ; subst seg;
        intros tool arguments Hin;
        repeat (apply elem_of_cons in Hin as [Heq|Hin];
                [first [discriminate Heq
                       | injection Heq as -> ->; repeat constructor]|]);
        by apply elem_of_nil in Hin.
    + destruct (appended_segment _ _ Hseg) as [output Hout].
      exists output. by rewrite Hm, Hout.
  - exfalso. revert Hrun. unfold run_tool_call. rewrite Hload.
    cbn [default from_option Datatypes.id]. unfold is_tool.
    repeat case_bool_decide; run_session;
      repeat match goal with
             | |- context [subprocess_run ?a ?b ?c] =>
                 destruct (subprocess_run a b c) as [[? ?] ?]
             | |- context [ddgs_text ?a ?b] => destruct (ddgs_text a b) as [? ?]
             end; simpl; discriminate.
Qed.

(** Arguments that [json.loads] reads as something other than a record
    make a call of one of the four tools raise [AttributeError] at
    [args.get], before any event is sent. *)
Lemma non_record_arguments_raise (tc : call) (v : json) (tool : string)
      (s : state E) :
  json_loads (args tc) = Some v →
  (∀ kv, v ≠ JObj kv) →
  name tc = Some tool →
  tool ∈ known_tools →
  run_tool_call tc s = (Raise (no_get v), s).
Proof.
  intros Hload Hv Hname Htool. unfold run_tool_call.
  rewrite Hload, Hname. cbn [default from_option Datatypes.id]. unfold is_tool.
  unfold known_tools in Htool.
  repeat (apply elem_of_cons in Htool as [->|Htool];
          [repeat case_bool_decide; try congruence;
           destruct v; try reflexivity; exfalso; by eapply Hv|]).
  by apply elem_of_nil in Htool.
Qed.

End ArgumentFacts.

(** C7, where the code departs from it. The arguments [[]] are JSON but not
    a record: [json.loads] returns a list, the [except] clause does not
    apply, and [args.get] raises. [handle_message] ends with that
    exception after one completion request; no tool runs, no tool message
    answers the call, and the second answer of the service is never
    asked for. *)
Theorem list_arguments_abort_the_turn :
  let s := Scripted.session "agent" Scripted.list_arguments in
  let out := handle_message (JStr "hello") (JArr []) s in
  json_loads "[]" = Some (JArr [])
  ∧ out.1 = Raise (AttributeError "'list' object has no attribute 'get'")
  ∧ messages out.2
    = [ MSystem "system prompt"; MUser (JStr "hello");
        MAssistantCalls None [ {| tc_id := Some "call_a";
                                  tc_name := Some "read_file";
                                  tc_arguments := "[]" |} ] ]
  ∧ length (requests (trace out.2)) = 1%nat
  ∧ env out.2 = [inr [Scripted.text_chunk "Done."]].
Proof.
  intros s out. repeat split; vm_compute; reflexivity.
Qed.

(** With arguments that [json.loads] rejects the same turn goes on:
    [read_file] runs on the default path and the loop asks again. *)
Lemma broken_arguments_continue_the_turn :
  let s := Scripted.session "agent" Scripted.broken_arguments in
  let out := handle_message (JStr "hello") (JArr []) s in
  json_loads "{" = None
  ∧ out.1 = Ok tt
  ∧ messages out.2
    = [ MSystem "system prompt"; MUser (JStr "hello");
        MAssistantCalls None [ {| tc_id := Some "call_a";
                                  tc_name := Some "read_file";
                                  tc_arguments := "{" |} ];
        MTool (Some "call_a") "Error: File '' not found.";
        MAssistant "Done." ]
  ∧ length (requests (trace out.2)) = 2%nat.
Proof.
  intros s out. repeat split; vm_compute; reflexivity.
Qed.

(* ===================================================================== *)
(** ** More on the file tools *)

Section FileToolFacts.

Lemma walk_insert_short (fs : tree) (k : list string) (v : node)
      (cur rest : list string) :
  (length cur + length rest < length k)%nat →
  OS.walk (<[k := v]> fs) cur rest = OS.walk fs cur rest.
Proof.
  revert cur. induction rest as [|c rest IH]; intros cur Hlen; cbn [OS.walk].
  - assert (Hn : OS.node_at (<[k := v]> fs) cur = OS.node_at fs cur).
    { destruct cur; [reflexivity|]. cbn [OS.node_at].
      apply lookup_insert_ne. intros ->. simpl in Hlen. lia. }
    by rewrite Hn.
  - assert (Hn : OS.node_at (<[k := v]> fs) cur = OS.node_at fs cur).
    { destruct cur; [reflexivity|]. cbn [OS.node_at].
      apply lookup_insert_ne. intros ->. simpl in Hlen. lia. }
    rewrite Hn. destruct (OS.node_at fs cur) as [[?|]|]; try reflexivity.
    apply IH. rewrite length_app. simpl in *. lia.
Qed.

Lemma walk_snoc (fs : tree) (cur rest : list string) (c : string) :
  OS.walk fs cur (rest ++ [c])
  = match OS.walk fs cur rest with
    | inr Dir => match OS.node_at fs (cur ++ rest ++ [c]) with
                 | Some n => inr n
                 | None => inl ENOENT
                 end
    | inr (File _) => inl ENOTDIR
    | inl e => inl e
    end.
Proof.
  revert cur. induction rest as [|d rest IH]; intros cur; cbn [app OS.walk].
  - destruct (OS.node_at fs cur) as [[?|]|]; reflexivity.
  - destruct (OS.node_at fs cur) as [[?|]|]; try reflexivity.
    rewrite IH, <- app_assoc. reflexivity.
Qed.

Lemma error_text_not_success (x : string) :
  PyStr.startswith "Successfully" ("Error writing file: " +:+ x) = false.
Proof. reflexivity. Qed.

Lemma universal_newlines_without_cr (s : string) :
  occurs PyStr.CR s = false → PyStr.universal_newlines s = s.
Proof.
  induction s as [|c s IH]; [reflexivity|]. cbn [occurs PyStr.universal_newlines].
  destruct (decide (c = PyStr.CR)); [discriminate|].
  intros Hs. by rewrite IH.
Qed.

(** X1. Whenever [write_file] reports success, for any plain path and any
    content, a following [read_file] of the same path returns the content
    with every CR LF and lone CR read as LF (text mode), hence exactly the
    content when it holds no CR. *)
Theorem read_file_after_write_file (fs : tree) (path content : string) :
  plain_path path = true →
  PyStr.startswith "Successfully" (write_file fs path content).1 = true →
  read_file (write_file fs path content).2 path = PyStr.universal_newlines content
  ∧ (occurs PyStr.CR content = false →
     read_file (write_file fs path content).2 path = content).
Proof.
  intros _ Hok.
  assert (Hread : read_file (write_file fs path content).2 path
                  = PyStr.universal_newlines content).
  { revert Hok. unfold write_file.
    destruct (OS.makedirs fs (OS.dirname path) true) as [[e|] fs1];
      [cbn [fst]; by rewrite error_text_not_success|].
    unfold OS.write_text.
    destruct (PyStr.is_empty path) eqn:Hpath;
      [cbn [fst]; by rewrite error_text_not_success|].
    set (cs := OS.components path).
    destruct (OS.walk fs1 [] (removelast cs)) as [e|[x|]] eqn:Hwalk;
      try (cbn [fst]; by rewrite error_text_not_success).
    assert (Hcs : cs ≠ [] → OS.walk (<[cs := File content]> fs1) [] cs
                            = inr (File content)).
    { intros Hne.
      rewrite (app_removelast_last "" Hne) at 2.
      rewrite walk_snoc, walk_insert_short, Hwalk.
      - cbn [app]. rewrite <- (app_removelast_last "" Hne).
        destruct cs; [done|]. cbn [OS.node_at]. by rewrite lookup_insert_eq.
      - cbn [length]. rewrite (app_removelast_last "" Hne) at 2.
        rewrite length_app. simpl. lia. }
    destruct (OS.node_at fs1 cs) as [[x|]|] eqn:Hnode; cbn [fst snd];
      try (by rewrite error_text_not_success); intros _;
      (assert (Hne : cs ≠ []) by (intros Heq; rewrite Heq in Hnode; discriminate));
      unfold read_file, OS.exists_, OS.read_text, OS.stat;
      rewrite Hpath; fold cs; rewrite (Hcs Hne); reflexivity. }
  split; [exact Hread|].
  intros Hcr. by rewrite Hread, universal_newlines_without_cr.
Qed.

End FileToolFacts.

Lemma read_file_after_write_file_witness :
  plain_path "out/log.txt" = true
  ∧ PyStr.startswith "Successfully" (write_file ∅ "out/log.txt" "a
b").1 = true
  ∧ read_file (write_file ∅ "out/log.txt" "a
b").2 "out/log.txt" = PyStr.universal_newlines "a
b"
  ∧ (occurs PyStr.CR "a
b" = false →
     read_file (write_file ∅ "out/log.txt" "a
b").2 "out/log.txt" = "a
b").
Proof.
  assert (H : PyStr.startswith "Successfully" (write_file ∅ "out/log.txt" "a
b").1 = true) by (vm_compute; reflexivity).
  assert (Hp : plain_path "out/log.txt" = true) by (vm_compute; reflexivity).
  split; [exact Hp|].
  split; [exact H | exact (read_file_after_write_file ∅ "out/log.txt" _ Hp H)].
Defined.

Section WriteFootprint.

Lemma only_new_directories_refl (fs : tree) : only_new_directories fs fs.
Proof. intros k. split; auto. Qed.

Lemma only_new_directories_trans (fs1 fs2 fs3 : tree) :
  only_new_directories fs1 fs2 → only_new_directories fs2 fs3 →
  only_new_directories fs1 fs3.
Proof.
  intros H12 H23 k. destruct (H12 k) as [Ha Hb], (H23 k) as [Hc Hd].
  split; eauto.
Qed.

Lemma mkdir_only_new_directories (fs fs' : tree) (p : string) :
  OS.mkdir fs p = inr fs' → only_new_directories fs fs'.
Proof.
  unfold OS.mkdir. destruct (PyStr.is_empty p); [discriminate|].
  set (cs := OS.components p).
  destruct (OS.walk fs [] (removelast cs)) as [e|[x|]]; try discriminate.
  destruct (OS.node_at fs cs) eqn:Hnode; [discriminate|].
  intros [= <-] k.
  assert (Hcs : fs !! cs = None) by (destruct cs; [discriminate | exact Hnode]).
  destruct (decide (k = cs)) as [->|Hk].
  - rewrite lookup_insert_eq, Hcs. split; [discriminate | intros c [=]].
  - rewrite lookup_insert_ne by congruence. split; auto.
Qed.

Lemma makedirs_rec_only_new_directories (n : nat) :
  ∀ (fs : tree) (name : string) (exist_ok : bool) r fs',
    OS.makedirs_rec n fs name exist_ok = Some (r, fs') →
    only_new_directories fs fs'.
Proof.
  induction n as [|n IH]; intros fs name exist_ok r fs'; [discriminate|].
  cbn [OS.makedirs_rec].
  destruct (OS.split name) as [head0 tail0].
  destruct (if PyStr.is_empty tail0 then OS.split head0 else (head0, tail0))
    as [head tail].
  assert (Hfinish : ∀ fs1,
    only_new_directories fs fs1 →
    match OS.mkdir fs1 name with
    | inr fs2 => Some (None, fs2)
    | inl e =>
        if negb exist_ok || negb (OS.isdir fs1 name) then Some (Some e, fs1)
        else Some (None, fs1)
    end = Some (r, fs') → only_new_directories fs fs').
  { intros fs1 H1. destruct (OS.mkdir fs1 name) as [e|fs2] eqn:Hmk.
    - destruct (negb exist_ok || negb (OS.isdir fs1 name)); by intros [= <- <-].
    - intros [= <- <-]. eapply only_new_directories_trans; [exact H1|].
      by eapply mkdir_only_new_directories. }
  destruct (negb (PyStr.is_empty head) && negb (PyStr.is_empty tail)
            && negb (OS.exists_ fs head)).
  - destruct (OS.makedirs_rec n fs head exist_ok) as [[raised fs1]|] eqn:Hrec;
      [|discriminate].
    apply IH in Hrec.
    destruct (match raised with
              | Some e => if is_FileExistsError e then None else Some e
              | None => None
              end).
    + by intros [= <- <-].
    + destruct (decide (tail = ".")); [by intros [= <- <-]|]. by apply Hfinish.
  - apply Hfinish, only_new_directories_refl.
Qed.

Lemma makedirs_only_new_directories (fs : tree) (name : string) (ok : bool) :
  only_new_directories fs (OS.makedirs fs name ok).2.
Proof.
  unfold OS.makedirs.
  destruct (OS.makedirs_rec (S (String.length name)) fs name ok) as [[r fs']|] eqn:Hrec.
  - cbn [default Datatypes.id snd]. by eapply makedirs_rec_only_new_directories.
  - apply only_new_directories_refl.
Qed.

(** X2. For any plain path, any content and any outcome, [write_file] keeps
    every entry of the file tree other than its target as it was, and the
    target is the only place where a regular file is created or changed:
    nothing is removed, no other file is written, at most directories are
    added. *)
Theorem write_file_touches_only_its_target (fs : tree) (path content : string)
        (k : list string) :
  plain_path path = true →
  k ≠ OS.components path →
  (∀ n, fs !! k = Some n → (write_file fs path content).2 !! k = Some n)
  ∧ (∀ c, (write_file fs path content).2 !! k = Some (File c) →
          fs !! k = Some (File c)).
Proof.
  intros _ Hk. unfold write_file.
  pose proof (makedirs_only_new_directories fs (OS.dirname path) true) as Hmk.
  destruct (OS.makedirs fs (OS.dirname path) true) as [[e|] fs1];
    cbn [snd] in *; [exact (Hmk k)|].
  unfold OS.write_text. destruct (PyStr.is_empty path); [exact (Hmk k)|].
  destruct (OS.walk fs1 [] (removelast (OS.components path))) as [e|[x|]];
    try exact (Hmk k).
  destruct (OS.node_at fs1 (OS.components path)) as [[x|]|]; cbn [snd];
    try exact (Hmk k); rewrite lookup_insert_ne by congruence; exact (Hmk k).
Qed.

End WriteFootprint.

Lemma write_file_touches_only_its_target_witness :
  plain_path "a/b.txt" = true
  ∧ ["a"; "c.txt"] ≠ OS.components "a/b.txt"
  ∧ (∀ n, ({[ ["a"] := Dir; ["a"; "c.txt"] := File "kept" ]} : tree) !! ["a"; "c.txt"] = Some n →
          (write_file {[ ["a"] := Dir; ["a"; "c.txt"] := File "kept" ]} "a/b.txt" "new").2
            !! ["a"; "c.txt"] = Some n)
  ∧ (∀ c, (write_file {[ ["a"] := Dir; ["a"; "c.txt"] := File "kept" ]} "a/b.txt" "new").2
            !! ["a"; "c.txt"] = Some (File c) →
          ({[ ["a"] := Dir; ["a"; "c.txt"] := File "kept" ]} : tree) !! ["a"; "c.txt"]
          = Some (File c)).
Proof.
  assert (H : ["a"; "c.txt"] ≠ OS.components "a/b.txt") by (vm_compute; discriminate).
  assert (Hp : plain_path "a/b.txt" = true) by (vm_compute; reflexivity).
  split; [exact Hp|]. split; [exact H|].
  exact (write_file_touches_only_its_target
           {[ ["a"] := Dir; ["a"; "c.txt"] := File "kept" ]} "a/b.txt" "new" _ Hp H).
Defined.

(* ===================================================================== *)
(** ** When a tool call raises *)

Section DispatchFacts.
Context {E : Type} `{Host E}.

Ltac run_session :=
  unfold bind, lift, dict_get, preview200, ret, raise, send, log,
    append_message, run_terminal_command, web_search, call_read_file,
    call_write_file; simpl.

(** The outcome of the dispatch of a tool call. *)
Lemma run_tool_call_outcome (tc : call) (s : state E) :
  match run_tool_call tc s with
  | (Raise _, s') => aborts tc = true ∧ s' = s
  | (Ok _, s') =>
      aborts tc = false
      ∧ (∃ output, messages s' = messages s ++ [MTool (id tc) output])
      ∧ (names_known_tool tc = false →
         s' = mkState (messages s ++ [MTool (id tc) "Error: Tool not found."])
                      (mode s) (fs s) (env s)
                      (trace s ++ [AAppend (MTool (id tc) "Error: Tool not found.")]))
  end.
Proof.
  unfold run_tool_call, aborts, names_known_tool, known_tools.
  cbn [existsb].
  set (a := default (JObj []) (json_loads (args tc))).
  unfold is_tool.
  destruct (bool_decide (name tc = Some "run_terminal_command")) eqn:H1.
  { apply bool_decide_eq_true in H1. rewrite ?H1.
    destruct a; try (split; reflexivity).
    run_session.
    destruct (subprocess_run _ _ _) as [[e' fs'] out]; simpl.
    split; [reflexivity|]. split; [eauto|]. discriminate. }
  destruct (bool_decide (name tc = Some "read_file")) eqn:H2.
  { apply bool_decide_eq_true in H2. rewrite ?H2.
    destruct a; try (split; reflexivity).
    run_session.
    destruct (match default (JStr "") (Py.assoc "path" fields) with
              | JStr p => _ | _ => _ end) as [e' text]; simpl.
    split; [reflexivity|]. split; [eauto|]. discriminate. }
  destruct (bool_decide (name tc = Some "write_file")) eqn:H3.
  { apply bool_decide_eq_true in H3. rewrite ?H3.
    destruct a; try (split; reflexivity).
    run_session.
    destruct (default (JStr "") (Py.assoc "content" fields)) eqn:Hc;
      try (split; reflexivity).
    simpl.
    destruct (match default (JStr "") (Py.assoc "path" fields) with
              | JStr p => _ | _ => _ end) as [text fs']; simpl.
    split; [reflexivity|]. split; [eauto|]. discriminate. }
  destruct (bool_decide (name tc = Some "web_search")) eqn:H4.
  { apply bool_decide_eq_true in H4. rewrite ?H4.
    destruct a; try (split; reflexivity).
    run_session.
    destruct (ddgs_text _ _) as [e' out]; simpl.
    split; [reflexivity|]. split; [eauto|]. discriminate. }
  run_session. cbn [orb andb].
  split; [by destruct a|]. split; [eauto|]. reflexivity.
Qed.

(** X3. The dispatch of a tool call raises exactly on the calls that
    [aborts] describes, and then nothing has been sent, run or appended.
    Every other call, with arguments of any kind, ends with its tool
    message appended to the transcript; a name that is none of the four
    tools sends no event, runs nothing, and is answered by
    ["Error: Tool not found."]. *)
Theorem run_tool_call_raises_exactly (tc : call) (s : state E) :
  (aborts tc = true ∧ ∃ e, run_tool_call tc s = (Raise e, s))
  ∨ (aborts tc = false
     ∧ ∃ s' output,
         run_tool_call tc s = (Ok tt, s')
         ∧ messages s' = messages s ++ [MTool (id tc) output]
         ∧ (names_known_tool tc = false →
            output = "Error: Tool not found."
            ∧ trace s' = trace s ++ [AAppend (MTool (id tc) output)]
            ∧ fs s' = fs s ∧ env s' = env s)).
Proof.
  pose proof (run_tool_call_outcome tc s) as Hrun.
  destruct (run_tool_call tc s) as [[[]|e] s'].
  - right. destruct Hrun as (Ha & [output Hm] & Hunknown).
    split; [exact Ha|]. exists s', output.
    split; [reflexivity|]. split; [exact Hm|].
    intros Hname. specialize (Hunknown Hname). subst s'.
    cbn [messages trace fs env] in *.
    apply app_inv_head in Hm. injection Hm as <-. auto.
  - left. destruct Hrun as [Ha ->]. eauto.
Qed.

End DispatchFacts.

(* ===================================================================== *)
(** ** A mode that is neither ["agent"] nor ["chat"] *)

Section OtherModeFacts.
Context {E : Type} `{Host E}.

(** X4. [initialize] and [handle_message] test the mode differently: a
    session started in a mode other than ["agent"] and ["chat"] (another
    spelling, another type) gets the read-only system prompt, and every
    completion request of its first turn still advertises all four tools. *)
Theorem other_mode_has_chat_prompt_and_all_tools
        (md user_content images : json) (s : state E) (r : result unit)
        (s' : state E) :
  Py.eq_str md "agent" = false →
  Py.eq_str md "chat" = false →
  (initialize md ;; handle_message user_content images) s = (r, s') →
  ∃ new,
    trace s' = trace s ++ started_event md :: new
    ∧ messages s'
      = MSystem (PROMPT_CHAT (get_project_structure (env s) (fs s))) :: appended new
    ∧ Forall (λ a, ∀ msgs arg, a = ARequest msgs arg → arg = Some TOOL_DEFINITIONS)
             new.
Proof.
  intros Hagent Hchat. unfold bind, initialize, send, log. rewrite Hagent.
  cbn [trace messages mode fs env]. intros Hrun.
  destruct (handle_message_effects _ _ _ _ _ Hrun) as (new & Ht & Heff & Hm & _).
  cbn [trace messages mode] in *. exists new.
  split; [rewrite Ht, <- app_assoc; reflexivity|]. split; [exact Hm|].
  unfold allowed_tools_of in Heff. rewrite Hchat in Heff.
  eapply Forall_impl; [exact Heff|].
  intros a Ha msgs arg ->. exact Ha.
Qed.

End OtherModeFacts.

Lemma other_mode_has_chat_prompt_and_all_tools_witness :
  let s := new_session [inr [Scripted.text_chunk "Hello."]] ∅ in
  let out := (initialize (JStr "Chat") ;; handle_message (JStr "hello") (JArr []))%session s in
  (Py.eq_str (JStr "Chat") "agent" = false ∧ Py.eq_str (JStr "Chat") "chat" = false)
  ∧ ∃ new,
      trace out.2 = trace s ++ started_event (JStr "Chat") :: new
      ∧ messages out.2
        = MSystem (PROMPT_CHAT (get_project_structure (env s) (fs s))) :: appended new
      ∧ Forall (λ a, ∀ msgs arg, a = ARequest msgs arg → arg = Some TOOL_DEFINITIONS)
               new.
Proof.
  intros s out.
  assert (H1 : Py.eq_str (JStr "Chat") "agent" = false) by reflexivity.
  assert (H2 : Py.eq_str (JStr "Chat") "chat" = false) by reflexivity.
  split; [auto|].
  exact (other_mode_has_chat_prompt_and_all_tools
           (JStr "Chat") (JStr "hello") (JArr []) s out.1 out.2 H1 H2
           (surjective_pairing out)).
Defined.

(* ===================================================================== *)
(** ** The text of an answer *)

Section TextFacts.
Context {E : Type} `{Host E}.

Lemma snapshots_from_cons (t tid c : string) (txs : list string) :
  snapshots_from t tid (c :: txs)
  = ASend (EThought (Some tid) (t +:+ c)) :: snapshots_from (t +:+ c) tid txs.
Proof.
  unfold snapshots_from. cbn [length seq fmap list_fmap take whole foldr].
  rewrite string_app_nil_r. f_equal.
  rewrite <- seq_shift, <- list_fmap_compose. apply list_fmap_ext.
  intros i k _. cbn [compose take whole foldr].
  by rewrite string_app_assoc.
Qed.

(** The first loop of a pass, from any text and dictionary. *)
Lemma consume_run (tid : string) (stream : list chunk)
      (t : string) (d : gmap Z call) (s : state E) :
  consume tid stream t d s
  = (Ok (t +:+ whole (texts stream), fold_left absorb (fragments stream) d),
     mkState (messages s) (mode s) (fs s) (env s)
             (trace s ++ snapshots_from t tid (texts stream))).
Proof.
  revert t d s. induction stream as [|ch stream IH]; intros t d s.
  - cbn. rewrite string_app_nil_r, app_nil_r. by destruct s.
  - rewrite fragments_cons, fold_left_app. cbn [consume].
    assert (Hd : match c_tool_calls ch with
                 | Some (tc :: tcs) => fold_left absorb (tc :: tcs) d
                 | _ => d
                 end = fold_left absorb (default [] (c_tool_calls ch)) d).
    { destruct (c_tool_calls ch) as [[|]|]; reflexivity. }
    rewrite Hd. clear Hd.
    unfold bind at 1. unfold texts. cbn [omap list_omap]. fold (texts stream).
    destruct (nonempty (c_content ch)) eqn:Hne.
    + destruct (c_content ch) as [c|]; [|discriminate].
      unfold bind at 1. unfold send, log, ret.
      cbn [default from_option Datatypes.id]. rewrite IH.
      cbn [messages mode fs env trace].
      rewrite snapshots_from_cons, <- app_assoc, string_app_assoc. reflexivity.
    + unfold ret. rewrite IH. reflexivity.
Qed.

(** X5. Thought events are cumulative. For a stream that arrives whole and
    whose chunks are well formed (a delta in each chunk, a function in
    each tool-call fragment), the first loop of a pass sends one thought
    event per non-empty text fragment, each carrying the whole text so far
    (not the fragment) under the same id; it returns the concatenation
    of the fragments together with the dictionary of the tool calls, and
    changes nothing but the outbound log. The last event, if there is one,
    carries exactly the text returned. *)
Theorem consume_sends_cumulative_text (tid : string) (stream : list chunk)
        (s : state E) :
  consume tid stream "" ∅ s
  = (Ok (whole (texts stream), calls_of stream),
     mkState (messages s) (mode s) (fs s) (env s)
             (trace s ++ snapshots tid (texts stream)))
  ∧ last (snapshots tid (texts stream))
    = match texts stream with
      | [] => None
      | _ => Some (ASend (EThought (Some tid) (whole (texts stream))))
      end.
Proof.
  split; [apply consume_run|].
  unfold snapshots, snapshots_from. rewrite fmap_last.
  destruct (texts stream) as [|t txs] eqn:Htexts; [reflexivity|].
  rewrite <- Htexts.
  assert (Hlen : length (texts stream) = S (length txs)) by by rewrite Htexts.
  rewrite Hlen, seq_S, last_snoc. cbn [fmap option_fmap option_map Nat.add].
  rewrite <- Hlen, firstn_all. reflexivity.
Qed.

End TextFacts.

(* ===================================================================== *)
(** ** Turns that end at once *)

Section ShortTurns.
Context {E : Type} `{Host E}.

Lemma plain_user_message (user_content images : json)
      (s : state E) :
  Py.truthy images = false →
  handle_message user_content images s
  = turn_loop 10 (allowed_tools_of (mode s))
      (mkState (messages s ++ [MUser user_content]) (mode s) (fs s) (env s)
               (trace s ++ [AAppend (MUser user_content)])).
Proof.
  intros Himg. unfold handle_message. rewrite Himg. reflexivity.
Qed.

(** X6. A turn whose first answer carries no tool call, for a message
    without images: one completion request is made, on the transcript with
    the user message, the text is sent as cumulative thought events and
    appended as one assistant message (nothing is appended for an empty
    text), and the turn ends normally. No later pass is run. *)
Theorem text_answer_ends_the_turn
        (user_content images : json) (s : state E) (e1 e2 : E)
        (stream : list chunk) (hex : string) :
  Py.truthy images = false →
  completions_create (env s) (messages s ++ [MUser user_content])
                     (tools_arg (allowed_tools_of (mode s))) = (e1, inr stream) →
  urandom_hex e1 = (e2, hex) →
  calls_of stream = ∅ →
  handle_message user_content images s
  = (Ok tt,
     mkState (messages s ++ MUser user_content
                :: appended (assistant_text (whole (texts stream))))
             (mode s) (fs s) e2
             (trace s ++ AAppend (MUser user_content)
                :: ARequest (messages s ++ [MUser user_content])
                            (tools_arg (allowed_tools_of (mode s)))
                :: snapshots ("thought-" +:+ hex) (texts stream)
                ++ assistant_text (whole (texts stream)))).
Proof.
  intros Himg Hcreate Hhex Hnone.
  rewrite plain_user_message by exact Himg.
  cbn [turn_loop]. unfold bind at 1. unfold round.
  unfold bind at 1. unfold create. cbn [env messages mode fs trace].
  rewrite Hcreate. unfold bind at 1. unfold urandom at 1.
  cbn [env messages mode fs trace]. rewrite Hhex.
  unfold bind at 1. rewrite consume_run.
  cbn [fst snd env messages mode fs trace].
  fold (calls_of stream). rewrite Hnone.
  unfold bind at 1. rewrite text_message_run.
  cbn [env messages mode fs trace]. rewrite bool_decide_eq_true_2 by reflexivity.
  unfold ret. rewrite <- !app_assoc. reflexivity.
Qed.

(** X7. A completion request that fails at the start of a turn, for a
    message without images: the failure is reported to the client as a
    thought event without id, the turn returns normally after that one
    request, and the user message stays in the transcript. *)
Theorem failed_request_keeps_the_user_message
        (user_content images : json) (s : state E) (e1 : E) (text : string) :
  Py.truthy images = false →
  completions_create (env s) (messages s ++ [MUser user_content])
                     (tools_arg (allowed_tools_of (mode s))) = (e1, inl text) →
  handle_message user_content images s
  = (Ok tt,
     mkState (messages s ++ [MUser user_content]) (mode s) (fs s) e1
             (trace s ++ [AAppend (MUser user_content);
                          ARequest (messages s ++ [MUser user_content])
                                   (tools_arg (allowed_tools_of (mode s)));
                          ASend (EThought None ("LLM Error: " +:+ text))])).
Proof.
  intros Himg Hcreate.
  rewrite plain_user_message by exact Himg.
  cbn [turn_loop]. unfold bind at 1. unfold round.
  unfold bind at 1. unfold create. cbn [env messages mode fs trace].
  rewrite Hcreate. unfold bind, send, log, ret.
  cbn [env messages mode fs trace]. rewrite <- !app_assoc. reflexivity.
Qed.

End ShortTurns.

Lemma text_answer_ends_the_turn_witness :
  let stream := [Scripted.text_chunk "Hel"; Scripted.text_chunk "lo."] in
  let s := Scripted.session "chat" [inr stream] in
  (Py.truthy (JArr []) = false
   ∧ completions_create (env s) (messages s ++ [MUser (JStr "hi")])
                        (tools_arg (allowed_tools_of (mode s))) = ([], inr stream)
   ∧ urandom_hex ([] : Scripted.script) = ([], "00c0ffee")
   ∧ calls_of stream = ∅)
  ∧ handle_message (JStr "hi") (JArr []) s
    = (Ok tt,
       mkState (messages s ++ MUser (JStr "hi")
                  :: appended (assistant_text (whole (texts stream))))
               (mode s) (fs s) []
               (trace s ++ AAppend (MUser (JStr "hi"))
                  :: ARequest (messages s ++ [MUser (JStr "hi")])
                              (tools_arg (allowed_tools_of (mode s)))
                  :: snapshots ("thought-" +:+ "00c0ffee") (texts stream)
                  ++ assistant_text (whole (texts stream)))).
Proof.
  intros stream s.
  assert (H1 : Py.truthy (JArr []) = false) by reflexivity.
  assert (H2 : completions_create (env s) (messages s ++ [MUser (JStr "hi")])
                 (tools_arg (allowed_tools_of (mode s))) = ([], inr stream))
    by reflexivity.
  assert (H3 : urandom_hex ([] : Scripted.script) = ([], "00c0ffee")) by reflexivity.
  assert (H4 : calls_of stream = ∅) by reflexivity.
  split; [auto|].
  exact (text_answer_ends_the_turn (JStr "hi") (JArr []) s [] [] stream "00c0ffee"
           H1 H2 H3 H4).
Defined.

Lemma failed_request_keeps_the_user_message_witness :
  let s := Scripted.session "agent" [inl "Connection error."] in
  (Py.truthy JNull = false
   ∧ completions_create (env s) (messages s ++ [MUser (JStr "hi")])
                        (tools_arg (allowed_tools_of (mode s)))
     = ([], inl "Connection error."))
  ∧ handle_message (JStr "hi") JNull s
    = (Ok tt,
       mkState (messages s ++ [MUser (JStr "hi")]) (mode s) (fs s) []
               (trace s ++ [AAppend (MUser (JStr "hi"));
                            ARequest (messages s ++ [MUser (JStr "hi")])
                                     (tools_arg (allowed_tools_of (mode s)));
                            ASend (EThought None ("LLM Error: " +:+ "Connection error."))])).
Proof.
  intros s.
  assert (H1 : Py.truthy JNull = false) by reflexivity.
  assert (H2 : completions_create (env s) (messages s ++ [MUser (JStr "hi")])
                 (tools_arg (allowed_tools_of (mode s)))
               = ([], inl "Connection error.")) by reflexivity.
  split; [auto|].
  exact (failed_request_keeps_the_user_message (JStr "hi") JNull s []
           "Connection error." H1 H2).
Defined.

(* ===================================================================== *)
(** ** A turn that uses all its passes *)

Section LongTurns.
Context {E : Type} `{Host E}.

Lemma run_tool_calls_ok (d : gmap Z call) (keys : list Z) (s : state E) :
  Forall (λ k, is_Some (d !! k)) keys →
  Forall (λ tc, aborts tc = false) (omap (λ k, d !! k) keys) →
  ∃ s', run_tool_calls d keys s = (Ok tt, s').
Proof.
  intros Hk. revert s.
  induction Hk as [|k keys [tc Hk] _ IH]; intros s Hok; cbn [run_tool_calls].
  - eexists; reflexivity.
  - cbn [omap list_omap] in Hok. rewrite Hk in Hok.
    apply Forall_cons in Hok as [Htc Hok].
    unfold bind at 1. unfold subscript. rewrite Hk. unfold ret at 1.
    unfold bind at 1.
    pose proof (run_tool_call_outcome tc s) as Hrun.
    destruct (run_tool_call tc s) as [[[]|e] s1].
    + apply IH, Hok.
    + destruct Hrun as [Ha _]. congruence.
Qed.

Lemma calls_not_empty (d : gmap Z call) : d ≠ ∅ → sorted_calls d ≠ [].
Proof.
  intros Hd Hnil. apply Hd, sorted_keys_empty.
  pose proof (sorted_calls_lookup d) as Hl. rewrite Hnil in Hl.
  by apply Forall2_nil_inv_r in Hl.
Qed.

Lemma round_continues (tools : list tool_def) (s : state E) :
  keeps_calling tools → ∃ s', round tools s = (Ok Continue, s').
Proof.
  intros Hhost.
  destruct (Hhost (env s) (messages s)) as (e1 & stream & Hcreate & Hd & Hok).
  unfold round. unfold bind at 1. unfold create. rewrite Hcreate.
  unfold bind at 1. unfold urandom at 1. cbn [env messages mode fs trace].
  destruct (urandom_hex e1) as [e2 hex].
  unfold bind at 1. rewrite consume_run.
  cbn [fst snd env messages mode fs trace]. fold (calls_of stream).
  unfold bind at 1. rewrite text_message_run.
  cbn [env messages mode fs trace].
  rewrite bool_decide_eq_false_2 by exact Hd.
  assert (Hkeys : Forall (λ k, is_Some (calls_of stream !! k))
                         (sorted_keys (calls_of stream))).
  { apply Forall_forall. intros k. apply sorted_keys_elem. }
  unfold bind at 1. rewrite (build_tool_calls_msg_spec _ _ _ Hkeys).
  unfold bind at 1. unfold append_message at 1.
  cbn [trace messages mode fs env].
  unfold bind at 1.
  match goal with
  | |- context [run_tool_calls ?d ?ks ?s0] =>
      destruct (run_tool_calls_ok d ks s0 Hkeys Hok) as [s' ->]
  end.
  eexists; reflexivity.
Qed.

Lemma round_ends_with_tool_message (tools : list tool_def) (s s' : state E) :
  round tools s = (Ok Continue, s') →
  ∃ cid output, last (messages s') = Some (MTool cid output).
Proof.
  intros Hround.
  destruct (round_spec _ _ _ _ Hround) as (new & Hshape & _ & Hm & _).
  inversion Hshape
    as [| |e' stream tid thoughts content segs r n Hc Hd Hth Hsegs Hr]; subst.
  destruct Hr as [[_ ->]|(x & [=] & _)].
  rewrite firstn_all in Hsegs.
  pose proof (appended_segments _ _ Hsegs) as Hmsgs.
  pose proof (calls_not_empty _ Hd) as Hne.
  assert (Htail : ∃ l cid output,
            appended (concat segs) = l ++ [MTool cid output]).
  { destruct (appended (concat segs)) as [|m ms _] using rev_ind.
    - apply Forall2_nil_inv_r in Hmsgs. contradiction.
    - apply Forall2_app_inv_r in Hmsgs as (tcs1 & tcs2 & _ & Hlast & _).
      apply Forall2_cons_inv_r in Hlast as (tc & ? & [output ->] & _ & _).
      eauto. }
  destruct Htail as (l & cid & output & Htail).
  exists cid, output. rewrite Hm.
  change (ARequest (messages s) (tools_arg tools) :: ?l0)
    with ([ARequest (messages s) (tools_arg tools)] ++ l0).
  change (AAppend ?m :: concat segs) with ([AAppend m] ++ concat segs).
  rewrite !appended_app, Htail, !app_assoc. apply last_snoc.
Qed.

Lemma turn_loop_full (n : nat) (tools : list tool_def) (s : state E) :
  keeps_calling tools →
  ∃ s' rounds,
    turn_loop n tools s = (Ok tt, s')
    ∧ length rounds = n
    ∧ Forall (is_round tools) rounds
    ∧ trace s' = trace s ++ concat rounds
    ∧ (n ≠ 0%nat → ∃ cid output, last (messages s') = Some (MTool cid output)).
Proof.
  intros Hhost. revert s. induction n as [|n IH]; intros s; cbn [turn_loop].
  - exists s, []. rewrite app_nil_r. repeat split; auto. congruence.
  - destruct (round_continues tools s Hhost) as [s1 Hround].
    unfold bind. rewrite Hround.
    destruct (round_spec _ _ _ _ Hround) as (new & Hshape & Ht & _ & _).
    destruct (IH s1) as (s' & rounds & Hloop & Hlen & Hall & Ht' & Hlast).
    exists s', (new :: rounds).
    split; [exact Hloop|]. split; [simpl; congruence|].
    split; [constructor; [by do 3 eexists | exact Hall]|].
    split; [rewrite Ht', Ht, <- app_assoc; reflexivity|].
    intros _. destruct n as [|n]; [|by apply Hlast].
    cbn [turn_loop] in Hloop. injection Hloop as <-.
    by eapply round_ends_with_tool_message.
Qed.

(** X8. The bound of ten is reached without notice. With a completion
    service that answers every request with tool calls that run, a turn
    makes exactly ten requests and returns normally; the transcript then
    ends with a tool message that no assistant message answers, and
    nothing but the events of the passes has been sent. *)
Theorem ten_passes_end_the_turn_silently
        (user_content images : json) (s : state E) :
  keeps_calling (allowed_tools_of (mode s)) →
  Py.truthy images = false →
  ∃ s' rounds,
    handle_message user_content images s = (Ok tt, s')
    ∧ trace s' = trace s ++ AAppend (MUser user_content) :: concat rounds
    ∧ Forall (is_round (allowed_tools_of (mode s))) rounds
    ∧ length (requests (concat rounds)) = 10%nat
    ∧ ∃ cid output, last (messages s') = Some (MTool cid output).
Proof.
  intros Hhost Himg. rewrite plain_user_message by exact Himg.
  match goal with
  | |- context [turn_loop 10 ?tools ?s0] =>
      destruct (turn_loop_full 10 tools s0 Hhost)
        as (s' & rounds & Hloop & Hlen & Hall & Ht & Hlast)
  end.
  exists s', rounds. split; [exact Hloop|].
  cbn [trace] in Ht.
  split; [rewrite Ht, <- app_assoc; reflexivity|].
  split; [exact Hall|].
  split; [by rewrite (requests_rounds _ _ Hall)|].
  by apply Hlast.
Qed.

End LongTurns.

Lemma insistent_host_keeps_calling : @keeps_calling unit Insistent.host TOOL_DEFINITIONS.
Proof.
  intros e msgs. exists e, (Obedient.answer 0).
  split; [reflexivity|].
  split.
  - intros Heq. apply (f_equal (λ d, d !! 0)) in Heq. vm_compute in Heq. discriminate.
  - assert (Hcalls : sorted_calls (calls_of (Obedient.answer 0))
                     = [ {| id := Some "call_a"; name := Some "read_file";
                            args := "{}" |} ]) by (vm_compute; reflexivity).
    rewrite Hcalls. constructor; [vm_compute; reflexivity | constructor].
Qed.

Lemma ten_passes_end_the_turn_silently_witness :
  let s := Insistent.session in
  (keeps_calling (allowed_tools_of (mode s)) ∧ Py.truthy (JArr []) = false)
  ∧ ∃ s' rounds,
      handle_message (JStr "hello") (JArr []) s = (Ok tt, s')
      ∧ trace s' = trace s ++ AAppend (MUser (JStr "hello")) :: concat rounds
      ∧ Forall (is_round (allowed_tools_of (mode s))) rounds
      ∧ length (requests (concat rounds)) = 10%nat
      ∧ ∃ cid output, last (messages s') = Some (MTool cid output).
Proof.
  intros s.
  assert (H1 : keeps_calling (allowed_tools_of (mode s)))
    by exact insistent_host_keeps_calling.
  assert (H2 : Py.truthy (JArr []) = false) by reflexivity.
  split; [auto|].
  exact (ten_passes_end_the_turn_silently (JStr "hello") (JArr []) s H1 H2).
Defined.

(* ===================================================================== *)
(** ** Frames of the connection *)

Section FrameFacts.
Context {E : Type} `{Host E}.

Lemma serve_app (initialized : bool) (pre post : list string) (s : state E) :
  serve initialized (pre ++ post) s
  = match serve initialized pre s with
    | (Ok i, s1) => serve i post s1
    | (Raise x, s1) => (Raise x, s1)
    end.
Proof.
  revert initialized s. induction pre as [|data pre IH]; intros initialized s;
    cbn [app serve]; [reflexivity|].
  unfold bind. destruct (handle_frame initialized data s) as [[i|x] s1];
    [apply IH | reflexivity].
Qed.

Lemma not_a_record_raises (initialized : bool) (data : string) (s : state E) :
  (∀ kv, json_loads data ≠ Some (JObj kv)) →
  ∃ x, handle_frame initialized data s = (Raise x, s).
Proof.
  intros Hdata. unfold handle_frame.
  destruct (json_loads data) as [v|]; [|eexists; reflexivity].
  destruct v; try (eexists; reflexivity). by edestruct Hdata.
Qed.

(** X9. A frame that is not the JSON text of a record (no JSON at all, or
    a list, a string, a number) ends the connection: the frame itself has
    no effect and the frames after it are never handled, whatever they
    are. *)
Theorem malformed_frame_ends_the_connection
        (pre post : list string) (data : string) (e : E) (t : tree) :
  (∀ kv, json_loads data ≠ Some (JObj kv)) →
  websocket_endpoint (pre ++ data :: post) e t = websocket_endpoint pre e t.
Proof.
  intros Hdata. unfold websocket_endpoint. rewrite serve_app.
  destruct (serve false pre (new_session e t)) as [[i|x] s1]; [|reflexivity].
  cbn [serve]. unfold bind.
  destruct (not_a_record_raises i data s1 Hdata) as [x ->]. reflexivity.
Qed.

(** X10. A request for the content of a file whose path names an entry
    (a relative path without [..] that does not end in [/] or [/.]) is
    answered with the result of [read_file] on that path, in every state
    of the connection: before the session is initialized as well as after,
    and in every mode. The transcript, the mode, the file tree and the
    flag [initialized] are left as they are, and no completion request is
    made. *)
Theorem file_request_is_answered_in_any_state
        (initialized : bool) (data : string) (kv : list (string * json))
        (p : string) (s : state E) :
  json_loads data = Some (JObj kv) →
  Py.eq_str (default JNull (Py.assoc "type" kv)) "get_file_content" = true →
  Py.assoc "path" kv = Some (JStr p) →
  names_an_entry p = true →
  handle_frame initialized data s
  = (Ok initialized,
     mkState (messages s) (mode s) (fs s) (env s)
             (trace s ++ [ACall "read_file" [JStr p];
                          ASend (EFileContent (JStr p) (read_file (fs s) p))])).
Proof.
  intros Hload Hty Hpath _. unfold handle_frame. rewrite Hload.
  unfold bind at 1. unfold ret at 1.
  unfold bind at 1. cbn [lift dict_get]. unfold ret at 1. rewrite Hty.
  unfold bind at 1. rewrite Hpath. cbn [default from_option Datatypes.id].
  unfold ret at 1. unfold bind, call_read_file, send, log, ret.
  cbn [trace messages mode fs env]. rewrite <- app_assoc. reflexivity.
Qed.

(** X11. A first frame without content and without images only opens the
    session: the transcript becomes the system prompt alone, the read-only
    prompt unless the mode is ["agent"], the session-started event is
    sent, no completion request is made, and the connection is
    initialized. The [type] of the frame plays no part, as long as it is
    not a request for a file. *)
Theorem first_frame_without_content_only_initializes
        (data : string) (kv : list (string * json)) (s : state E) :
  json_loads data = Some (JObj kv) →
  Py.eq_str (default JNull (Py.assoc "type" kv)) "get_file_content" = false →
  Py.truthy (default JNull (Py.assoc "content" kv)) = false →
  Py.truthy (default JNull (Py.assoc "images" kv)) = false →
  let md := default (JStr "agent") (Py.assoc "mode" kv) in
  let prompt := if Py.eq_str md "agent" then PROMPT_AGENT else PROMPT_CHAT in
  handle_frame false data s
  = (Ok true,
     mkState [MSystem (prompt (get_project_structure (env s) (fs s)))] md
             (fs s) (env s) (trace s ++ [started_event md])).
Proof.
  intros Hload Hty Hc Hi md prompt. unfold handle_frame. rewrite Hload.
  unfold bind at 1. unfold ret at 1.
  unfold bind at 1. cbn [lift dict_get]. unfold ret at 1. rewrite Hty.
  cbn [negb]. unfold bind at 1. unfold ret at 1.
  unfold bind at 1. unfold initialize, send, log.
  cbn [trace messages mode fs env].
  unfold bind at 1. unfold ret at 1. unfold bind at 1. unfold ret at 1.
  rewrite Hc, Hi. reflexivity.
Qed.

End FrameFacts.

Lemma malformed_frame_ends_the_connection_witness :
  let answers : Scripted.script := [inr [Scripted.text_chunk "Hello."]] in
  (∀ kv, json_loads "[1]" ≠ Some (JObj kv))
  ∧ websocket_endpoint ([Scripted.frame_get_file] ++ "[1]" :: [Scripted.frame_hello])
                       answers ∅
    = websocket_endpoint [Scripted.frame_get_file] answers ∅.
Proof.
  intros answers.
  assert (H1 : ∀ kv, json_loads "[1]" ≠ Some (JObj kv))
    by (intros kv; vm_compute; discriminate).
  split; [exact H1|].
  exact (malformed_frame_ends_the_connection
           [Scripted.frame_get_file] [Scripted.frame_hello] "[1]" answers ∅ H1).
Defined.

Lemma file_request_is_answered_in_any_state_witness :
  let s := new_session ([] : Scripted.script) {[ ["notes.txt"] := File "to do" ]} in
  let kv := [("type", JStr "get_file_content"); ("path", JStr "notes.txt")] in
  (json_loads Scripted.frame_get_file = Some (JObj kv)
   ∧ Py.eq_str (default JNull (Py.assoc "type" kv)) "get_file_content" = true
   ∧ Py.assoc "path" kv = Some (JStr "notes.txt")
   ∧ names_an_entry "notes.txt" = true)
  ∧ handle_frame false Scripted.frame_get_file s
    = (Ok false,
       mkState (messages s) (mode s) (fs s) (env s)
               (trace s ++ [ACall "read_file" [JStr "notes.txt"];
                            ASend (EFileContent (JStr "notes.txt")
                                                (read_file (fs s) "notes.txt"))])).
Proof.
  intros s kv.
  assert (H1 : json_loads Scripted.frame_get_file = Some (JObj kv))
    by (vm_compute; reflexivity).
  assert (H2 : Py.eq_str (default JNull (Py.assoc "type" kv)) "get_file_content"
               = true) by reflexivity.
  assert (H3 : Py.assoc "path" kv = Some (JStr "notes.txt")) by reflexivity.
  assert (H4 : names_an_entry "notes.txt" = true) by (vm_compute; reflexivity).
  split; [auto|].
  exact (file_request_is_answered_in_any_state
           false Scripted.frame_get_file kv "notes.txt" s H1 H2 H3 H4).
Defined.

Lemma first_frame_without_content_only_initializes_witness :
  let s := new_session ([] : Scripted.script) ∅ in
  let data := "{" +:+ Scripted.q "mode" +:+ ":" +:+ Scripted.q "chat" +:+ "}" in
  let kv := [("mode", JStr "chat")] in
  (json_loads data = Some (JObj kv)
   ∧ Py.eq_str (default JNull (Py.assoc "type" kv)) "get_file_content" = false
   ∧ Py.truthy (default JNull (Py.assoc "content" kv)) = false
   ∧ Py.truthy (default JNull (Py.assoc "images" kv)) = false)
  ∧ handle_frame false data s
    = (Ok true,
       mkState [MSystem (PROMPT_CHAT (get_project_structure (env s) (fs s)))]
               (JStr "chat") (fs s) (env s)
               (trace s ++ [started_event (JStr "chat")])).
Proof.
  intros s data kv.
  assert (H1 : json_loads data = Some (JObj kv)) by (vm_compute; reflexivity).
  assert (H2 : Py.eq_str (default JNull (Py.assoc "type" kv)) "get_file_content"
               = false) by reflexivity.
  assert (H3 : Py.truthy (default JNull (Py.assoc "content" kv)) = false)
    by reflexivity.
  assert (H4 : Py.truthy (default JNull (Py.assoc "images" kv)) = false)
    by reflexivity.
  split; [auto|].
  exact (first_frame_without_content_only_initializes data kv s H1 H2 H3 H4).
Defined.

(* ===================================================================== *)
(** ** The transcript during a turn *)

Section TranscriptFacts.
Context {E : Type} `{Host E}.

Lemma handle_message_unfold (user_content images : json) (s : state E) :
  handle_message user_content images s
  = match user_message user_content images with
    | inl e => (Raise e, s)
    | inr m =>
        turn_loop 10 (allowed_tools_of (mode s))
                  (mkState (messages s ++ [m]) (mode s) (fs s) (env s)
                           (trace s ++ [AAppend m]))
    end.
Proof.
  unfold handle_message, user_message.
  destruct (Py.truthy images); [|reflexivity].
  destruct images; cbn [py_len py_iter lift]; try reflexivity;
    unfold bind at 1; unfold bind at 1; unfold ret at 1;
    case_bool_decide; reflexivity.
Qed.

Lemma chain_from_weaken (a b : list message) (ls : list (list message)) :
  a `prefix_of` b → chain_from b ls → chain_from a ls.
Proof.
  destruct ls as [|c ls]; [done|]. intros Hab [Hbc Hls].
  split; [by etrans | exact Hls].
Qed.

Lemma sent_transcripts_effect (l : list action) :
  Forall session_effect l → sent_transcripts l = [].
Proof.
  induction 1 as [|a l Ha _ IH]; [reflexivity|].
  destruct a; try contradiction; exact IH.
Qed.

Lemma turn_loop_chain (n : nat) (tools : list tool_def) (s : state E)
      (r : result unit) (s' : state E) :
  turn_loop n tools s = (r, s') →
  ∃ new,
    trace s' = trace s ++ new
    ∧ chain_from (messages s) (sent_transcripts new ++ [messages s']).
Proof.
  revert s. induction n as [|n IH]; intros s; cbn [turn_loop].
  - intros [= <- <-]. exists []. rewrite app_nil_r. by repeat split.
  - unfold bind. destruct (round tools s) as [f s1] eqn:Hround.
    destruct (round_spec _ _ _ _ Hround) as (new1 & Hshape & Ht & Hm & _).
    destruct (round_trace_rest _ _ _ _ _ Hshape) as (rest & -> & Hrest).
    assert (Hgrow : messages s `prefix_of` messages s1)
      by (rewrite Hm; by eexists).
    assert (Hone : s' = s1 →
              ∃ new, trace s' = trace s ++ new
                     ∧ chain_from (messages s)
                                  (sent_transcripts new ++ [messages s'])).
    { intros ->. eexists. split; [exact Ht|].
      cbn [sent_transcripts omap list_omap]. fold (sent_transcripts rest).
      rewrite (sent_transcripts_effect _ Hrest). by repeat split. }
    destruct f as [[| |]|x]; unfold ret;
      try (intros [= <- <-]; apply Hone; reflexivity).
    intros Hloop. destruct (IH s1 Hloop) as (new2 & Ht' & Hchain).
    eexists. split; [rewrite Ht', Ht, <- app_assoc; reflexivity|].
    unfold sent_transcripts. rewrite omap_app.
    cbn [omap list_omap]. fold (sent_transcripts rest) (sent_transcripts new2).
    rewrite (sent_transcripts_effect _ Hrest). cbn [app].
    split; [reflexivity|]. by eapply chain_from_weaken.
Qed.

Lemma requests_current_app (cur : list message) (l1 l2 : list action) :
  requests_current cur l1 →
  requests_current (cur ++ appended l1) l2 →
  requests_current cur (l1 ++ l2).
Proof.
  revert cur. induction l1 as [|a l1 IH]; intros cur H1 H2.
  - cbn in H2. by rewrite app_nil_r in H2.
  - destruct a as [msgs arg|ev|tool arguments|m]; cbn [app requests_current] in *.
    + destruct H1 as [-> H1]. split; [reflexivity|]. by apply IH.
    + by apply IH.
    + by apply IH.
    + apply IH; [exact H1|]. cbn [appended omap list_omap] in H2.
      fold (appended l1) in H2. by rewrite <- app_assoc.
Qed.

Lemma requests_current_effect (cur : list message) (l : list action) :
  Forall session_effect l → requests_current cur l.
Proof.
  intros Hl. revert cur. induction Hl as [|a l Ha _ IH]; intros cur; [exact I|].
  destruct a; cbn [requests_current]; try contradiction; apply IH.
Qed.

Lemma turn_loop_requests (n : nat) (tools : list tool_def) (s : state E)
      (r : result unit) (s' : state E) :
  turn_loop n tools s = (r, s') →
  ∃ new,
    trace s' = trace s ++ new
    ∧ messages s' = messages s ++ appended new
    ∧ requests_current (messages s) new.
Proof.
  revert s. induction n as [|n IH]; intros s; cbn [turn_loop].
  - intros [= <- <-]. exists []. rewrite !app_nil_r. by repeat split.
  - unfold bind. destruct (round tools s) as [f s1] eqn:Hround.
    destruct (round_spec _ _ _ _ Hround) as (new1 & Hshape & Ht & Hm & _).
    destruct (round_trace_rest _ _ _ _ _ Hshape) as (rest & -> & Hrest).
    assert (Hcur : requests_current (messages s)
                     (ARequest (messages s) (tools_arg tools) :: rest)).
    { split; [reflexivity | by apply requests_current_effect]. }
    destruct f as [[| |]|x]; unfold ret;
      try (intros [= <- <-]; eexists; split; [exact Ht|]; split; [exact Hm|];
           exact Hcur).
    intros Hloop. destruct (IH s1 Hloop) as (new2 & Ht' & Hm' & Hcur').
    eexists. split; [rewrite Ht', Ht, <- app_assoc; reflexivity|].
    split; [rewrite Hm', Hm, appended_app, <- app_assoc; reflexivity|].
    apply requests_current_app; [exact Hcur|]. by rewrite <- Hm.
Qed.

(** X12. History is never cut during a turn. Replaying what
    [handle_message] does, every completion request carries exactly the
    transcript as it stands when the request is made: the transcript at
    the start of the turn and every message appended since, in order. The
    transcript at the end is the one at the start with the messages
    appended; so the transcripts sent, in order, and the final one form a
    chain in which each extends the one before, and no message is ever
    removed or rewritten. *)
Theorem requests_carry_the_whole_transcript
        (user_content images : json) (s : state E) :
  ∃ new,
    trace (handle_message user_content images s).2 = trace s ++ new
    ∧ messages (handle_message user_content images s).2
      = messages s ++ appended new
    ∧ requests_current (messages s) new
    ∧ chain_from (messages s)
        (sent_transcripts new
         ++ [messages (handle_message user_content images s).2]).
Proof.
  rewrite handle_message_unfold.
  destruct (user_message user_content images) as [e|m].
  - exists []. rewrite !app_nil_r. by repeat split.
  - match goal with
    | |- context [turn_loop 10 ?tools ?s0] =>
        destruct (turn_loop 10 tools s0) as [r s'] eqn:Hloop
    end.
    destruct (turn_loop_chain _ _ _ _ _ Hloop) as (new & Ht & Hchain).
    destruct (turn_loop_requests _ _ _ _ _ Hloop) as (new' & Ht' & Hm & Hcur).
    cbn [trace messages snd] in *.
    assert (new' = new) as -> by (eapply app_inv_head; by rewrite <- Ht, <- Ht').
    exists (AAppend m :: new).
    split; [rewrite Ht, <- app_assoc; reflexivity|].
    split; [rewrite Hm, <- app_assoc; reflexivity|].
    split; [exact Hcur|].
    cbn [sent_transcripts omap list_omap]. fold (sent_transcripts new).
    eapply chain_from_weaken; [|exact Hchain]. by eexists.
Qed.

End TranscriptFacts.

(* ===================================================================== *)
(** ** The declared parameters of the tools *)

Section ParameterFacts.
Context {E : Type} `{Host E}.

(** X13. The dispatch agrees with the declarations of [TOOL_DEFINITIONS]:
    a call of a declared tool reads its argument record at the declared
    parameters and nowhere else. Two calls of the same tool, with the same
    id, whose argument records agree on the declared parameters do exactly
    the same, whatever else the records hold. *)
Theorem undeclared_arguments_are_ignored
        (t : tool_def) (tc1 tc2 : call) (kv1 kv2 : list (string * json))
        (s : state E) :
  t ∈ TOOL_DEFINITIONS →
  name tc1 = Some (t_name t) →
  name tc2 = Some (t_name t) →
  id tc1 = id tc2 →
  json_loads (args tc1) = Some (JObj kv1) →
  json_loads (args tc2) = Some (JObj kv2) →
  (∀ p, p ∈ t_properties t → Py.assoc (p_name p) kv1 = Py.assoc (p_name p) kv2) →
  run_tool_call tc1 s = run_tool_call tc2 s.
Proof.
  intros Ht Hn1 Hn2 Hid Hl1 Hl2 Hsame. unfold run_tool_call.
  rewrite Hn1, Hn2, Hid, Hl1, Hl2. cbn [default from_option Datatypes.id].
  unfold TOOL_DEFINITIONS in Ht.
  repeat (apply elem_of_cons in Ht as [->|Ht];
          [cbn [t_name t_properties] in *;
           unfold is_tool; repeat case_bool_decide; try congruence;
           cbn [lift dict_get];
           repeat match goal with
                  | |- context [Py.assoc ?k kv1] =>
                      rewrite (Hsame {| p_name := k; p_type := "string";
                                        p_description := _ |})
                        by (repeat constructor)
                  end;
           reflexivity|]).
  by apply elem_of_nil in Ht.
Qed.

End ParameterFacts.

Lemma undeclared_arguments_are_ignored_witness :
  let t := {| t_name := "read_file";
              t_description := "Read the contents of a file.";
              t_properties := [ {| p_name := "path"; p_type := "string";
                                   p_description := None |} ];
              t_required := ["path"] |} in
  let a1 := "{" +:+ Scripted.q "path" +:+ ":" +:+ Scripted.q "notes.txt" +:+ ","
            +:+ Scripted.q "encoding" +:+ ":" +:+ Scripted.q "latin-1" +:+ "}" in
  let a2 := "{" +:+ Scripted.q "path" +:+ ":" +:+ Scripted.q "notes.txt" +:+ "}" in
  let tc1 := {| id := Some "call_a"; name := Some "read_file"; args := a1 |} in
  let tc2 := {| id := Some "call_a"; name := Some "read_file"; args := a2 |} in
  let kv1 := [("path", JStr "notes.txt"); ("encoding", JStr "latin-1")] in
  let kv2 := [("path", JStr "notes.txt")] in
  let s := Scripted.session "agent" [] in
  (t ∈ TOOL_DEFINITIONS
   ∧ name tc1 = Some (t_name t) ∧ name tc2 = Some (t_name t) ∧ id tc1 = id tc2
   ∧ json_loads (args tc1) = Some (JObj kv1)
   ∧ json_loads (args tc2) = Some (JObj kv2)
   ∧ (∀ p, p ∈ t_properties t →
           Py.assoc (p_name p) kv1 = Py.assoc (p_name p) kv2))
  ∧ run_tool_call tc1 s = run_tool_call tc2 s.
Proof.
  intros t a1 a2 tc1 tc2 kv1 kv2 s.
  assert (H0 : t ∈ TOOL_DEFINITIONS) by (left).
  assert (H1 : name tc1 = Some (t_name t)) by reflexivity.
  assert (H2 : name tc2 = Some (t_name t)) by reflexivity.
  assert (H3 : id tc1 = id tc2) by reflexivity.
  assert (H4 : json_loads (args tc1) = Some (JObj kv1)) by (vm_compute; reflexivity).
  assert (H5 : json_loads (args tc2) = Some (JObj kv2)) by (vm_compute; reflexivity).
  assert (H6 : ∀ p, p ∈ t_properties t →
                    Py.assoc (p_name p) kv1 = Py.assoc (p_name p) kv2).
  { intros p Hp. apply list_elem_of_singleton in Hp as ->. reflexivity. }
  split; [auto 10|].
  exact (undeclared_arguments_are_ignored t tc1 tc2 kv1 kv2 s H0 H1 H2 H3 H4 H5 H6).
Defined.

(* ===================================================================== *)
(** ** What changes the file tree *)

Section TreeFacts.
Context {E : Type} `{Host E}.

Lemma keeps_tree_ret {A : Type} (a : A) : keeps_tree (ret a : M E A).
Proof. intros s r s' [= <- <-]. exists []. by rewrite app_nil_r. Qed.

Lemma keeps_tree_raise {A : Type} (e : pyexn) : keeps_tree (raise e : M E A).
Proof. intros s r s' [= <- <-]. exists []. by rewrite app_nil_r. Qed.

Lemma keeps_tree_lift {A : Type} (x : pyexn + A) : keeps_tree (lift x : M E A).
Proof. destruct x; [apply keeps_tree_raise | apply keeps_tree_ret]. Qed.

Lemma keeps_tree_bind {A B : Type} (m : M E A) (k : A → M E B) :
  keeps_tree m → (∀ a, keeps_tree (k a)) → keeps_tree (bind m k).
Proof.
  intros Hm Hk s r s'. unfold bind.
  destruct (m s) as [[a|e] s1] eqn:Hrun;
    destruct (Hm _ _ _ Hrun) as (new1 & Ht1 & Hfs1).
  - intros Hrest. destruct (Hk a _ _ _ Hrest) as (new2 & Ht2 & Hfs2).
    exists (new1 ++ new2). split; [by rewrite Ht2, Ht1, app_assoc|].
    rewrite existsb_app. intros [H1 H2]%orb_false_elim.
    by rewrite (Hfs2 H2), (Hfs1 H1).
  - intros [= <- <-]. eauto.
Qed.

Lemma keeps_tree_log (a : action) : mutating a = false → keeps_tree (log a : M E unit).
Proof. intros Ha s r s' [= <- <-]. exists [a]. auto. Qed.

Lemma keeps_tree_send (ev : event) : keeps_tree (send ev : M E unit).
Proof. by apply keeps_tree_log. Qed.

Lemma keeps_tree_append (m : message) : keeps_tree (append_message m : M E unit).
Proof. intros s r s' [= <- <-]. exists [AAppend m]. auto. Qed.

Lemma keeps_tree_get_mode : keeps_tree (get_mode : M E json).
Proof. intros s r s' [= <- <-]. exists []. by rewrite app_nil_r. Qed.

Lemma keeps_tree_create (tools : list tool_def) : keeps_tree (create tools).
Proof.
  intros s r s'. unfold create.
  destruct (completions_create _ _ _) as [e' x]. intros [= <- <-].
  eexists. split; [reflexivity|]. auto.
Qed.

Lemma keeps_tree_urandom : keeps_tree urandom.
Proof.
  intros s r s'. unfold urandom. destruct (urandom_hex _) as [e' x].
  intros [= <- <-]. exists []. by rewrite app_nil_r.
Qed.

Lemma keeps_tree_run_terminal_command (command : json) :
  keeps_tree (run_terminal_command command).
Proof.
  intros s r s'. unfold run_terminal_command.
  destruct (subprocess_run _ _ _) as [[e' fs'] out]. intros [= <- <-].
  eexists. split; [reflexivity|]. discriminate.
Qed.

Lemma keeps_tree_web_search (query : json) : keeps_tree (web_search query).
Proof.
  intros s r s'. unfold web_search.
  destruct (ddgs_text _ _) as [e' out]. intros [= <- <-].
  eexists. split; [reflexivity|]. auto.
Qed.

Lemma keeps_tree_call_read_file (path : json) : keeps_tree (call_read_file path).
Proof.
  intros s r s'. unfold call_read_file.
  destruct (match path with JStr p => _ | _ => _ end) as [e' text].
  intros [= <- <-]. eexists. split; [reflexivity|]. auto.
Qed.

Lemma keeps_tree_call_write_file (path : json) (content : string) :
  keeps_tree (call_write_file path content : M E string).
Proof.
  intros s r s'. unfold call_write_file.
  destruct (match path with JStr p => _ | _ => _ end) as [text fs'].
  intros [= <- <-]. eexists. split; [reflexivity|]. discriminate.
Qed.

Lemma keeps_tree_initialize (md : json) : keeps_tree (initialize md).
Proof.
  intros s r s'. unfold initialize, send, log. intros [= <- <-].
  eexists. split; [reflexivity|]. auto.
Qed.

Ltac keeps_tree_step :=
  first
    [ apply keeps_tree_ret | apply keeps_tree_raise | apply keeps_tree_lift
    | apply keeps_tree_send | apply keeps_tree_append | apply keeps_tree_get_mode
    | apply keeps_tree_create | apply keeps_tree_urandom
    | apply keeps_tree_run_terminal_command | apply keeps_tree_web_search
    | apply keeps_tree_call_read_file | apply keeps_tree_call_write_file
    | apply keeps_tree_initialize
    | match goal with Hyp : _ |- _ => apply Hyp end
    | apply keeps_tree_bind; [|intros ?]
    | match goal with
      | |- keeps_tree (if ?b then _ else _) => destruct b
      | |- keeps_tree (match ?x with _ => _ end) => destruct x
      end ].

Lemma keeps_tree_run_tool_call (tc : call) : keeps_tree (run_tool_call tc).
Proof. unfold run_tool_call. repeat keeps_tree_step. Qed.

Lemma keeps_tree_run_tool_calls (d : gmap Z call) (keys : list Z) :
  keeps_tree (run_tool_calls d keys).
Proof.
  induction keys as [|k keys IH]; cbn [run_tool_calls]; unfold subscript;
    pose proof keeps_tree_run_tool_call; repeat keeps_tree_step.
Qed.

Lemma keeps_tree_build (d : gmap Z call) (keys : list Z) :
  keeps_tree (build_tool_calls_msg d keys : M E _).
Proof.
  induction keys as [|k keys IH]; cbn [build_tool_calls_msg]; unfold subscript;
    repeat keeps_tree_step.
Qed.

Lemma keeps_tree_consume (tid : string) (stream : list chunk) (t : string)
      (d : gmap Z call) :
  keeps_tree (consume tid stream t d : M E _).
Proof.
  revert t d. induction stream as [|ch stream IH]; intros t d; cbn [consume];
    repeat keeps_tree_step.
Qed.

Lemma keeps_tree_round (tools : list tool_def) : keeps_tree (round tools).
Proof.
  unfold round.
  pose proof keeps_tree_consume. pose proof keeps_tree_build.
  pose proof keeps_tree_run_tool_calls.
  repeat keeps_tree_step.
Qed.

Lemma keeps_tree_turn_loop (n : nat) (tools : list tool_def) :
  keeps_tree (turn_loop n tools).
Proof.
  induction n as [|n IH]; cbn [turn_loop]; pose proof keeps_tree_round;
    repeat keeps_tree_step.
Qed.

Lemma keeps_tree_handle_message (user_content images : json) :
  keeps_tree (handle_message user_content images).
Proof.
  unfold handle_message. pose proof keeps_tree_turn_loop.
  repeat keeps_tree_step.
Qed.

Lemma keeps_tree_handle_frame (initialized : bool) (data : string) :
  keeps_tree (handle_frame initialized data).
Proof.
  unfold handle_frame. pose proof keeps_tree_handle_message.
  repeat keeps_tree_step.
Qed.

Lemma keeps_tree_serve (initialized : bool) (frames : list string) :
  keeps_tree (serve initialized frames).
Proof.
  revert initialized. induction frames as [|data frames IH]; intros initialized;
    cbn [serve]; pose proof keeps_tree_handle_frame; repeat keeps_tree_step.
Qed.

(** X14. Over a whole connection, whatever the client sends and the
    completion service answers, the file tree is changed only by calls of
    [write_file] and [run_terminal_command]: when the log of the
    connection holds no call of these two tools, the tree at the end is
    the tree at the start. Opening the session, file requests, [read_file]
    and [web_search] never write. *)
Theorem only_two_tools_change_the_file_tree
        (frames : list string) (e : E) (t : tree) :
  existsb mutating (trace (websocket_endpoint frames e t)) = false →
  fs (websocket_endpoint frames e t) = t.
Proof.
  unfold websocket_endpoint.
  destruct (serve false frames (new_session e t)) as [r s'] eqn:Hrun.
  destruct (keeps_tree_serve _ _ _ _ _ Hrun) as (new & Ht & Hfs).
  cbn [snd new_session trace fs app] in *. rewrite Ht. exact Hfs.
Qed.

End TreeFacts.

Lemma only_two_tools_change_the_file_tree_witness :
  let frames := [Scripted.frame_get_file; Scripted.frame_hello] in
  let t : tree := {[ ["notes.txt"] := File "to do" ]} in
  existsb mutating (trace (@websocket_endpoint nat Obedient.host frames 0%nat t))
  = false
  ∧ fs (@websocket_endpoint nat Obedient.host frames 0%nat t) = t.
Proof.
  intros frames t.
  assert (H1 : existsb mutating
                 (trace (@websocket_endpoint nat Obedient.host frames 0%nat t))
               = false) by (vm_compute; reflexivity).
  split; [exact H1|].
  exact (only_two_tools_change_the_file_tree frames 0%nat t H1).
Defined.

(* ===================================================================== *)
(** ** Images that are not a list *)

Section ImageFacts.
Context {E : Type} `{Host E}.

Lemma length_chars (u : string) : length (chars u) = String.length u.
Proof. induction u as [|a u IH]; [reflexivity|]. simpl. by rewrite IH. Qed.

(** X15. [handle_message] takes [images] as it comes from the frame. A
    non-empty string in place of the list gives a user message with one
    image block per character of the string. A number other than zero
    (an integer, positive or negative, or a float) and [true] have no
    length: the turn raises [TypeError] before the user message is
    appended and before any request. *)
Theorem images_that_are_no_list (user_content : json) (s : state E) :
  (∀ a u,
      handle_message user_content (JStr (String a u)) s
      = turn_loop 10 (allowed_tools_of (mode s))
          (mkState (messages s ++ [MUserBlocks user_content (chars (String a u))])
                   (mode s) (fs s) (env s)
                   (trace s ++ [AAppend (MUserBlocks user_content
                                                      (chars (String a u)))]))
      ∧ length (chars (String a u)) = String.length (String a u))
  ∧ (∀ n, n ≠ 0 →
          handle_message user_content (JInt n) s
          = (Raise (TypeError "object of type 'int' has no len()"), s))
  ∧ (∀ repr, handle_message user_content (JFloat true repr) s
             = (Raise (TypeError "object of type 'float' has no len()"), s))
  ∧ handle_message user_content (JBool true) s
    = (Raise (TypeError "object of type 'bool' has no len()"), s).
Proof.
  split; [|split; [|split]].
  - intros a u. split; [|apply length_chars].
    rewrite handle_message_unfold. reflexivity.
  - intros n Hn. rewrite handle_message_unfold. unfold user_message.
    cbn [Py.truthy]. apply Z.eqb_neq in Hn. rewrite Hn. reflexivity.
  - intros repr. rewrite handle_message_unfold. reflexivity.
  - rewrite handle_message_unfold. reflexivity.
Qed.

End ImageFacts.

(* ===================================================================== *)
(** ** The project structure *)

Section StructureFacts.
Import Structure.

Lemma level_of_cons (c : ascii) (s : string) :
  level_of (String c s)
  = if decide (c = PyStr.sep) then S (level_of s) else level_of s.
Proof.
  unfold level_of, replace, count. cbn [replace_from PyStr.startswith].
  destruct (decide ("."%char = c)) as [<-|Hdot].
  - cbn [PyStr.startswith String.length Nat.sub]. reflexivity.
  - cbn [count_from PyStr.startswith].
    destruct (decide ("/"%char = c)) as [<-|Hsep].
    + cbn [PyStr.startswith String.length Nat.sub].
      rewrite decide_True by reflexivity. reflexivity.
    + rewrite decide_False by (unfold PyStr.sep; congruence). reflexivity.
Qed.

Lemma level_of_app (a b : string) : level_of (a +:+ b) = (level_of a + level_of b)%nat.
Proof.
  induction a as [|c a IH]; [reflexivity|].
  change (String c a +:+ b) with (String c (a +:+ b)).
  rewrite !level_of_cons, IH. by destruct (decide (c = PyStr.sep)).
Qed.

Lemma level_of_plain (d : string) : occurs PyStr.sep d = false → level_of d = 0%nat.
Proof.
  induction d as [|c d IH]; [reflexivity|]. cbn [occurs]. rewrite level_of_cons.
  destruct (decide (c = PyStr.sep)); [discriminate | exact IH].
Qed.

Lemma cut_last_sep_plain (d : string) :
  occurs PyStr.sep d = false → PyStr.cut_last_sep d = ("", d).
Proof.
  induction d as [|c d IH]; [reflexivity|]. cbn [occurs PyStr.cut_last_sep].
  destruct (decide (c = PyStr.sep)); [discriminate|].
  intros Hd. rewrite (IH Hd). reflexivity.
Qed.

Lemma basename_below (a d : string) :
  occurs PyStr.sep d = false → basename (a +:+ "/" +:+ d) = d.
Proof.
  intros Hd. unfold basename.
  assert (Hcut : PyStr.cut_last_sep (a +:+ "/" +:+ d) = (a +:+ "/", d)).
  { induction a as [|c a IH].
    - change ("" +:+ "/" +:+ d) with (String "/" d).
      cbn [PyStr.cut_last_sep]. rewrite (cut_last_sep_plain _ Hd).
      reflexivity.
    - change (String c a +:+ "/" +:+ d) with (String c (a +:+ "/" +:+ d)).
      cbn [PyStr.cut_last_sep]. rewrite IH.
      destruct a; reflexivity. }
  by rewrite Hcut.
Qed.

Lemma endswith_sep_plain (d : string) :
  occurs PyStr.sep d = false → endswith_sep d = false.
Proof.
  induction d as [|c d IH]; [reflexivity|]. cbn [occurs endswith_sep].
  destruct (decide (c = PyStr.sep)) as [|Hc]; [discriminate|].
  intros Hd. destruct d; [by apply bool_decide_eq_false_2 | by apply IH].
Qed.

Lemma endswith_sep_app (a b : string) :
  PyStr.is_empty b = false → endswith_sep (a +:+ b) = endswith_sep b.
Proof.
  intros Hb. induction a as [|c a IH]; [reflexivity|].
  change (String c a +:+ b) with (String c (a +:+ b)).
  cbn [endswith_sep]. destruct (a +:+ b) eqn:Hab; [|exact IH].
  destruct a, b; discriminate.
Qed.

Lemma join_below (top d : string) :
  open_root top → plain_name d = true → join top d = top +:+ "/" +:+ d.
Proof.
  intros [Hne Hend] [Hd Hsep]%andb_true_iff. unfold join.
  apply negb_true_iff in Hd, Hsep.
  destruct d as [|c d]; [discriminate|].
  cbn [PyStr.startswith]. cbn [occurs] in Hsep.
  destruct (decide (c = PyStr.sep)); [discriminate|].
  rewrite decide_False by (unfold PyStr.sep in *; congruence).
  by rewrite Hne, Hend.
Qed.

Lemma open_root_below (top d : string) :
  plain_name d = true → open_root (top +:+ "/" +:+ d).
Proof.
  intros [Hd Hsep]%andb_true_iff. apply negb_true_iff in Hd, Hsep. split.
  - destruct top; reflexivity.
  - rewrite endswith_sep_app by reflexivity.
    change ("/" +:+ d) with (String "/" d). cbn [endswith_sep].
    destruct d; [discriminate|]. by apply (endswith_sep_plain (String _ _)).
Qed.

Lemma below_is_not_the_path (top d : string) :
  PyStr.is_empty top = false → top +:+ "/" +:+ d ≠ ".".
Proof. destruct top as [|c [|c' top]]; [discriminate| |]; intros _ [=]. Qed.

Lemma flat_map_flat_map {A B C : Type} (f : B → list C) (g : A → list B)
      (l : list A) :
  flat_map f (flat_map g l) = flat_map (λ x, flat_map f (g x)) l.
Proof.
  induction l as [|x l IH]; [reflexivity|]. cbn [flat_map].
  by rewrite flat_map_app, IH.
Qed.

Lemma flat_map_Forall_ext {A B : Type} (f g : A → list B) (l : list A) :
  Forall (λ x, f x = g x) l → flat_map f l = flat_map g l.
Proof.
  induction 1 as [|x l Hx _ IH]; [reflexivity|]. cbn [flat_map]. by rewrite Hx, IH.
Qed.

Lemma lines_of_below (here top d : string) (ds fls : list string) :
  open_root top → plain_name d = true →
  lines_of here "." (top +:+ "/" +:+ d, ds, fls)
  = (times "  " (S (level_of top)) +:+ d +:+ "/")
    :: map (λ f, times "  " (S (S (level_of top))) +:+ f) fls.
Proof.
  intros [Hne _] Hd. pose proof Hd as [_ Hsep%negb_true_iff]%andb_true_iff.
  unfold lines_of. fold (level_of (top +:+ "/" +:+ d)).
  rewrite decide_False by by apply below_is_not_the_path.
  rewrite basename_below by exact Hsep.
  rewrite !level_of_app, (level_of_plain _ Hsep).
  change (level_of "/") with 1%nat.
  replace (level_of top + (1 + 0))%nat with (S (level_of top)) by lia.
  replace (S (level_of top) + 1)%nat with (S (S (level_of top))) by lia.
  reflexivity.
Qed.

Lemma walk_entry_draws (here : string) (e : entry) :
  ∀ top, open_root top → plain_entry e = true →
         flat_map (lines_of here ".") (walk_entry kept top e)
         = draw_entry (level_of top) e.
Proof.
  induction e as [f|d|d l IH] using entry_induction; intros top Htop Hplain;
    try reflexivity.
  cbn [plain_entry] in Hplain. apply andb_true_iff in Hplain as [Hd Hl].
  cbn [walk_entry draw_entry]. destruct (kept d); [|reflexivity].
  rewrite (join_below _ _ Htop Hd). cbn [flat_map].
  rewrite (lines_of_below _ _ _ _ _ Htop Hd). cbn [app]. f_equal. f_equal.
  rewrite flat_map_flat_map. apply flat_map_Forall_ext.
  rewrite forallb_forall in Hl.
  apply Forall_forall. intros x Hx.
  rewrite Forall_forall in IH. rewrite (IH x Hx); [|by apply open_root_below|].
  - rewrite !level_of_app, (level_of_plain d).
    + change (level_of "/") with 1%nat. f_equal. lia.
    + apply andb_true_iff in Hd as [_ Hd]. by apply negb_true_iff.
  - apply Hl. by apply list_elem_of_In.
Qed.

(** X16. The structure sent in the system prompt, for a working directory
    whose directory names are plain: the name of the working directory,
    then each kept directory under its parent, two spaces deeper per
    level, its files before its directories and one step deeper than its
    own line. The level the code reads off the root string, with every
    [.] of it removed, is the depth, also for names that hold dots; files
    are never filtered, also those named like an ignored directory. *)
Theorem structure_is_drawn_by_depth (here : string) (entries : list entry) :
  plain_names entries = true →
  get_project_structure here (Some entries)
  = PyStr.join nl (draw (basename here +:+ "/") entries).
Proof.
  intros Hplain. unfold get_project_structure, draw, walk. f_equal.
  cbn [flat_map lines_of]. rewrite decide_True by reflexivity.
  cbn [app]. f_equal. f_equal.
  rewrite flat_map_flat_map. apply flat_map_Forall_ext, Forall_forall.
  intros e He. apply (walk_entry_draws here e ".").
  - by split.
  - unfold plain_names in Hplain. rewrite forallb_forall in Hplain.
    apply Hplain. by apply list_elem_of_In.
Qed.

Lemma files_prune (l : list entry) : files (flat_map prune_entry l) = files l.
Proof.
  induction l as [|e l IH]; [reflexivity|]. cbn [flat_map]. unfold files in *.
  rewrite omap_app, IH.
  destruct e as [f|d sub]; cbn [prune_entry]; [reflexivity|].
  destruct (kept d); reflexivity.
Qed.

Lemma dirs_prune (l : list entry) :
  List.filter kept (dirs (flat_map prune_entry l)) = List.filter kept (dirs l).
Proof.
  induction l as [|e l IH]; [reflexivity|]. cbn [flat_map]. unfold dirs in *.
  rewrite omap_app, List.filter_app, IH.
  destruct e as [f|d sub]; cbn [prune_entry]; [reflexivity|].
  destruct (kept d) eqn:Hd; cbn [omap list_omap app List.filter]; by rewrite ?Hd.
Qed.

Lemma walk_entry_prune (e : entry) :
  ∀ top, flat_map (walk_entry kept top) (prune_entry e) = walk_entry kept top e.
Proof.
  induction e as [f|d|d l IH] using entry_induction; intros top.
  - reflexivity.
  - cbn [prune_entry]. destruct (kept d); reflexivity.
  - cbn [prune_entry walk_entry]. destruct (kept d) eqn:Hd; [|reflexivity].
    cbn [flat_map walk_entry]. rewrite Hd, app_nil_r.
    rewrite files_prune, dirs_prune. f_equal.
    rewrite flat_map_flat_map. apply flat_map_Forall_ext.
    eapply Forall_impl; [exact IH|]. intros x Hx. apply Hx.
Qed.

Lemma structure_of_pruned (here : string) (entries : list entry) :
  get_project_structure here (Some (prune entries))
  = get_project_structure here (Some entries).
Proof.
  unfold get_project_structure, walk, prune. f_equal. cbn [flat_map].
  rewrite files_prune, dirs_prune. f_equal.
  rewrite !flat_map_flat_map. apply flat_map_Forall_ext, Forall_forall.
  intros e _. by rewrite <- flat_map_flat_map, walk_entry_prune.
Qed.

(** X17. Ignored directories leave no trace in the structure: two working
    directories that differ only in directories named in [ignore_dirs], at
    any depth, and in what is below them, give the same text. *)
Theorem ignored_directories_leave_no_trace
        (here : string) (entries1 entries2 : list entry) :
  prune entries1 = prune entries2 →
  get_project_structure here (Some entries1)
  = get_project_structure here (Some entries2).
Proof.
  intros Hsame.
  by rewrite <- (structure_of_pruned here entries1), Hsame, structure_of_pruned.
Qed.

End StructureFacts.

Lemma structure_is_drawn_by_depth_witness :
  let entries :=
    [ Structure.FileEntry "main.py";
      Structure.DirEntry "src"
        (Some [ Structure.FileEntry "app.test.js";
                Structure.DirEntry "my.pkg" (Some [Structure.FileEntry "x.py"]) ]);
      Structure.DirEntry "node_modules" (Some [Structure.FileEntry "junk.js"]);
      Structure.FileEntry ".env" ] in
  Structure.plain_names entries = true
  ∧ Structure.get_project_structure "/home/dev/web-term" (Some entries)
    = PyStr.join nl
        (Structure.draw (Structure.basename "/home/dev/web-term" +:+ "/") entries).
Proof.
  intros entries.
  assert (H1 : Structure.plain_names entries = true) by (vm_compute; reflexivity).
  split; [exact H1|].
  exact (structure_is_drawn_by_depth "/home/dev/web-term" entries H1).
Defined.

Lemma ignored_directories_leave_no_trace_witness :
  let entries1 :=
    [ Structure.FileEntry "main.py";
      Structure.DirEntry "node_modules" (Some [Structure.FileEntry "junk.js"]);
      Structure.DirEntry "src"
        (Some [ Structure.DirEntry ".git" None; Structure.FileEntry "app.js" ]) ] in
  let entries2 :=
    [ Structure.FileEntry "main.py";
      Structure.DirEntry "src" (Some [ Structure.FileEntry "app.js" ]) ] in
  Structure.prune entries1 = Structure.prune entries2
  ∧ Structure.get_project_structure "/home/dev/web-term" (Some entries1)
    = Structure.get_project_structure "/home/dev/web-term" (Some entries2).
Proof.
  intros entries1 entries2.
  assert (H1 : Structure.prune entries1 = Structure.prune entries2)
    by (vm_compute; reflexivity).
  split; [exact H1|].
  exact (ignored_directories_leave_no_trace "/home/dev/web-term" entries1 entries2 H1).
Defined.

(* ===================================================================== *)
(** ** The previews of the file events *)

Section PreviewFacts.
Context {E : Type} `{Host E}.

Ltac run_session :=
  unfold bind, lift, dict_get, preview200, ret, raise, send, log,
    append_message, run_terminal_command, web_search, call_read_file,
    call_write_file; simpl.

Ltac each :=
  repeat first [ apply List.Forall_nil
               | apply List.Forall_cons;
                 [cbn [short_preview describes]; try exact I|] ].

Lemma length_take (n : nat) (s : string) : (String.length (PyStr.take n s) ≤ n)%nat.
Proof.
  revert s. induction n as [|n IH]; intros [|c s]; cbn [PyStr.take String.length];
    try lia. specialize (IH s). lia.
Qed.

Lemma length_append (a b : string) :
  String.length (a +:+ b) = (String.length a + String.length b)%nat.
Proof.
  induction a as [|c a IH]; [reflexivity|].
  change (String c a +:+ b) with (String c (a +:+ b)).
  cbn [String.length]. by rewrite IH.
Qed.

#[local] Arguments PyStr.take : simpl never.
#[local] Arguments PyStr.count_lines : simpl never.

(** X18. Whatever the size of a file, the events that a tool call sends
    about it stay short: the result event of [read_file] carries at most
    500 characters and the start event of [write_file] at most 203, while
    the tool message for the model carries the whole text read. The
    result event of [read_file] gives the line count and the first 500
    characters of exactly the text of that tool message. *)
Theorem file_events_carry_short_previews (tc : call) (s : state E) :
  ∃ new,
    trace (run_tool_call tc s).2 = trace s ++ new
    ∧ Forall short_preview new
    ∧ ∀ cid content, AAppend (MTool cid content) ∈ new →
                     Forall (describes content) new.
Proof.
  unfold run_tool_call.
  set (a := default (JObj []) (json_loads (args tc))).
  set (eid := "evt-" +:+ fmt_opt (id tc)).
  unfold is_tool.
  assert (Hnone : ∃ new : list action,
             trace s = trace s ++ new ∧ Forall short_preview new
             ∧ ∀ cid content, AAppend (MTool cid content) ∈ new →
                              Forall (describes content) new).
  { exists []. rewrite app_nil_r. split; [reflexivity|]. split; [constructor|].
    intros ? ? Hin. by apply elem_of_nil in Hin. }
  destruct (bool_decide (name tc = Some "run_terminal_command")).
  { destruct a; try exact Hnone. run_session.
    destruct (subprocess_run _ _ _) as [[e' fs'] out]; simpl.
    rewrite <- !app_assoc. eexists. split; [reflexivity|].
    split; [each|]. intros; each. }
  destruct (bool_decide (name tc = Some "read_file")).
  { destruct a; try exact Hnone. run_session.
    destruct (match default (JStr "") (Py.assoc "path" fields) with
              | JStr p => _ | _ => _ end) as [e' text]; simpl.
    rewrite <- !app_assoc. eexists. split; [reflexivity|].
    split; [each; apply length_take|].
    intros cid content Hin.
    repeat (apply elem_of_cons in Hin as [Heq|Hin]; [try discriminate Heq|]);
      [|by apply elem_of_nil in Hin].
    injection Heq as _ ->. each. by split. }
  destruct (bool_decide (name tc = Some "write_file")).
  { destruct a; try exact Hnone. run_session.
    destruct (default (JStr "") (Py.assoc "content" fields)) eqn:Hc;
      try exact Hnone.
    simpl.
    destruct (match default (JStr "") (Py.assoc "path" fields) with
              | JStr p => _ | _ => _ end) as [text fs']; simpl.
    rewrite <- !app_assoc. eexists. split; [reflexivity|].
    split; [|intros; each].
    each. rewrite length_append. pose proof (length_take 200 s0). simpl. lia. }
  destruct (bool_decide (name tc = Some "web_search")).
  { destruct a; try exact Hnone. run_session.
    destruct (ddgs_text _ _) as [e' out]; simpl.
    rewrite <- !app_assoc. eexists. split; [reflexivity|].
    split; [each|]. intros; each. }
  run_session. eexists. split; [reflexivity|].
  split; [each|]. intros; each.
Qed.

End PreviewFacts.

(* ===================================================================== *)
(** ** Empty tool messages *)

Section AnswerFacts.
Context {E : Type} `{Host E}.

Lemma join_not_empty (sp x : string) (l : list string) :
  x ≠ "" → PyStr.join sp (x :: l) ≠ "".
Proof.
  intros Hx. cbn [PyStr.join]. destruct l; [exact Hx|].
  destruct x; [done | discriminate].
Qed.

Lemma run_terminal_command_text (command : json) (s : state E) :
  ∃ text s', run_terminal_command command s = (Ok text, s')
             ∧ text ≠ "" ∧ messages s' = messages s.
Proof.
  unfold run_terminal_command.
  destruct (subprocess_run _ _ _) as [[e' fs'] out].
  eexists _, _. split; [reflexivity|]. split; [|reflexivity].
  destruct out as [stdout stderr| |e]; try discriminate.
  destruct (PyStr.strip _); [discriminate | discriminate].
Qed.

Lemma web_search_text (query : json) (s : state E) :
  ∃ text s', web_search query s = (Ok text, s')
             ∧ text ≠ "" ∧ messages s' = messages s.
Proof.
  unfold web_search. destruct (ddgs_text _ _) as [e' out].
  eexists _, _. split; [reflexivity|]. split; [|reflexivity].
  destruct out as [[|r rows]|e]; try discriminate.
  apply (join_not_empty _ (format_row r) (map format_row rows)). discriminate.
Qed.

Lemma call_write_file_text (path : json) (content : string) (s : state E) :
  ∃ text s', call_write_file path content s = (Ok text, s')
             ∧ text ≠ "" ∧ messages s' = messages s.
Proof.
  unfold call_write_file.
  destruct path as [| | | |p| |];
    try (eexists _, _; split; [reflexivity|]; split; [discriminate | reflexivity]).
  unfold write_file.
  destruct (OS.makedirs _ _ _) as [[e|] fs1];
    [eexists _, _; split; [reflexivity|]; split; [discriminate | reflexivity]|].
  destruct (OS.write_text _ _ _);
    eexists _, _; (split; [reflexivity|]); (split; [discriminate | reflexivity]).
Qed.

(** X19. Only [read_file] can answer the model with nothing. The tool
    message of a call is the empty text only for a call of [read_file]
    (of an empty file): [write_file], [run_terminal_command] and
    [web_search] always say something, also when they fail or print
    nothing, and so does the answer to an unknown tool. *)
Theorem only_read_file_answers_with_nothing (tc : call) (s s' : state E) :
  run_tool_call tc s = (Ok tt, s') →
  messages s' = messages s ++ [MTool (id tc) ""] →
  name tc = Some "read_file".
Proof.
  unfold run_tool_call.
  set (a := default (JObj []) (json_loads (args tc))).
  unfold is_tool.
  assert (Hlast : ∀ (s1 : state E) (text : string),
             messages s1 = messages s → text ≠ "" →
             messages s1 ++ [MTool (id tc) text] ≠ messages s ++ [MTool (id tc) ""]).
  { intros s1 text -> Htext [=]%app_inv_head. done. }
  destruct (bool_decide (name tc = Some "run_terminal_command")).
  { destruct a; try discriminate. cbn [lift dict_get].
    unfold bind at 1. unfold bind at 1. unfold ret at 1.
    unfold bind at 1. unfold send at 1, log at 1.
    unfold bind at 1.
    match goal with
    | |- context [run_terminal_command ?c ?s0] =>
        destruct (run_terminal_command_text c s0) as (text & s1 & -> & Htext & Hm)
    end.
    unfold bind, send, log, ret, append_message. cbn [messages trace].
    intros [= <-]. cbn [messages]. intros Heq.
    exfalso. eapply (Hlast s1 text); [exact Hm | exact Htext | exact Heq]. }
  destruct (bool_decide (name tc = Some "read_file")) eqn:Hread.
  { intros _ _. by apply bool_decide_eq_true in Hread. }
  destruct (bool_decide (name tc = Some "write_file")).
  { destruct a; try discriminate. cbn [lift dict_get].
    unfold bind at 1. unfold bind at 1. unfold ret at 1.
    unfold bind at 1. unfold ret at 1.
    destruct (preview200 _) as [e|preview]; [discriminate|].
    cbn [lift]. unfold bind at 1. unfold ret at 1.
    unfold bind at 1. unfold send at 1, log at 1.
    unfold bind at 1.
    match goal with
    | |- context [call_write_file ?p ?c ?s0] =>
        destruct (call_write_file_text p c s0) as (text & s1 & -> & Htext & Hm)
    end.
    unfold bind, send, log, ret, append_message. cbn [messages trace].
    intros [= <-]. cbn [messages]. intros Heq.
    exfalso. eapply (Hlast s1 text); [exact Hm | exact Htext | exact Heq]. }
  destruct (bool_decide (name tc = Some "web_search")).
  { destruct a; try discriminate. cbn [lift dict_get].
    unfold bind at 1. unfold bind at 1. unfold ret at 1.
    unfold bind at 1. unfold send at 1, log at 1.
    unfold bind at 1.
    match goal with
    | |- context [web_search ?q ?s0] =>
        destruct (web_search_text q s0) as (text & s1 & -> & Htext & Hm)
    end.
    unfold bind, send, log, ret, append_message. cbn [messages trace].
    intros [= <-]. cbn [messages]. intros Heq.
    exfalso. eapply (Hlast s1 text); [exact Hm | exact Htext | exact Heq]. }
  unfold bind, ret, append_message. intros [= <-]. cbn [messages].
  intros [=]%app_inv_head.
Qed.

End AnswerFacts.

Lemma only_read_file_answers_with_nothing_witness :
  let tc := {| id := Some "call_a"; name := Some "read_file";
               args := "{" +:+ Scripted.q "path" +:+ ":" +:+ Scripted.q "empty.txt" +:+ "}" |} in
  let s := mkState [] (JStr "agent") ({[ ["empty.txt"] := File "" ]} : tree)
                   ([] : Scripted.script) [] in
  (run_tool_call tc s = (Ok tt, (run_tool_call tc s).2)
   ∧ messages (run_tool_call tc s).2 = messages s ++ [MTool (id tc) ""])
  ∧ name tc = Some "read_file".
Proof.
  intros tc s.
  assert (H1 : run_tool_call tc s = (Ok tt, (run_tool_call tc s).2))
    by (vm_compute; reflexivity).
  assert (H2 : messages (run_tool_call tc s).2 = messages s ++ [MTool (id tc) ""])
    by (vm_compute; reflexivity).
  split; [auto|].
  exact (only_read_file_answers_with_nothing tc s _ H1 H2).
Defined.

(* ===================================================================== *)
(** ** The order of the tool calls of a pass *)

Section RunOrderFacts.
Context {E : Type} `{Host E}.

Ltac run_session :=
  unfold bind, lift, dict_get, preview200, ret, raise, send, log,
    append_message, run_terminal_command, web_search, call_read_file,
    call_write_file; simpl.

#[local] Arguments PyStr.take : simpl never.
#[local] Arguments PyStr.count_lines : simpl never.







End RunOrderFacts.

